(** * ArucoWindow (scripts/aruco_interface.py): canvas layout and compositing

    A shallow embedding of the [ArucoWindow] class.  Python integers are [Z],
    Python floats are IEEE binary64 values ([spec_float] with [prec = 53],
    [emax = 1024]), numpy arrays are shape-carrying nested lists, and the
    methods are programs of a state-and-exception monad over the object, the
    heap of mutable arrays and the GUI event log. *)

From Stdlib Require Import ZArith Lia.
From Stdlib Require Import Floats.SpecFloat.
From stdpp Require Import base option list strings.

Local Open Scope Z_scope.

(** ** Exceptions and results *)

Inductive exn :=
  | ValueError
  | TypeError
  | AttributeError
  | OverflowError
  | cv2_error.

Inductive result (A : Type) :=
  | Ok (a : A)
  | Raise (e : exn).
Arguments Ok {A} a.
Arguments Raise {A} e.

Definition is_ok {A} (r : result A) : bool :=
  match r with Ok _ => true | Raise _ => false end.

Definition rbind {A B} (r : result A) (k : A -> result B) : result B :=
  match r with
  | Ok a => k a
  | Raise e => Raise e
  end.

(** ** Python numbers *)

Module Py.

(** A Python number is an [int] (unbounded) or a [float] (binary64). *)
Inductive num :=
  | Int (z : Z)
  | Float (f : spec_float).

Definition prec : Z := 53.
Definition emax : Z := 1024.

(** [float(z)]: correctly rounded, [OverflowError] when out of range. *)
Definition float_of_int (z : Z) : result spec_float :=
  match binary_normalize prec emax z 0 false with
  | S754_infinity _ => Raise OverflowError
  | f => Ok f
  end.

(** [a * b]: exact on two ints, otherwise the binary64 product after
    converting the int operand. *)
Definition mul (a b : num) : result num :=
  match a, b with
  | Int x, Int y => Ok (Int (x * y))
  | Int x, Float g =>
      rbind (float_of_int x) (fun f => Ok (Float (SFmul prec emax f g)))
  | Float f, Int y =>
      rbind (float_of_int y) (fun g => Ok (Float (SFmul prec emax f g)))
  | Float f, Float g => Ok (Float (SFmul prec emax f g))
  end.

(** The magnitude [m * 2^e] cut to an integer: the fraction is dropped. *)
Definition trunc_mag (m : positive) (e : Z) : Z :=
  if 0 <=? e then Z.pos m * 2 ^ e else Z.pos m / 2 ^ (- e).

(** [int(x)]: identity on ints; on floats the fraction is discarded
    (towards zero); infinities and NaN raise. *)
Definition int (x : num) : result Z :=
  match x with
  | Int z => Ok z
  | Float (S754_zero _) => Ok 0
  | Float (S754_finite s m e) => Ok (cond_Zopp s (trunc_mag m e))
  | Float (S754_infinity _) => Raise OverflowError
  | Float S754_nan => Raise ValueError
  end.

(** The exact value of a finite number as a fraction [(p, q)], [q > 0]. *)
Definition frac (x : num) : option (Z * Z) :=
  match x with
  | Int z => Some (z, 1)
  | Float (S754_zero _) => Some (0, 1)
  | Float (S754_finite s m e) =>
      Some (if 0 <=? e then (cond_Zopp s (Z.pos m * 2 ^ e), 1)
            else (cond_Zopp s (Z.pos m), 2 ^ (- e)))
  | Float _ => None
  end.

(** [n] is [x] with its fractional part discarded: between 0 and [x],
    less than one away from [x]. *)
Definition truncates (n : Z) (x : num) : Prop :=
  exists p q, frac x = Some (p, q) /\ 0 < q /\
    Z.abs n * q <= Z.abs p < (Z.abs n + 1) * q /\ 0 <= n * p.

End Py.

(** ** numpy arrays of rank 3, of integers *)

(** An array carries its shape (numpy keeps it even when a dimension is 0)
    and its elements, row by row, pixel by pixel, channel by channel. *)
Record ndarray := NdArray {
  rows : Z;
  cols : Z;
  chans : Z;
  data : list (list (list Z))
}.

(** The element list agrees with the declared shape. *)
Definition wf_data (h w c : Z) (d : list (list (list Z))) : Prop :=
  Z.of_nat (length d) = h /\
  Forall (fun row => Z.of_nat (length row) = w /\
                     Forall (fun px => Z.of_nat (length px) = c) row) d.

Definition wf (a : ndarray) : Prop :=
  0 <= rows a /\ 0 <= cols a /\ 0 <= chans a /\
  wf_data (rows a) (cols a) (chans a) (data a).

(** [a[i, j, k]] for non-negative indices; [None] out of bounds. *)
Definition get (a : ndarray) (i j k : Z) : option Z :=
  if (0 <=? i) && (0 <=? j) && (0 <=? k) then
    match data a !! Z.to_nat i with
    | Some row =>
        match row !! Z.to_nat j with
        | Some px => px !! Z.to_nat k
        | None => None
        end
    | None => None
    end
  else None.

(** The elements are integers.  In an array of dtype uint8 (the canvas,
    the tags, an image as [cv2.imread] returns it) they are bytes; storing
    an integer into such an array keeps its value modulo 256. *)
Definition to_uint8 (x : Z) : Z := x mod 256.

Definition uint8 (v : ndarray) : bool :=
  forallb (forallb (forallb (fun x => (0 <=? x) && (x <? 256)))) (data v).

(** [np.full((h, w, c), v, dtype="uint8")]; negative dimensions raise.
    Shapes are those of images: one too large to allocate, which numpy
    refuses as well, is outside this model. *)
Definition np_full (h w c : Z) (v : Z) : result ndarray :=
  if (h <? 0) || (w <? 0) || (c <? 0) then Raise ValueError
  else Ok (NdArray h w c
             (replicate (Z.to_nat h)
                (replicate (Z.to_nat w) (replicate (Z.to_nat c) v)))).

(** [np.zeros(shape, dtype="uint8")] *)
Definition np_zeros (h w c : Z) : result ndarray := np_full h w c 0.

(** [np.ones(shape, dtype="uint8") * 255] *)
Definition np_ones_255 (h w c : Z) : result ndarray :=
  rbind (np_full h w c 1)
        (fun a => Ok (NdArray (rows a) (cols a) (chans a)
                        (fmap (M := list) (fmap (M := list)
                           (fmap (M := list) (fun x => x * 255))) (data a)))).

(** ** Slices *)

(** A slice [start:stop] with both bounds given and step 1. *)
Record slice := Slice { start : Z; stop : Z }.

(** Bound adjustment of a slice index against an axis of length [len]:
    a negative index counts from the end, then the index is clamped to
    [0, len]. *)
Definition adjust (len i : Z) : Z :=
  if i <? 0 then Z.max (i + len) 0 else Z.min i len.

Definition slice_indices (s : slice) (len : Z) : Z * Z :=
  (adjust len (start s), adjust len (stop s)).

(** The rectangle of array positions [rs, cs] selects: rows [r0, r1) and
    columns [c0, c1). *)
Record rect := Rect { r0 : Z; r1 : Z; c0 : Z; c1 : Z }.

Definition resolve (h w : Z) (rs cs : slice) : rect :=
  let '(a, b) := slice_indices rs h in
  let '(c, d) := slice_indices cs w in
  Rect a b c d.

Definition in_rect (q : rect) (i j : Z) : bool :=
  (r0 q <=? i) && (i <? r1 q) && (c0 q <=? j) && (j <? c1 q).

Definition rect_h (q : rect) : Z := Z.max 0 (r1 q - r0 q).
Definition rect_w (q : rect) : Z := Z.max 0 (c1 q - c0 q).

(** ** Slice assignment with broadcasting *)

(** A value axis of length [dv] fits a target axis of length [dt] when the
    lengths agree or the value axis has length 1 (it is then repeated). *)
Definition fits (dv dt : Z) : bool := (dv =? dt) || (dv =? 1).

Definition broadcastable (v : ndarray) (th tw tc : Z) : bool :=
  fits (rows v) th && fits (cols v) tw && fits (chans v) tc.

(** Index into a value axis of length [dv] when broadcasting. *)
Definition bidx (dv i : Z) : Z := if dv =? 1 then 0 else i.

Definition bget (v : ndarray) (i j k : Z) : Z :=
  default 0 (get v (bidx (rows v) i) (bidx (cols v) j) (bidx (chans v) k)).

(** [a[rs, cs] = v] for a uint8 array [a]: the selected view has shape
    [(rect_h q, rect_w q, chans a)] for the
    rectangle [q] the slices resolve to; [v] is broadcast into it, each
    element cast to uint8, or [ValueError] is raised when the shapes do
    not fit. *)
Definition setitem (a : ndarray) (rs cs : slice) (v : ndarray) : result ndarray :=
  let q := resolve (rows a) (cols a) rs cs in
  if broadcastable v (rect_h q) (rect_w q) (chans a) then
    Ok (NdArray (rows a) (cols a) (chans a)
          (imap (fun i row =>
             imap (fun j px =>
               if in_rect q (Z.of_nat i) (Z.of_nat j)
               then imap (fun k _ =>
                      to_uint8
                        (bget v (Z.of_nat i - r0 q) (Z.of_nat j - c0 q) (Z.of_nat k))) px
               else px) row) (data a)))
  else Raise ValueError.

(** ** The object, the heap and the GUI *)

(** Mutable arrays live in a heap and are referred to by location, so that
    [.copy()] (a new array) and plain rebinding (the same array) differ. *)
Definition loc := nat.

Record ArucoWindow := mkArucoWindow {
  tag_size : Z;               (* size of the ArUco tags, in px *)
  tag_border : Z;             (* white border around the tags, in px *)
  image_rescale : Py.num;     (* factor the input image is rescaled by *)
  output_img : option loc;    (* None until the first allocation *)
  img_height : Z;
  img_width : Z;
  cursor : Z * Z
}.

Definition set_output_img (v : option loc) (o : ArucoWindow) : ArucoWindow :=
  mkArucoWindow (tag_size o) (tag_border o) (image_rescale o) v
                (img_height o) (img_width o) (cursor o).
Definition set_img_height (v : Z) (o : ArucoWindow) : ArucoWindow :=
  mkArucoWindow (tag_size o) (tag_border o) (image_rescale o) (output_img o)
                v (img_width o) (cursor o).
Definition set_img_width (v : Z) (o : ArucoWindow) : ArucoWindow :=
  mkArucoWindow (tag_size o) (tag_border o) (image_rescale o) (output_img o)
                (img_height o) v (cursor o).
Definition set_cursor (v : Z * Z) (o : ArucoWindow) : ArucoWindow :=
  mkArucoWindow (tag_size o) (tag_border o) (image_rescale o) (output_img o)
                (img_height o) (img_width o) v.

(** What the display subsystem is asked to do, in order. *)
Inductive gui_event :=
  | NamedWindow (name : string)
  | Imshow (name : string) (img : ndarray).

Record state := mkState {
  self : ArucoWindow;
  heap : list ndarray;
  gui : list gui_event
}.

(** ** The state-and-exception monad

    A raised exception keeps the state reached so far: attributes already
    assigned and arrays already written stay so when a method raises. *)
Definition M (A : Type) : Type := state -> state * result A.

Definition ret {A} (a : A) : M A := fun s => (s, Ok a).

Definition bind {A B} (m : M A) (k : A -> M B) : M B :=
  fun s => match m s with
           | (s', Ok a) => k a s'
           | (s', Raise e) => (s', Raise e)
           end.

Definition raise {A} (e : exn) : M A := fun s => (s, Raise e).

Definition lift {A} (r : result A) : M A := fun s => (s, r).

Declare Scope py_scope.
Delimit Scope py_scope with py.
Notation "x <- m ;; k" := (bind m (fun x => k))
  (at level 100, m at next level, right associativity) : py_scope.
Notation "m ;; k" := (bind m (fun _ => k))
  (at level 100, right associativity) : py_scope.
Local Open Scope py_scope.

Definition get_self : M ArucoWindow := fun s => (s, Ok (self s)).

Definition modify_self (f : ArucoWindow -> ArucoWindow) : M unit :=
  fun s => (mkState (f (self s)) (heap s) (gui s), Ok tt).

(** A new array object. *)
Definition alloc (a : ndarray) : M loc :=
  fun s => (mkState (self s) (heap s ++ [a]) (gui s), Ok (length (heap s))).

Definition load (l : loc) : M ndarray :=
  fun s => match heap s !! l with
           | Some a => (s, Ok a)
           | None => (s, Raise TypeError)
           end.

(** In-place update of the array at [l]. *)
Definition store (l : loc) (a : ndarray) : M unit :=
  fun s => (mkState (self s) (<[l := a]> (heap s)) (gui s), Ok tt).

Definition emit (e : gui_event) : M unit :=
  fun s => (mkState (self s) (heap s) (gui s ++ [e]), Ok tt).

Fixpoint for_each {A} (l : list A) (body : A -> M unit) : M unit :=
  match l with
  | [] => ret tt
  | x :: l' => body x ;; for_each l' body
  end.

(** ** The OpenCV collaborators

    Image resizing, marker generation and circle drawing are OpenCV's; the
    class takes them as an interface.  [cv2_circle] and
    [cv2_aruco_drawMarker] write into the array they are given: they are
    given its contents and return the new contents. *)
Class Cv2 := {
  (* cv2.resize(src, (width, height), interpolation=cv2.INTER_AREA) *)
  cv2_resize : ndarray -> Z * Z -> result ndarray;
  (* cv2.aruco.drawMarker(DICT_4X4_50, id, sidePixels, img, borderBits) *)
  cv2_aruco_drawMarker : Z -> Z -> ndarray -> Z -> result ndarray;
  (* cv2.circle(img, center, radius, color, thickness) *)
  cv2_circle : ndarray -> Z * Z -> Z -> Z * Z * Z -> Z -> result ndarray
}.

(** What the class relies on.  A resized image has the requested size and
    the channels of its source; of a one-channel source OpenCV returns an
    array of rank 2, shape [(h, w)], which numpy broadcasts as it does
    shape [(1, h, w)] (shapes are aligned from the right): such a result
    is the rank-3 array of that shape.  The array a marker is drawn into
    keeps its shape. *)
Class Cv2Laws (cv : Cv2) : Prop := {
  resize_shape : forall src w h r,
    cv2_resize src (w, h) = Ok r ->
    wf r /\
    if chans src =? 1 then rows r = 1 /\ cols r = h /\ chans r = w
    else rows r = h /\ cols r = w /\ chans r = chans src;
  drawMarker_shape : forall id n img bits t,
    wf img ->
    cv2_aruco_drawMarker id n img bits = Ok t ->
    wf t /\ rows t = rows img /\ cols t = cols img /\ chans t = chans img
}.

(** What OpenCV refuses: [cv2.resize] raises on an empty source and on a
    target size with a dimension that is not positive. *)
Class Cv2Checks (cv : Cv2) : Prop := {
  resize_nonempty : forall src w h r,
    cv2_resize src (w, h) = Ok r ->
    0 < rows src /\ 0 < cols src /\ 0 < w /\ 0 < h
}.

(** ** The methods of ArucoWindow *)

Section Methods.
Context {cv : Cv2}.

Definition window_name : string := "ArucoWindow".

Definition __init__ (tag_size tag_border : Z) (image_rescale : Py.num) : M unit :=
  modify_self (fun _ =>
    mkArucoWindow tag_size tag_border image_rescale None 0 0 (0, 0)) ;;
  (* create resizable display window *)
  emit (NamedWindow window_name).

(** [self.output_img[rs, cs] = v] *)
Definition setitem_output_img (rs cs : slice) (v : ndarray) : M unit :=
  o <- get_self ;;
  match output_img o with
  | None => raise TypeError
  | Some l =>
      a <- load l ;;
      a' <- lift (setitem a rs cs v) ;;
      store l a'
  end.

(** [cv2.imshow("ArucoWindow", <array at l>)] *)
Definition imshow (l : loc) : M unit :=
  a <- load l ;;
  emit (Imshow window_name a).

(** The first two entries of the shape tuple given to [np.ones]. *)
Definition canvas_rows (o : ArucoWindow) : Z :=
  img_height o + 2 * tag_border o.
Definition canvas_cols (o : ArucoWindow) : Z :=
  img_width o + 2 * tag_size o + 4 * tag_border o.

Definition initFrame : M unit :=
  o <- get_self ;;
  (* allocate space for output image, 255 for white background *)
  a <- lift (np_ones_255 (canvas_rows o) (canvas_cols o) 3) ;;
  l <- alloc a ;;
  modify_self (set_output_img (Some l)).

(** The index expressions of the four tag assignments and of the frame
    assignment, as written in the source. *)
Definition ul_slices (o : ArucoWindow) : slice * slice :=
  (Slice (tag_border o) (tag_size o + tag_border o),
   Slice (tag_border o) (tag_size o + tag_border o)).
Definition ur_slices (o : ArucoWindow) : slice * slice :=
  (Slice (tag_border o) (tag_size o + tag_border o),
   Slice (3 * tag_border o + tag_size o + img_width o) (- tag_border o)).
Definition br_slices (o : ArucoWindow) : slice * slice :=
  (Slice (- (tag_size o + tag_border o)) (- tag_border o),
   Slice (3 * tag_border o + tag_size o + img_width o) (- tag_border o)).
Definition bl_slices (o : ArucoWindow) : slice * slice :=
  (Slice (- (tag_size o + tag_border o)) (- tag_border o),
   Slice (tag_border o) (tag_size o + tag_border o)).
Definition frame_slices (o : ArucoWindow) : slice * slice :=
  (Slice (tag_border o) (- tag_border o),
   Slice (2 * tag_border o + tag_size o) (- (2 * tag_border o + tag_size o))).

Definition corner_slices (o : ArucoWindow) : list (slice * slice) :=
  [ul_slices o; ur_slices o; br_slices o; bl_slices o].

Definition addCornerTags : M unit :=
  o <- get_self ;;
  let n := tag_size o in
  (* create tags *)
  ul_tag <- lift (np_zeros n n 1) ;;   (* upper left *)
  ur_tag <- lift (np_zeros n n 1) ;;   (* upper right *)
  br_tag <- lift (np_zeros n n 1) ;;
  bl_tag <- lift (np_zeros n n 1) ;;
  ul_tag <- lift (cv2_aruco_drawMarker 0 n ul_tag 1) ;;
  ur_tag <- lift (cv2_aruco_drawMarker 1 n ur_tag 1) ;;
  br_tag <- lift (cv2_aruco_drawMarker 2 n br_tag 1) ;;
  bl_tag <- lift (cv2_aruco_drawMarker 3 n bl_tag 1) ;;
  (* put tags in output image *)
  setitem_output_img (fst (ul_slices o)) (snd (ul_slices o)) ul_tag ;;
  setitem_output_img (fst (ur_slices o)) (snd (ur_slices o)) ur_tag ;;
  setitem_output_img (fst (br_slices o)) (snd (br_slices o)) br_tag ;;
  setitem_output_img (fst (bl_slices o)) (snd (bl_slices o)) bl_tag.

(** [int(n * rescale)] for a frame dimension [n]. *)
Definition scale_dim (n : Z) (rescale : Py.num) : result Z :=
  rbind (Py.mul (Py.Int n) rescale) Py.int.

(** The size the frame is resized to, [(width, height)]. *)
Definition scaled_dim (o : ArucoWindow) (frame : ndarray) : result (Z * Z) :=
  rbind (scale_dim (rows frame) (image_rescale o)) (fun h =>
  rbind (scale_dim (cols frame) (image_rescale o)) (fun w =>
  Ok (w, h))).

Definition size_changed (o : ArucoWindow) (dim : Z * Z) : bool :=
  negb (snd dim =? img_height o) || negb (fst dim =? img_width o).

Definition updateFrame (frame : ndarray) : M unit :=
  o <- get_self ;;
  (* resize image *)
  dim <- lift (scaled_dim o frame) ;;
  resized <- lift (cv2_resize frame dim) ;;
  (* re-allocate space if image changed size *)
  (if size_changed o dim then
     modify_self (set_img_height (snd dim)) ;;
     modify_self (set_img_width (fst dim)) ;;
     initFrame ;;
     addCornerTags
   else ret tt) ;;
  (* put resized image in output image *)
  o <- get_self ;;
  setitem_output_img (fst (frame_slices o)) (snd (frame_slices o)) resized ;;
  o <- get_self ;;
  match output_img o with
  | Some l => imshow l
  | None => raise cv2_error
  end.

(** [cv2.circle] drawing into the array at [l]. *)
Definition circle (l : loc) (center : Z * Z) (radius : Z)
    (color : Z * Z * Z) (thickness : Z) : M unit :=
  a <- load l ;;
  a' <- lift (cv2_circle a center radius color thickness) ;;
  store l a'.

(** [self.output_img.copy()] *)
Definition copy_output_img : M loc :=
  o <- get_self ;;
  match output_img o with
  | None => raise AttributeError
  | Some l => a <- load l ;; alloc a
  end.

Definition updateCursor (x y : Py.num) (corners : list (Py.num * Py.num)) : M unit :=
  ix <- lift (Py.int x) ;;
  iy <- lift (Py.int y) ;;
  modify_self (set_cursor (ix, iy)) ;;
  disp <- copy_output_img ;;
  o <- get_self ;;
  circle disp (cursor o) 10 (255, 0, 0) (-1) ;;
  for_each corners (fun corner =>
    c0 <- lift (Py.int (fst corner)) ;;
    c1 <- lift (Py.int (snd corner)) ;;
    circle disp (c0, c1) 4 (255, 255, 0) (-1)) ;;
  imshow disp.

End Methods.

(** ** A reference implementation of the collaborators

    Executable stand-ins with the documented interface, used to run the
    methods on concrete inputs: nearest-neighbour resizing (at the
    source's own size, the source), the markers 0 to 3 of DICT_4X4_50
    with their black border cells, and a filled disc. *)
Module Ref.

Definition tabulate (h w c : Z) (f : Z -> Z -> Z -> Z) : ndarray :=
  NdArray h w c
    ((fun i =>
        (fun j =>
           (fun k => f (Z.of_nat i) (Z.of_nat j) (Z.of_nat k))
             <$> seq 0 (Z.to_nat c))
          <$> seq 0 (Z.to_nat w))
       <$> seq 0 (Z.to_nat h)).

(** Nearest-neighbour resizing.  An empty source or target size is
    refused; a one-channel source gives the rank-2 result [(h, w)], held
    as shape [(1, h, w)]. *)
Definition resize (src : ndarray) (dsize : Z * Z) : result ndarray :=
  let '(w, h) := dsize in
  if (rows src <=? 0) || (cols src <=? 0) || (chans src <=? 0)
     || (w <=? 0) || (h <=? 0)
  then Raise cv2_error
  else if chans src =? 1
  then Ok (tabulate 1 h w (fun _ i j =>
             default 0 (get src (i * rows src / h) (j * cols src / w) 0)))
  else Ok (tabulate h w (chans src) (fun i j k =>
             default 0 (get src (i * rows src / h) (j * cols src / w) k))).

(** The 16 bits of markers 0 to 3 of DICT_4X4_50, the four the class
    draws: two bytes, row after row, the high bit first. *)
Definition marker_bits (id : Z) : option Z :=
  match id with
  | 0 => Some 46386   (* 181, 50 *)
  | 1 => Some 3994    (* 15, 154 *)
  | 2 => Some 13101   (* 51, 45 *)
  | 3 => Some 39238   (* 153, 70 *)
  | _ => None
  end.

(** The marker of [4 + 2*bits] cells a side, black border cells around
    the 4x4 code, stretched to [n] pixels a side. *)
Definition marker_pixel (code bits n i j : Z) : Z :=
  let cells := 4 + 2 * bits in
  let r := i * cells / n - bits in
  let c := j * cells / n - bits in
  if (0 <=? r) && (r <? 4) && (0 <=? c) && (c <? 4)
  then if Z.testbit code (15 - (4 * r + c)) then 255 else 0
  else 0.

(** A side below [4 + 2*bits] pixels is refused.  The marker is drawn
    into [img] when [img] is the [(n, n, 1)] array the class passes;
    another array is left as it is. *)
Definition drawMarker (id n : Z) (img : ndarray) (bits : Z) : result ndarray :=
  match marker_bits id with
  | None => Raise cv2_error
  | Some code =>
      if (bits <=? 0) || (n <? 4 + 2 * bits) then Raise cv2_error
      else if (rows img =? n) && (cols img =? n) && (chans img =? 1)
      then Ok (tabulate n n 1 (fun i j _ => marker_pixel code bits n i j))
      else Ok img
  end.

Definition channel (color : Z * Z * Z) (k : Z) : Z :=
  let '(b, g, r) := color in
  if k =? 0 then b else if k =? 1 then g else r.

Definition circle (img : ndarray) (center : Z * Z) (radius : Z)
    (color : Z * Z * Z) (thickness : Z) : result ndarray :=
  let '(cx, cy) := center in
  Ok (NdArray (rows img) (cols img) (chans img)
        (imap (fun i row =>
           imap (fun j px =>
             if (Z.of_nat j - cx) ^ 2 + (Z.of_nat i - cy) ^ 2 <=? radius ^ 2
             then imap (fun k _ => channel color (Z.of_nat k)) px
             else px) row) (data img))).

Definition cv : Cv2 := {|
  cv2_resize := resize;
  cv2_aruco_drawMarker := drawMarker;
  cv2_circle := circle
|}.

End Ref.

(** ** Observations on states *)

(** The contents of the base canvas [self.output_img], if allocated. *)
Definition canvas (s : state) : option ndarray :=
  match output_img (self s) with
  | Some l => heap s !! l
  | None => None
  end.

(** The GUI events of a run from [s] to [s']. *)
Definition emitted (s s' : state) : list gui_event :=
  drop (length (gui s)) (gui s').


(** The object as the cursor overlay leaves it comparable: every
    attribute but [cursor], with the canvas by contents. *)
Definition base_view (s : state)
  : Z * Z * Py.num * Z * Z * bool * option ndarray :=
  (tag_size (self s), tag_border (self s), image_rescale (self s),
   img_height (self s), img_width (self s),
   bool_decide (is_Some (output_img (self s))), canvas s).


(** [m] keeps [P] true whether it returns or raises. *)
Definition preserves {A} (P : state -> Prop) (m : M A) : Prop :=
  forall s, P s -> P (fst (m s)).

(** The runs [x] from [s] and [x1] from [s1] end alike: same result, same
    base view, same GUI events. *)
Definition agree_at {A} (s s1 : state) (x x1 : state * result A) : Prop :=
  snd x = snd x1 /\
  base_view (fst x) = base_view (fst x1) /\
  exists evs, gui (fst x) = gui s ++ evs /\ gui (fst x1) = gui s1 ++ evs.

(** [m] and [m1] end alike from states with the same base view. *)
Definition agree {A} (m m1 : M A) : Prop :=
  forall s s1, base_view s = base_view s1 -> agree_at s s1 (m s) (m1 s1).

(** The attributes that configure the layout. *)
Definition view (o : ArucoWindow) : Z * Z * Py.num * Z * Z :=
  (tag_size o, tag_border o, image_rescale o, img_height o, img_width o).

(** ** Layout geometry *)

(** The rectangle an index expression of the source selects on the canvas
    of the object's current tracked size. *)
Definition placed (o : ArucoWindow) (sl : slice * slice) : rect :=
  resolve (canvas_rows o) (canvas_cols o) (fst sl) (snd sl).

Definition disjoint (p q : rect) : Prop :=
  forall i j, ~ (in_rect p i j = true /\ in_rect q i j = true).

(** The uint8 array [a] holds [v] (broadcast over the channels) in
    rectangle [q]: element for element, as bytes. *)
Definition shows (a : ndarray) (q : rect) (v : ndarray) : Prop :=
  rect_h q = rows v /\ rect_w q = cols v /\
  forall i j k, 0 <= i < rows v -> 0 <= j < cols v -> 0 <= k < chans a ->
    get a (r0 q + i) (c0 q + j) k = Some (to_uint8 (bget v i j k)).

(** [a] has the shape of the canvas of an object with [o]'s sizes. *)
Definition fits_canvas (o : ArucoWindow) (a : ndarray) : Prop :=
  wf a /\ rows a = canvas_rows o /\ cols a = canvas_cols o /\ chans a = 3.

Section Properties.
Context {cv : Cv2}.

(** The bitmap of marker [id] as [addCornerTags] creates it. *)
Definition marker (o : ArucoWindow) (id : Z) : result ndarray :=
  rbind (np_zeros (tag_size o) (tag_size o) 1)
        (fun t => cv2_aruco_drawMarker id (tag_size o) t 1).

(** The canvas, when allocated, has the shape [initFrame] gives it for
    the tracked size. *)
Definition canvas_fits (s : state) : Prop :=
  forall a, canvas s = Some a -> fits_canvas (self s) a.

(** A canvas is allocated, fits, and its four corner regions hold the
    marker bitmaps 0 (upper left), 1 (upper right), 2 and 3. *)
Definition markers_intact (s : state) : Prop :=
  let o := self s in
  exists a ul ur br bl,
    canvas s = Some a /\ canvas_fits s /\
    marker o 0 = Ok ul /\ marker o 1 = Ok ur /\
    marker o 2 = Ok br /\ marker o 3 = Ok bl /\
    shows a (placed o (ul_slices o)) ul /\
    shows a (placed o (ur_slices o)) ur /\
    shows a (placed o (br_slices o)) br /\
    shows a (placed o (bl_slices o)) bl.

(** The interior region starts at [(2*tag_border + tag_size, tag_border)]
    (x, y) and holds [resized]. *)
Definition frame_shown (s : state) (resized : ndarray) : Prop :=
  let o := self s in
  exists a, canvas s = Some a /\
    r0 (placed o (frame_slices o)) = tag_border o /\
    c0 (placed o (frame_slices o)) = 2 * tag_border o + tag_size o /\
    shows a (placed o (frame_slices o)) resized.

(** All four markers can be generated. *)
Definition markers_available (o : ArucoWindow) : bool :=
  forallb (fun id => is_ok (marker o id)) [0; 1; 2; 3].


(** The arguments of one [updateCursor] call. *)
Definition cursor_call : Type := Py.num * Py.num * list (Py.num * Py.num).

(** The state after a series of [updateCursor] calls. *)
Fixpoint after_cursors (calls : list cursor_call) (s : state) : state :=
  match calls with
  | [] => s
  | (x, y, corners) :: calls' =>
      after_cursors calls' (fst (updateCursor x y corners s))
  end.

(** A method call on the object. *)
Inductive call :=
  | CallFrame (frame : ndarray)
  | CallCursor (x y : Py.num) (corners : list (Py.num * Py.num)).

(** The state a call leaves, whether it returns or raises. *)
Definition do_call (c : call) (s : state) : state :=
  match c with
  | CallFrame frame => fst (updateFrame frame s)
  | CallCursor x y corners => fst (updateCursor x y corners s)
  end.

(** The state after a series of calls, raised exceptions being caught by
    the caller. *)
Fixpoint run_calls (calls : list call) (s : state) : state :=
  match calls with
  | [] => s
  | c :: calls' => run_calls calls' (do_call c s)
  end.

(** What holds of the object between calls: the tracked size is not
    negative, an allocated canvas has the shape for it, and when the
    tracked frame is at least two tags high the markers are in place. *)
Definition steady (s : state) : Prop :=
  let o := self s in
  0 <= img_width o /\ 0 <= img_height o /\ canvas_fits s /\
  (is_Some (canvas s) -> 2 * tag_size o <= img_height o -> markers_intact s).

End Properties.

(** ** The rounding the specification names *)

Module Spec.

(** Nearest integer to [p / q] ([q > 0]), ties to the even one. *)
Definition round_frac (p q : Z) : Z :=
  let n := (2 * p + q) / (2 * q) in
  if ((2 * p + q) mod (2 * q) =? 0) && Z.odd n then n - 1 else n.

(** [round(x)] *)
Definition round (x : Py.num) : result Z :=
  match x with
  | Py.Float (S754_infinity _) => Raise OverflowError
  | Py.Float S754_nan => Raise ValueError
  | _ => match Py.frac x with
         | Some (p, q) => Ok (round_frac p q)
         | None => Raise ValueError
         end
  end.

(** [(round(width * rescale), round(height * rescale))] *)
Definition scaled_dim (o : ArucoWindow) (frame : ndarray) : result (Z * Z) :=
  rbind (rbind (Py.mul (Py.Int (rows frame)) (image_rescale o)) round) (fun h =>
  rbind (rbind (Py.mul (Py.Int (cols frame)) (image_rescale o)) round) (fun w =>
  Ok (w, h))).

End Spec.

(** ** Concrete inputs *)

Module Ex.

(** The memory a constructor call starts from: no arrays, no windows, and
    an object whose attributes are about to be assigned. *)
Definition blank : state :=
  mkState (mkArucoWindow 0 0 (Py.Int 0) None 0 0 (0, 0)) [] [].

(** [ArucoWindow(tag_size, tag_border, image_rescale)] *)
Definition window (tag_size tag_border : Z) (image_rescale : Py.num) : state :=
  fst (__init__ tag_size tag_border image_rescale blank).

(** An object with the given configuration and tracked frame size. *)
Definition sized (tag_size tag_border h w : Z) : ArucoWindow :=
  mkArucoWindow tag_size tag_border (Py.Int 1) None h w (0, 0).

(** A colour frame of the given height and width. *)
Definition frame (h w : Z) : ndarray :=
  Ref.tabulate h w 3 (fun i j k => (16 * i + 5 * j + 64 * k + 7) mod 256).

(** The array a call returned, for calls that return one. *)
Definition unwrap (r : result ndarray) : ndarray :=
  match r with
  | Ok a => a
  | Raise _ => NdArray 0 0 0 []
  end.

(** 0.75 and 0.5 as binary64 values. *)
Definition three_quarters : Py.num :=
  Py.Float (S754_finite false 6755399441055744 (-53)).
Definition half : Py.num :=
  Py.Float (S754_finite false 4503599627370496 (-53)).

End Ex.

(** ** Further observations on the canvas *)

(** [s'] is [s] with the contents [a] of the canvas replaced by [a']. *)
Definition canvas_written (s s' : state) (a a' : ndarray) : Prop :=
  exists l, output_img (self s) = Some l /\ heap s !! l = Some a /\
    s' = mkState (self s) (<[l := a']> (heap s)) (gui s).

(** The five index expressions of the source, in the order they are
    assigned to. *)
Definition assigned_slices (o : ArucoWindow) : list (slice * slice) :=
  corner_slices o ++ [frame_slices o].

(** What an assignment of [v] to rectangle [q] of the uint8 canvas puts at
    position [(i, j, k)]: the element of [v], as a byte. *)
Definition assigned (q : rect) (v : ndarray) (i j k : Z) : Z :=
  to_uint8 (bget v (i - r0 q) (j - c0 q) k).

(** What the canvas holds at [(i, j, k)] once the four tags and then the
    frame have been assigned on a white background: the last assignment
    that covers the position decides. *)
Definition painted (o : ArucoWindow) (ul ur br bl resized : ndarray)
    (i j k : Z) : Z :=
  if in_rect (placed o (frame_slices o)) i j
  then assigned (placed o (frame_slices o)) resized i j k
  else if in_rect (placed o (bl_slices o)) i j
  then assigned (placed o (bl_slices o)) bl i j k
  else if in_rect (placed o (br_slices o)) i j
  then assigned (placed o (br_slices o)) br i j k
  else if in_rect (placed o (ur_slices o)) i j
  then assigned (placed o (ur_slices o)) ur i j k
  else if in_rect (placed o (ul_slices o)) i j
  then assigned (placed o (ul_slices o)) ul i j k
  else 255.

(** [a] is white (255) at every position none of the five assigned
    rectangles covers. *)
Definition white_outside (o : ArucoWindow) (a : ndarray) : Prop :=
  forall i j k,
    0 <= i < rows a -> 0 <= j < cols a -> 0 <= k < chans a ->
    forallb (fun sl => negb (in_rect (placed o sl) i j)) (assigned_slices o) = true ->
    get a i j k = Some 255.

(** The canvas, when allocated, has the shape for the tracked size and is
    white outside the assigned rectangles. *)
Definition canvas_kept (s : state) : Prop :=
  forall a, canvas s = Some a ->
    fits_canvas (self s) a /\ white_outside (self s) a.

(** ** The overlay as a function of the canvas *)

Section OverlayImage.
Context {cv : Cv2}.

(** The discs of the points, drawn one after the other. *)
Fixpoint draw_corners (d : ndarray) (corners : list (Py.num * Py.num))
  : result ndarray :=
  match corners with
  | [] => Ok d
  | corner :: rest =>
      rbind (Py.int (fst corner)) (fun c0 =>
      rbind (Py.int (snd corner)) (fun c1 =>
      rbind (cv2_circle d (c0, c1) 4 (255, 255, 0) (-1)) (fun d' =>
      draw_corners d' rest)))
  end.

(** The image [updateCursor] builds from canvas contents [a]: the cursor
    disc, then the discs of the points. *)
Definition overlay (a : ndarray) (x y : Py.num)
    (corners : list (Py.num * Py.num)) : result ndarray :=
  rbind (Py.int x) (fun ix =>
  rbind (Py.int y) (fun iy =>
  rbind (cv2_circle a (ix, iy) 10 (255, 0, 0) (-1)) (fun d =>
  draw_corners d corners))).

(** ** The script run as a program *)

(** What the script asks of the display subsystem. *)
Inductive script_event :=
  | Gui (e : gui_event)
  | WaitKey (delay : Z)
  | DestroyAllWindows.

Definition TAG_SIZE : Z := 100.          (* px *)
Definition TAG_BORDER : Z := 10.         (* px *)
Definition IMAGE_RESCALE : Py.num := Py.Int 1.

(** [window.updateFrame(input_img)] on what [cv2.imread] returned: [None]
    (the file could not be read) has no [shape]. *)
Definition updateFrame_read (input_img : option ndarray) : M unit :=
  match input_img with
  | Some frame => updateFrame frame
  | None => raise AttributeError
  end.

(** The body under [if __name__ == "__main__"], given the result of
    [cv2.imread("img/sample_img.jpg")]; a raised exception ends the
    script.  The result is paired with the display requests made. *)
Definition main (input_img : option ndarray) : list script_event * result unit :=
  let '(s1, r1) := __init__ TAG_SIZE TAG_BORDER IMAGE_RESCALE
                     (mkState (mkArucoWindow 0 0 (Py.Int 0) None 0 0 (0, 0)) [] []) in
  match r1 with
  | Raise e => (Gui <$> gui s1, Raise e)
  | Ok _ =>
      let '(s2, r2) := updateFrame_read input_img s1 in
      match r2 with
      | Raise e => (Gui <$> gui s2, Raise e)
      | Ok _ => ((Gui <$> gui s2) ++ [WaitKey 0; DestroyAllWindows], Ok tt)
      end
  end.

End OverlayImage.

(** * Properties *)

(** ** Arrays *)

Lemma wf_data_replicate h w c v :
  0 <= h -> 0 <= w -> 0 <= c ->
  wf_data h w c
    (replicate (Z.to_nat h) (replicate (Z.to_nat w) (replicate (Z.to_nat c) v))).
Proof.
  intros Hh Hw Hc. split.
  - rewrite length_replicate. lia.
  - apply Forall_replicate. split.
    + rewrite length_replicate. lia.
    + apply Forall_replicate. rewrite length_replicate. lia.
Qed.

Lemma np_full_ok h w c v :
  0 <= h -> 0 <= w -> 0 <= c ->
  np_full h w c v =
    Ok (NdArray h w c
          (replicate (Z.to_nat h) (replicate (Z.to_nat w) (replicate (Z.to_nat c) v)))).
Proof.
  intros Hh Hw Hc. unfold np_full.
  destruct (h <? 0) eqn:E1; [lia|].
  destruct (w <? 0) eqn:E2; [lia|].
  destruct (c <? 0) eqn:E3; [lia|]. reflexivity.
Qed.

Lemma np_full_shape h w c v a :
  np_full h w c v = Ok a ->
  wf a /\ rows a = h /\ cols a = w /\ chans a = c.
Proof.
  unfold np_full. intros H.
  destruct (h <? 0) eqn:E1; [discriminate|].
  destruct (w <? 0) eqn:E2; [discriminate|].
  destruct (c <? 0) eqn:E3; [discriminate|].
  simpl in H. injection H as <-. unfold wf. simpl.
  repeat split; try lia; apply wf_data_replicate; lia.
Qed.

Lemma get_replicate h w c v i j k :
  0 <= i < h -> 0 <= j < w -> 0 <= k < c ->
  get (NdArray h w c
         (replicate (Z.to_nat h) (replicate (Z.to_nat w) (replicate (Z.to_nat c) v))))
      i j k = Some v.
Proof.
  intros Hi Hj Hk. unfold get. simpl.
  destruct (0 <=? i) eqn:E1; [|lia].
  destruct (0 <=? j) eqn:E2; [|lia].
  destruct (0 <=? k) eqn:E3; [|lia]. simpl.
  rewrite lookup_replicate_2 by lia.
  rewrite lookup_replicate_2 by lia.
  apply lookup_replicate_2. lia.
Qed.

Lemma np_ones_255_ok h w c :
  0 <= h -> 0 <= w -> 0 <= c ->
  exists a, np_ones_255 h w c = Ok a /\
    wf a /\ rows a = h /\ cols a = w /\ chans a = c /\
    forall i j k, 0 <= i < h -> 0 <= j < w -> 0 <= k < c ->
      get a i j k = Some 255.
Proof.
  intros Hh Hw Hc. unfold np_ones_255.
  rewrite np_full_ok by lia. simpl. eexists. split; [reflexivity|].
  unfold wf. simpl. repeat split; try lia.
  - rewrite length_fmap, length_replicate. lia.
  - apply Forall_fmap, Forall_replicate. simpl. split.
    + rewrite length_fmap, length_replicate. lia.
    + apply Forall_fmap, Forall_replicate. simpl.
      rewrite length_fmap, length_replicate. lia.
  - intros i j k Hi Hj Hk. unfold get. simpl.
    destruct (0 <=? i) eqn:E1; [|lia].
    destruct (0 <=? j) eqn:E2; [|lia].
    destruct (0 <=? k) eqn:E3; [|lia]. simpl.
    rewrite list_lookup_fmap, lookup_replicate_2 by lia. simpl.
    rewrite list_lookup_fmap, lookup_replicate_2 by lia. simpl.
    rewrite list_lookup_fmap, lookup_replicate_2 by lia. reflexivity.
Qed.

Lemma wf_get a i j k :
  wf a -> 0 <= i < rows a -> 0 <= j < cols a -> 0 <= k < chans a ->
  is_Some (get a i j k).
Proof.
  intros (_ & _ & _ & Hlen & Hall) Hi Hj Hk. unfold get.
  destruct (0 <=? i) eqn:E1; [|lia].
  destruct (0 <=? j) eqn:E2; [|lia].
  destruct (0 <=? k) eqn:E3; [|lia]. simpl.
  destruct (lookup_lt_is_Some_2 (data a) (Z.to_nat i)) as [row Hrow]; [lia|].
  rewrite Hrow.
  destruct (Forall_lookup_1 _ _ _ _ Hall Hrow) as [Hlr Hallr].
  destruct (lookup_lt_is_Some_2 row (Z.to_nat j)) as [px Hpx]; [lia|].
  rewrite Hpx.
  pose proof (Forall_lookup_1 _ _ _ _ Hallr Hpx) as Hlp. simpl in Hlp.
  apply lookup_lt_is_Some_2. lia.
Qed.

Lemma setitem_ok a rs cs v :
  is_ok (setitem a rs cs v) =
  let q := resolve (rows a) (cols a) rs cs in
  broadcastable v (rect_h q) (rect_w q) (chans a).
Proof. unfold setitem. simpl. destruct (broadcastable _ _ _ _); reflexivity. Qed.

Lemma setitem_shape a rs cs v a' :
  setitem a rs cs v = Ok a' ->
  rows a' = rows a /\ cols a' = cols a /\ chans a' = chans a.
Proof.
  unfold setitem. destruct (broadcastable _ _ _ _); [|discriminate].
  intros [= <-]. auto.
Qed.

Lemma setitem_wf a rs cs v a' :
  setitem a rs cs v = Ok a' -> wf a -> wf a'.
Proof.
  unfold setitem. destruct (broadcastable _ _ _ _); [|discriminate].
  intros [= <-] (Hr & Hc & Hch & Hlen & Hall). unfold wf. simpl.
  split; [assumption|]. split; [assumption|]. split; [assumption|].
  split; [rewrite length_imap; assumption|].
  apply Forall_lookup. intros i row' Hrow'.
  rewrite list_lookup_imap in Hrow'.
  destruct (data a !! i) as [row|] eqn:Hrow; [|discriminate].
  injection Hrow' as <-.
  destruct (Forall_lookup_1 _ _ _ _ Hall Hrow) as [Hlr Hallr].
  split; [rewrite length_imap; assumption|].
  apply Forall_lookup. intros j px' Hpx'.
  rewrite list_lookup_imap in Hpx'.
  destruct (row !! j) as [px|] eqn:Hpx; [|discriminate].
  injection Hpx' as <-.
  pose proof (Forall_lookup_1 _ _ _ _ Hallr Hpx) as Hlp. simpl in Hlp.
  destruct (in_rect _ _ _); [rewrite length_imap|]; assumption.
Qed.

(** What [a[rs, cs] = v] leaves at each position: the broadcast value
    inside the selected rectangle, the old element outside. *)
Lemma get_setitem a rs cs v a' i j k :
  setitem a rs cs v = Ok a' ->
  let q := resolve (rows a) (cols a) rs cs in
  get a' i j k =
    if in_rect q i j
    then (fun _ => to_uint8 (bget v (i - r0 q) (j - c0 q) k)) <$> get a i j k
    else get a i j k.
Proof.
  unfold setitem. destruct (broadcastable _ _ _ _); [|discriminate].
  intros [= <-]. cbv zeta.
  set (q := resolve (rows a) (cols a) rs cs).
  unfold get. cbn [data].
  destruct (0 <=? i) eqn:E1; [|destruct (in_rect q i j); reflexivity].
  destruct (0 <=? j) eqn:E2; [|destruct (in_rect q i j); reflexivity].
  destruct (0 <=? k) eqn:E3; [|destruct (in_rect q i j); reflexivity].
  cbn [andb]. rewrite list_lookup_imap.
  destruct (data a !! Z.to_nat i) as [row|];
    [|destruct (in_rect q i j); reflexivity].
  cbn [fmap option_fmap option_map]. rewrite list_lookup_imap.
  destruct (row !! Z.to_nat j) as [px|];
    [|destruct (in_rect q i j); reflexivity].
  cbn [fmap option_fmap option_map]. rewrite !Z2Nat.id by lia.
  destruct (in_rect q i j); [|reflexivity].
  rewrite list_lookup_imap, Z2Nat.id by lia. reflexivity.
Qed.

Lemma get_setitem_outside a rs cs v a' i j k :
  setitem a rs cs v = Ok a' ->
  in_rect (resolve (rows a) (cols a) rs cs) i j = false ->
  get a' i j k = get a i j k.
Proof. intros H Hout. rewrite (get_setitem _ _ _ _ _ _ _ _ H). cbv zeta. rewrite Hout. reflexivity. Qed.

Lemma get_setitem_inside a rs cs v a' i j k :
  setitem a rs cs v = Ok a' -> wf a ->
  let q := resolve (rows a) (cols a) rs cs in
  in_rect q i j = true ->
  0 <= i < rows a -> 0 <= j < cols a -> 0 <= k < chans a ->
  get a' i j k = Some (to_uint8 (bget v (i - r0 q) (j - c0 q) k)).
Proof.
  intros H Hwf q Hin Hi Hj Hk. rewrite (get_setitem _ _ _ _ _ _ _ _ H).
  cbv zeta. fold q. rewrite Hin.
  destruct (wf_get a i j k Hwf Hi Hj Hk) as [x ->]. reflexivity.
Qed.

(** ** C1: the canvas size law *)

Section InitFrame.
Context {cv : Cv2}.

(** C1. For a valid configuration ([tag_size > 0], [tag_border >= 0]) and
    any tracked frame size that is not negative, (0, 0) included,
    [initFrame] returns normally and leaves a canvas of
    [img_width + 2*tag_size + 4*tag_border] columns,
    [img_height + 2*tag_border] rows and 3 channels, white everywhere. *)
Theorem initFrame_canvas_size (s : state) :
  0 < tag_size (self s) -> 0 <= tag_border (self s) ->
  0 <= img_width (self s) -> 0 <= img_height (self s) ->
  exists a,
    snd (initFrame s) = Ok tt /\
    canvas (fst (initFrame s)) = Some a /\
    cols a = img_width (self s) + 2 * tag_size (self s) + 4 * tag_border (self s) /\
    rows a = img_height (self s) + 2 * tag_border (self s) /\
    chans a = 3 /\ wf a /\
    forall i j k, 0 <= i < rows a -> 0 <= j < cols a -> 0 <= k < 3 ->
      get a i j k = Some 255.
Proof.
  intros Hts Htb Hw Hh.
  destruct (np_ones_255_ok (canvas_rows (self s)) (canvas_cols (self s)) 3)
    as (a & Ha & Hwf & Hr & Hc & Hch & Hpx);
    try (unfold canvas_rows, canvas_cols; lia).
  exists a. unfold initFrame, bind, get_self, lift. rewrite Ha.
  unfold alloc, modify_self, canvas. simpl.
  rewrite list_lookup_middle by reflexivity.
  unfold canvas_rows, canvas_cols in *.
  split; [reflexivity|]. split; [reflexivity|].
  split; [lia|]. split; [lia|]. split; [assumption|]. split; [assumption|].
  intros i j k Hi Hj Hk. apply Hpx; lia.
Qed.

End InitFrame.

(** ** C3: placement of the five regions *)

Lemma in_rect_true q i j :
  in_rect q i j = true <-> r0 q <= i < r1 q /\ c0 q <= j < c1 q.
Proof. unfold in_rect. rewrite !andb_true_iff, !Z.leb_le, !Z.ltb_lt. lia. Qed.

(** Resolving the source's index expressions against the canvas. *)
Ltac unfold_layout :=
  unfold placed, resolve, slice_indices, adjust, canvas_rows, canvas_cols,
    ul_slices, ur_slices, br_slices, bl_slices, frame_slices in *;
  cbn [fst snd start stop r0 r1 c0 c1] in *.

Ltac split_ltb :=
  repeat match goal with
         | |- context [?a <? ?b] => destruct (Z.ltb_spec a b)
         | H : context [?a <? ?b] |- _ => destruct (Z.ltb_spec a b)
         end.

Ltac solve_disjoint :=
  intros i j [Hp Hq]; apply in_rect_true in Hp, Hq;
  unfold_layout; split_ltb; cbn [r0 r1 c0 c1] in *; lia.

(** C3 (amended). For [tag_size > 0], [tag_border >= 0] and a frame size
    that is not negative, the interior rectangle is disjoint from each of
    the four corner rectangles and the left corners are disjoint from the
    right ones; the upper and the bottom corner of one side are disjoint
    from each other exactly when the frame height is 0 or at least
    [2 * tag_size], or [tag_border] is 0 (the bottom slices, ending at
    [-0], then select no row). *)
Theorem regions_disjoint (o : ArucoWindow) :
  0 < tag_size o -> 0 <= tag_border o ->
  0 <= img_width o -> 0 <= img_height o ->
  let F := placed o (frame_slices o) in
  let UL := placed o (ul_slices o) in
  let UR := placed o (ur_slices o) in
  let BR := placed o (br_slices o) in
  let BL := placed o (bl_slices o) in
  (disjoint F UL /\ disjoint F UR /\ disjoint F BR /\ disjoint F BL /\
   disjoint UL UR /\ disjoint UL BR /\ disjoint BL UR /\ disjoint BL BR) /\
  (disjoint UL BL <->
   img_height o = 0 \/ 2 * tag_size o <= img_height o \/ tag_border o = 0) /\
  (disjoint UR BR <->
   img_height o = 0 \/ 2 * tag_size o <= img_height o \/ tag_border o = 0).
Proof.
  intros Hts Htb Hw Hh. cbv zeta.
  split; [repeat split; solve_disjoint|].
  split; split.
  - intros Hd.
    destruct (Z.eq_dec (img_height o) 0) as [|H0]; [auto|].
    destruct (Z_le_gt_dec (2 * tag_size o) (img_height o)) as [|H2]; [auto|].
    destruct (Z.eq_dec (tag_border o) 0) as [|Hb]; [auto|].
    exfalso.
    apply (Hd (Z.max (tag_border o) (img_height o + tag_border o - tag_size o))
              (tag_border o)).
    split; apply in_rect_true; unfold_layout; split_ltb; cbn [r0 r1 c0 c1]; lia.
  - intros [H0 | [H2 | Hb]]; solve_disjoint.
  - intros Hd.
    destruct (Z.eq_dec (img_height o) 0) as [|H0]; [auto|].
    destruct (Z_le_gt_dec (2 * tag_size o) (img_height o)) as [|H2]; [auto|].
    destruct (Z.eq_dec (tag_border o) 0) as [|Hb]; [auto|].
    exfalso.
    apply (Hd (Z.max (tag_border o) (img_height o + tag_border o - tag_size o))
              (3 * tag_border o + tag_size o + img_width o)).
    split; apply in_rect_true; unfold_layout; split_ltb; cbn [r0 r1 c0 c1]; lia.
  - intros [H0 | [H2 | Hb]]; solve_disjoint.
Qed.

Lemma regions_disjoint_witness :
  let o := Ex.sized 100 10 480 640 in
  (disjoint (placed o (frame_slices o)) (placed o (ul_slices o)) /\
   disjoint (placed o (frame_slices o)) (placed o (ur_slices o)) /\
   disjoint (placed o (frame_slices o)) (placed o (br_slices o)) /\
   disjoint (placed o (frame_slices o)) (placed o (bl_slices o)) /\
   disjoint (placed o (ul_slices o)) (placed o (ur_slices o)) /\
   disjoint (placed o (ul_slices o)) (placed o (br_slices o)) /\
   disjoint (placed o (bl_slices o)) (placed o (ur_slices o)) /\
   disjoint (placed o (bl_slices o)) (placed o (br_slices o))) /\
  (disjoint (placed o (ul_slices o)) (placed o (bl_slices o)) <->
   img_height o = 0 \/ 2 * tag_size o <= img_height o \/ tag_border o = 0) /\
  (disjoint (placed o (ur_slices o)) (placed o (br_slices o)) <->
   img_height o = 0 \/ 2 * tag_size o <= img_height o \/ tag_border o = 0).
Proof. apply (regions_disjoint (Ex.sized 100 10 480 640)); simpl; lia. Defined.

(** The claim as stated fails: with 100 px tags, a 10 px border and a
    640x150 frame, canvas position (60, 10) lies in both the upper-left
    and the bottom-left tag rectangle. *)
Lemma regions_overlap_counterexample :
  let o := Ex.sized 100 10 150 640 in
  0 < tag_size o /\ 0 <= tag_border o /\
  0 <= img_width o /\ 0 <= img_height o /\
  ~ disjoint (placed o (ul_slices o)) (placed o (bl_slices o)).
Proof.
  cbv zeta. repeat (split; [simpl; lia|]).
  intros H. apply (H 60 10). split; reflexivity.
Qed.

(** ** Running the methods *)

Arguments np_ones_255 : simpl never.

Lemma bind_ok {A B} (m : M A) (k : A -> M B) s s' a :
  m s = (s', Ok a) -> bind m k s = k a s'.
Proof. unfold bind. intros ->. reflexivity. Qed.

Lemma bind_raise {A B} (m : M A) (k : A -> M B) s s' e :
  m s = (s', Raise e) -> bind m k s = (s', Raise e).
Proof. unfold bind. intros ->. reflexivity. Qed.

Lemma canvas_Some s a :
  canvas s = Some a <->
  exists l, output_img (self s) = Some l /\ heap s !! l = Some a.
Proof.
  unfold canvas. destruct (output_img (self s)) as [l|]; split.
  - intros H. exists l. auto.
  - intros (l' & [= <-] & H). exact H.
  - discriminate.
  - intros (l' & [=] & _).
Qed.

(** [self.output_img[rs, cs] = v] in terms of the canvas contents. *)
Lemma setitem_output_img_ok s a rs cs v a' :
  canvas s = Some a -> setitem a rs cs v = Ok a' ->
  exists s', setitem_output_img rs cs v s = (s', Ok tt) /\
    self s' = self s /\ gui s' = gui s /\ canvas s' = Some a'.
Proof.
  intros Hc Hset. apply canvas_Some in Hc as (l & Hl & Ha).
  unfold setitem_output_img, bind, get_self, load, lift, store.
  rewrite Hl, Ha, Hset. eexists. split; [reflexivity|].
  unfold canvas. simpl. rewrite Hl.
  repeat split. apply list_lookup_insert_eq.
  eapply lookup_lt_Some. exact Ha.
Qed.

Lemma setitem_output_img_raise s a rs cs v e :
  canvas s = Some a -> setitem a rs cs v = Raise e ->
  setitem_output_img rs cs v s = (s, Raise e).
Proof.
  intros Hc Hset. apply canvas_Some in Hc as (l & Hl & Ha).
  unfold setitem_output_img, bind, get_self, load, lift.
  rewrite Hl, Ha, Hset. reflexivity.
Qed.

Lemma setitem_output_img_None s rs cs v :
  canvas s = None ->
  setitem_output_img rs cs v s = (s, Raise TypeError).
Proof.
  unfold canvas, setitem_output_img, bind, get_self, load, raise.
  destruct (output_img (self s)) as [l|]; [|reflexivity].
  intros ->. reflexivity.
Qed.

(** ** Resolved rectangles *)

Lemma adjust_range len i : 0 <= len -> 0 <= adjust len i <= len.
Proof. intros H. unfold adjust. destruct (Z.ltb_spec i 0); lia. Qed.

Lemma resolve_range h w rs cs :
  0 <= h -> 0 <= w ->
  let q := resolve h w rs cs in
  0 <= r0 q <= h /\ 0 <= r1 q <= h /\ 0 <= c0 q <= w /\ 0 <= c1 q <= w.
Proof.
  intros Hh Hw. unfold resolve, slice_indices. simpl.
  pose proof (adjust_range h (start rs) Hh).
  pose proof (adjust_range h (stop rs) Hh).
  pose proof (adjust_range w (start cs) Hw).
  pose proof (adjust_range w (stop cs) Hw). lia.
Qed.

Lemma bget_exact v i j k :
  0 <= i < rows v -> 0 <= j < cols v ->
  bget v i j k = default 0 (get v i j (bidx (chans v) k)).
Proof.
  intros Hi Hj. unfold bget, bidx.
  destruct (Z.eqb_spec (rows v) 1) as [E|_];
    [replace i with 0 by lia|];
    (destruct (Z.eqb_spec (cols v) 1) as [E'|_];
      [replace j with 0 by lia|]); reflexivity.
Qed.

(** An assignment whose value has the height and width of the selected
    rectangle leaves the value there. *)
Lemma shows_setitem a rs cs v a' :
  wf a -> setitem a rs cs v = Ok a' ->
  let q := resolve (rows a) (cols a) rs cs in
  rect_h q = rows v -> rect_w q = cols v ->
  shows a' q v.
Proof.
  intros Hwf Hset q Hh Hw. split; [assumption|]. split; [assumption|].
  intros i j k Hi Hj Hk.
  destruct (setitem_shape _ _ _ _ _ Hset) as (Hr' & Hc' & Hch').
  rewrite Hch' in Hk.
  destruct Hwf as (Hr & Hc & Hch & Hd).
  pose proof (resolve_range (rows a) (cols a) rs cs Hr Hc) as Hq. fold q in Hq.
  cbv zeta in Hq. unfold rect_h, rect_w in Hh, Hw.
  assert (Hin : in_rect q (r0 q + i) (c0 q + j) = true)
    by (apply in_rect_true; lia).
  rewrite (get_setitem_inside a rs cs v a' (r0 q + i) (c0 q + j) k Hset);
    [| unfold wf; auto | exact Hin | fold q; lia .. ].
  fold q. f_equal. f_equal. f_equal; lia.
Qed.

(** An assignment elsewhere leaves a shown value in place. *)
Lemma shows_setitem_other a rs cs w a' q v :
  setitem a rs cs w = Ok a' ->
  disjoint q (resolve (rows a) (cols a) rs cs) ->
  shows a q v -> shows a' q v.
Proof.
  intros Hset Hdis (Hh & Hw & Hpx). split; [assumption|]. split; [assumption|].
  intros i j k Hi Hj Hk.
  destruct (setitem_shape _ _ _ _ _ Hset) as (Hr' & Hc' & Hch').
  rewrite Hch' in Hk.
  rewrite (get_setitem_outside a rs cs w a' _ _ _ Hset); [apply Hpx; assumption|].
  destruct (in_rect (resolve _ _ rs cs) _ _) eqn:Hin; [|reflexivity].
  exfalso. apply (Hdis (r0 q + i) (c0 q + j)). split; [|exact Hin].
  apply in_rect_true. unfold rect_h, rect_w in Hh, Hw. lia.
Qed.

(** ** The corner tags *)

Lemma corner_rect o sl :
  0 < tag_size o -> 0 < tag_border o ->
  0 <= img_width o -> 0 <= img_height o ->
  sl ∈ corner_slices o ->
  rect_w (placed o sl) = tag_size o /\
  rect_h (placed o sl) = Z.min (tag_size o) (img_height o + tag_border o).
Proof.
  intros Hts Htb Hw Hh Hsl. unfold corner_slices in Hsl.
  repeat (apply elem_of_cons in Hsl as [-> | Hsl]);
    [ .. | apply elem_of_nil in Hsl; contradiction ];
    unfold rect_w, rect_h; unfold_layout; split_ltb; cbn [r0 r1 c0 c1]; lia.
Qed.

Lemma frame_rect o :
  0 < tag_size o -> 0 < tag_border o ->
  0 <= img_width o -> 0 <= img_height o ->
  let q := placed o (frame_slices o) in
  r0 q = tag_border o /\ c0 q = 2 * tag_border o + tag_size o /\
  rect_h q = img_height o /\ rect_w q = img_width o.
Proof.
  intros Hts Htb Hw Hh. cbv zeta.
  unfold rect_w, rect_h; unfold_layout; split_ltb; cbn [r0 r1 c0 c1]; lia.
Qed.

Lemma placed_resolve o a sl :
  fits_canvas o a ->
  resolve (rows a) (cols a) (fst sl) (snd sl) = placed o sl.
Proof. intros (_ & -> & -> & _). reflexivity. Qed.

Lemma fits_canvas_setitem o a rs cs v a' :
  setitem a rs cs v = Ok a' -> fits_canvas o a -> fits_canvas o a'.
Proof.
  intros Hset (Hwf & Hr & Hc & Hch).
  destruct (setitem_shape _ _ _ _ _ Hset) as (Hr' & Hc' & Hch').
  split; [eapply setitem_wf; eassumption|]. lia.
Qed.

(** A tag of shape [(tag_size, tag_size, 1)] can be assigned to a corner
    expression exactly when the canvas is high enough for it. *)
Lemma corner_setitem_ok o a sl t :
  0 < tag_size o -> 0 < tag_border o ->
  0 <= img_width o -> 0 <= img_height o ->
  fits_canvas o a -> sl ∈ corner_slices o ->
  rows t = tag_size o -> cols t = tag_size o -> chans t = 1 ->
  is_ok (setitem a (fst sl) (snd sl) t) =
    (tag_size o <=? img_height o + tag_border o).
Proof.
  intros Hts Htb Hw Hh Hfit Hsl Hrt Hct Hcht.
  rewrite setitem_ok. cbv zeta. rewrite (placed_resolve o a sl Hfit).
  destruct (corner_rect o sl Hts Htb Hw Hh Hsl) as [-> ->].
  destruct Hfit as (_ & _ & _ & ->).
  unfold broadcastable, fits. rewrite Hrt, Hct, Hcht.
  rewrite Z.eqb_refl. simpl.
  destruct (Z.leb_spec (tag_size o) (img_height o + tag_border o)).
  - rewrite Z.min_l by lia. rewrite Z.eqb_refl. reflexivity.
  - rewrite Z.min_r by lia.
    destruct (Z.eqb_spec (tag_size o) (img_height o + tag_border o)); [lia|].
    destruct (Z.eqb_spec (tag_size o) 1); [lia|]. reflexivity.
Qed.

Lemma is_ok_true {A} (r : result A) : is_ok r = true -> exists a, r = Ok a.
Proof. destruct r; [eauto|discriminate]. Qed.

Lemma is_ok_false {A} (r : result A) : is_ok r = false -> exists e, r = Raise e.
Proof. destruct r; [discriminate|eauto]. Qed.

Lemma setitem_raises a rs cs v e :
  setitem a rs cs v = Raise e -> e = ValueError.
Proof.
  unfold setitem. destruct (broadcastable _ _ _ _); [discriminate|].
  intros [= <-]. reflexivity.
Qed.

(** One tag assignment on a fitting canvas that is high enough. *)
Lemma put_tag s a sl t :
  let o := self s in
  0 < tag_size o -> 0 < tag_border o ->
  0 <= img_width o -> 0 <= img_height o ->
  tag_size o <= img_height o + tag_border o ->
  canvas s = Some a -> fits_canvas o a -> sl ∈ corner_slices o ->
  rows t = tag_size o -> cols t = tag_size o -> chans t = 1 ->
  exists s' a',
    setitem_output_img (fst sl) (snd sl) t s = (s', Ok tt) /\
    self s' = self s /\ gui s' = gui s /\
    canvas s' = Some a' /\ fits_canvas o a' /\
    shows a' (placed o sl) t /\
    (forall q v, disjoint q (placed o sl) -> shows a q v -> shows a' q v).
Proof.
  intros o Hts Htb Hw Hh Hhigh Hc Hfit Hsl Hrt Hct Hcht.
  pose proof (corner_setitem_ok o a sl t Hts Htb Hw Hh Hfit Hsl Hrt Hct Hcht) as Hok.
  destruct (Z.leb_spec (tag_size o) (img_height o + tag_border o)); [|lia].
  apply is_ok_true in Hok as [a' Hset].
  destruct (setitem_output_img_ok s a _ _ t a' Hc Hset) as (s' & Hrun & Hself & Hgui & Hc').
  exists s', a'. split; [exact Hrun|]. split; [exact Hself|]. split; [exact Hgui|].
  split; [exact Hc'|]. split; [eapply fits_canvas_setitem; eassumption|].
  destruct (corner_rect o sl Hts Htb Hw Hh Hsl) as [Hrw Hrh].
  split.
  - rewrite <- (placed_resolve o a sl Hfit).
    apply shows_setitem; [apply Hfit | exact Hset | |];
      cbv zeta; rewrite (placed_resolve o a sl Hfit); lia.
  - intros q v Hdis Hshow. eapply shows_setitem_other; [exact Hset | | exact Hshow].
    rewrite (placed_resolve o a sl Hfit). exact Hdis.
Qed.

Lemma frame_corner_disjoint o sl :
  0 < tag_size o -> 0 <= tag_border o ->
  0 <= img_width o -> 0 <= img_height o ->
  sl ∈ corner_slices o ->
  disjoint (placed o sl) (placed o (frame_slices o)).
Proof.
  intros Hts Htb Hw Hh Hsl. unfold corner_slices in Hsl.
  repeat (apply elem_of_cons in Hsl as [-> | Hsl]);
    [ .. | apply elem_of_nil in Hsl; contradiction ]; solve_disjoint.
Qed.

Lemma corners_disjoint o :
  0 < tag_size o -> 0 <= tag_border o ->
  0 <= img_width o -> 0 <= img_height o ->
  2 * tag_size o <= img_height o ->
  let UL := placed o (ul_slices o) in
  let UR := placed o (ur_slices o) in
  let BR := placed o (br_slices o) in
  let BL := placed o (bl_slices o) in
  disjoint UL UR /\ disjoint UL BR /\ disjoint UL BL /\
  disjoint UR BR /\ disjoint UR BL /\ disjoint BR BL.
Proof.
  intros Hts Htb Hw Hh H2. cbv zeta. repeat split; solve_disjoint.
Qed.

Section Corners.
Context {cv : Cv2} {laws : Cv2Laws cv}.

Lemma marker_shape o id t :
  marker o id = Ok t ->
  wf t /\ rows t = tag_size o /\ cols t = tag_size o /\ chans t = 1.
Proof.
  unfold marker, np_zeros. intros H.
  destruct (np_full (tag_size o) (tag_size o) 1 0) as [z|] eqn:Hz; [|discriminate].
  simpl in H. apply np_full_shape in Hz as (Hwz & Hr & Hc & Hch).
  apply (drawMarker_shape _ _ _ _ _ Hwz) in H as (Hwf & Hr' & Hc' & Hch').
  split; [assumption|]. lia.
Qed.

(** With the four markers generated, [addCornerTags] comes down to its
    four assignments. *)
Lemma addCornerTags_assigns s ul ur br bl :
  let o := self s in
  marker o 0 = Ok ul -> marker o 1 = Ok ur ->
  marker o 2 = Ok br -> marker o 3 = Ok bl ->
  addCornerTags s =
    (setitem_output_img (fst (ul_slices o)) (snd (ul_slices o)) ul ;;
     setitem_output_img (fst (ur_slices o)) (snd (ur_slices o)) ur ;;
     setitem_output_img (fst (br_slices o)) (snd (br_slices o)) br ;;
     setitem_output_img (fst (bl_slices o)) (snd (bl_slices o)) bl) s.
Proof.
  intros o. unfold marker, addCornerTags. intros H0 H1 H2 H3.
  unfold bind at 1. unfold get_self at 1. fold o.
  destruct (np_zeros (tag_size o) (tag_size o) 1) as [z|]; [|discriminate].
  simpl in H0, H1, H2, H3.
  unfold bind, lift. rewrite H0, H1, H2, H3. reflexivity.
Qed.

(** When a marker cannot be generated the exception propagates before
    anything is written. *)
Lemma addCornerTags_no_marker s id :
  id ∈ [0; 1; 2; 3] -> is_ok (marker (self s) id) = false ->
  exists e, addCornerTags s = (s, Raise e).
Proof.
  intros Hid Hno. unfold addCornerTags, bind, get_self, lift.
  unfold marker in Hno.
  destruct (np_zeros (tag_size (self s)) (tag_size (self s)) 1) as [z|];
    [|eauto].
  simpl in Hno.
  destruct (cv2_aruco_drawMarker 0 _ z 1) eqn:E0;
    [|eauto].
  destruct (cv2_aruco_drawMarker 1 _ z 1) eqn:E1;
    [|eauto].
  destruct (cv2_aruco_drawMarker 2 _ z 1) eqn:E2;
    [|eauto].
  destruct (cv2_aruco_drawMarker 3 _ z 1) eqn:E3;
    [|eauto].
  exfalso.
  repeat (apply elem_of_cons in Hid as [-> | Hid]);
    [ .. | apply elem_of_nil in Hid; contradiction ];
    rewrite ?E0, ?E1, ?E2, ?E3 in Hno; discriminate.
Qed.

(** On a fitting canvas that is high enough for a tag, [addCornerTags]
    returns normally; the canvas keeps its shape, and when the frame is at
    least two tags high every corner holds its marker afterwards. *)
Lemma addCornerTags_ok s a ul ur br bl :
  let o := self s in
  0 < tag_size o -> 0 < tag_border o ->
  0 <= img_width o -> 0 <= img_height o ->
  tag_size o <= img_height o + tag_border o ->
  canvas s = Some a -> fits_canvas o a ->
  marker o 0 = Ok ul -> marker o 1 = Ok ur ->
  marker o 2 = Ok br -> marker o 3 = Ok bl ->
  exists s' a',
    addCornerTags s = (s', Ok tt) /\
    self s' = self s /\ gui s' = gui s /\
    canvas s' = Some a' /\ fits_canvas o a' /\
    (2 * tag_size o <= img_height o ->
     shows a' (placed o (ul_slices o)) ul /\
     shows a' (placed o (ur_slices o)) ur /\
     shows a' (placed o (br_slices o)) br /\
     shows a' (placed o (bl_slices o)) bl).
Proof.
  intros o Hts Htb Hw Hh Hhigh Hc Hfit M0 M1 M2 M3.
  rewrite (addCornerTags_assigns s ul ur br bl M0 M1 M2 M3). fold o.
  destruct (marker_shape _ _ _ M0) as (_ & R0 & C0 & Ch0).
  destruct (marker_shape _ _ _ M1) as (_ & R1 & C1 & Ch1).
  destruct (marker_shape _ _ _ M2) as (_ & R2 & C2 & Ch2).
  destruct (marker_shape _ _ _ M3) as (_ & R3 & C3 & Ch3).
  assert (I0 : ul_slices o ∈ corner_slices o) by (unfold corner_slices; repeat constructor).
  assert (I1 : ur_slices o ∈ corner_slices o) by (unfold corner_slices; repeat constructor).
  assert (I2 : br_slices o ∈ corner_slices o) by (unfold corner_slices; repeat constructor).
  assert (I3 : bl_slices o ∈ corner_slices o) by (unfold corner_slices; repeat constructor).
  destruct (put_tag s a (ul_slices o) ul Hts Htb Hw Hh Hhigh Hc Hfit I0 R0 C0 Ch0)
    as (s1 & a1 & Run1 & Self1 & Gui1 & Cv1 & Fit1 & Sh1 & Keep1).
  fold o in Run1, Fit1, Sh1, Keep1. rewrite (bind_ok _ _ _ _ _ Run1).
  assert (O1 : self s1 = o) by exact Self1.
  destruct (put_tag s1 a1 (ur_slices o) ur) as
    (s2 & a2 & Run2 & Self2 & Gui2 & Cv2' & Fit2 & Sh2 & Keep2);
    rewrite ?O1; try assumption.
  rewrite O1 in Fit2, Sh2, Keep2.
  rewrite (bind_ok _ _ _ _ _ Run2).
  assert (O2 : self s2 = o) by congruence.
  destruct (put_tag s2 a2 (br_slices o) br) as
    (s3 & a3 & Run3 & Self3 & Gui3 & Cv3 & Fit3 & Sh3 & Keep3);
    rewrite ?O2; try assumption.
  rewrite O2 in Fit3, Sh3, Keep3.
  rewrite (bind_ok _ _ _ _ _ Run3).
  assert (O3 : self s3 = o) by congruence.
  destruct (put_tag s3 a3 (bl_slices o) bl) as
    (s4 & a4 & Run4 & Self4 & Gui4 & Cv4 & Fit4 & Sh4 & Keep4);
    rewrite ?O3; try assumption.
  rewrite O3 in Fit4, Sh4, Keep4.
  exists s4, a4. split; [exact Run4|].
  split; [congruence|]. split; [congruence|].
  split; [exact Cv4|]. split; [exact Fit4|].
  intros H2.
  destruct (corners_disjoint o) as (D01 & D02 & D03 & D12 & D13 & D23);
    try assumption; try lia.
  split; [apply Keep4, Keep3, Keep2; assumption|].
  split; [apply Keep4, Keep3; assumption|].
  split; [apply Keep4; assumption|]. exact Sh4.
Qed.

(** On a fitting canvas too low for a tag, the first assignment raises
    and nothing is written. *)
Lemma addCornerTags_low s a ul ur br bl :
  let o := self s in
  0 < tag_size o -> 0 < tag_border o ->
  0 <= img_width o -> 0 <= img_height o ->
  img_height o + tag_border o < tag_size o ->
  canvas s = Some a -> fits_canvas o a ->
  marker o 0 = Ok ul -> marker o 1 = Ok ur ->
  marker o 2 = Ok br -> marker o 3 = Ok bl ->
  addCornerTags s = (s, Raise ValueError).
Proof.
  intros o Hts Htb Hw Hh Hlow Hc Hfit M0 M1 M2 M3.
  rewrite (addCornerTags_assigns s ul ur br bl M0 M1 M2 M3). fold o.
  destruct (marker_shape _ _ _ M0) as (_ & R0 & C0 & Ch0).
  assert (I0 : ul_slices o ∈ corner_slices o) by (unfold corner_slices; repeat constructor).
  pose proof (corner_setitem_ok o a _ ul Hts Htb Hw Hh Hfit I0 R0 C0 Ch0) as Hok.
  destruct (Z.leb_spec (tag_size o) (img_height o + tag_border o)); [lia|].
  apply is_ok_false in Hok as [e He].
  pose proof (setitem_raises _ _ _ _ _ He) as ->.
  apply bind_raise. apply (setitem_output_img_raise s a); assumption.
Qed.

End Corners.

(** ** Properties kept by every outcome *)

Lemma preserves_bind {A B} P (m : M A) (k : A -> M B) :
  preserves P m -> (forall a, preserves P (k a)) -> preserves P (bind m k).
Proof.
  intros Hm Hk s Hs. unfold bind. specialize (Hm s Hs).
  destruct (m s) as [s' [a|e]]; simpl in *; [apply Hk|]; assumption.
Qed.

Lemma preserves_ret {A} P (a : A) : preserves P (ret a).
Proof. intros s Hs. exact Hs. Qed.

Lemma preserves_raise {A} P e : preserves P (@raise A e).
Proof. intros s Hs. exact Hs. Qed.

Lemma preserves_lift {A} P (r : result A) : preserves P (lift r).
Proof. intros s Hs. exact Hs. Qed.

Lemma preserves_get_self P : preserves P get_self.
Proof. intros s Hs. exact Hs. Qed.

Lemma preserves_load P l : preserves P (load l).
Proof. intros s Hs. unfold load. destruct (heap s !! l); exact Hs. Qed.

Lemma preserves_for_each {A} P (l : list A) body :
  (forall x, preserves P (body x)) -> preserves P (for_each l body).
Proof.
  intros Hb. induction l as [|x l IH]; simpl.
  - apply preserves_ret.
  - apply preserves_bind; [apply Hb | intros _; exact IH].
Qed.

(** Tactic for goals [preserves P m]: walk through the binds, leaving the
    state-changing primitives. *)
Ltac preserves_step :=
  lazymatch goal with
  | |- preserves _ (bind _ _) => apply preserves_bind; [|intros ?]
  | |- preserves _ (ret _) => apply preserves_ret
  | |- preserves _ (raise _) => apply preserves_raise
  | |- preserves _ (lift _) => apply preserves_lift
  | |- preserves _ get_self => apply preserves_get_self
  | |- preserves _ (load _) => apply preserves_load
  | |- preserves _ (match ?x with Some _ => _ | None => _ end) => destruct x
  | |- preserves _ (if ?b then _ else _) => destruct b
  end.

Section Frames.
Context {cv : Cv2}.

(** The methods' building blocks leave the object itself alone. *)
Lemma setitem_output_img_self o rs cs v :
  preserves (fun s => self s = o) (setitem_output_img rs cs v).
Proof.
  unfold setitem_output_img. repeat preserves_step.
  intros s Hs. exact Hs.
Qed.

Lemma imshow_self o l : preserves (fun s => self s = o) (imshow l).
Proof.
  unfold imshow. repeat preserves_step. intros s Hs. exact Hs.
Qed.

Lemma addCornerTags_self o : preserves (fun s => self s = o) addCornerTags.
Proof.
  unfold addCornerTags. repeat preserves_step;
    apply setitem_output_img_self.
Qed.







End Frames.

(** ** updateFrame, block by block *)

Section Update.
Context {cv : Cv2} {laws : Cv2Laws cv}.

(** The re-allocation branch and the final assignment and display. *)
Local Abbreviation realloc dim :=
  (modify_self (set_img_height (snd dim)) ;;
   modify_self (set_img_width (fst dim)) ;;
   initFrame ;;
   addCornerTags).

Local Abbreviation put_frame resized :=
  (o <- get_self ;;
   setitem_output_img (fst (frame_slices o)) (snd (frame_slices o)) resized ;;
   o <- get_self ;;
   match output_img o with
   | Some l => imshow l
   | None => raise cv2_error
   end).

(** A size [cv2.resize] accepts is not negative; of a source with other
    than one channel the result has the requested height and width. *)
Lemma resize_nonneg src w h r :
  cv2_resize src (w, h) = Ok r -> wf r /\ 0 <= w /\ 0 <= h.
Proof.
  intros H. destruct (resize_shape _ _ _ _ H) as (Hwf & Hs).
  split; [exact Hwf|]. destruct Hwf as (Hr & Hc & Hch & _).
  destruct (chans src =? 1); destruct Hs as (? & ? & ?); lia.
Qed.

Lemma resize_colour src w h r :
  chans src <> 1 -> cv2_resize src (w, h) = Ok r ->
  wf r /\ rows r = h /\ cols r = w /\ chans r = chans src.
Proof.
  intros Hc H. destruct (resize_shape _ _ _ _ H) as (Hwf & Hs).
  destruct (Z.eqb_spec (chans src) 1); [contradiction|].
  split; [exact Hwf|exact Hs].
Qed.

Lemma updateFrame_dim_raise s f e :
  scaled_dim (self s) f = Raise e -> updateFrame f s = (s, Raise e).
Proof.
  intros H. unfold updateFrame, bind, get_self, lift. rewrite H. reflexivity.
Qed.

Lemma updateFrame_resize_raise s f dim e :
  scaled_dim (self s) f = Ok dim -> cv2_resize f dim = Raise e ->
  updateFrame f s = (s, Raise e).
Proof.
  intros H H'. unfold updateFrame, bind, get_self, lift.
  rewrite H, H'. reflexivity.
Qed.

Lemma updateFrame_split s f dim r :
  scaled_dim (self s) f = Ok dim -> cv2_resize f dim = Ok r ->
  updateFrame f s =
    ((if size_changed (self s) dim then realloc dim else ret tt) ;;
     put_frame r) s.
Proof.
  intros H H'. unfold updateFrame.
  unfold bind at 1. unfold get_self at 1.
  unfold bind at 1. unfold lift at 1. rewrite H.
  unfold bind at 1. unfold lift at 1. rewrite H'. reflexivity.
Qed.

Lemma put_frame_self o r : preserves (fun s => self s = o) (put_frame r).
Proof.
  repeat preserves_step;
    first [apply setitem_output_img_self | apply imshow_self].
Qed.

Lemma put_frame_None s r :
  canvas s = None -> put_frame r s = (s, Raise TypeError).
Proof.
  intros H. unfold bind at 1. unfold get_self at 1.
  apply bind_raise. apply setitem_output_img_None. exact H.
Qed.

(** The final assignment on a fitting canvas: the shape of the resized
    frame is that of the interior rectangle, so only the channels can
    fail to fit. *)
Lemma put_frame_ok s a r :
  let o := self s in
  0 < tag_size o -> 0 < tag_border o ->
  canvas s = Some a -> fits_canvas o a ->
  wf r -> rows r = img_height o -> cols r = img_width o ->
  if fits (chans r) 3 then
    exists s' a',
      put_frame r s = (s', Ok tt) /\
      self s' = self s /\ gui s' = gui s ++ [Imshow window_name a'] /\
      canvas s' = Some a' /\ fits_canvas o a' /\
      shows a' (placed o (frame_slices o)) r /\
      (forall q v, disjoint q (placed o (frame_slices o)) ->
                   shows a q v -> shows a' q v)
  else put_frame r s = (s, Raise ValueError).
Proof.
  intros o Hts Htb Hc Hfit Hwf Hr Hcl.
  assert (Hh : 0 <= img_height o) by (destruct Hwf; lia).
  assert (Hw : 0 <= img_width o) by (destruct Hwf as (_ & ? & _); lia).
  destruct (frame_rect o Hts Htb Hw Hh) as (Hr0 & Hc0 & Hrh & Hrw).
  pose proof (setitem_ok a (fst (frame_slices o)) (snd (frame_slices o)) r) as Hok.
  cbv zeta in Hok. rewrite (placed_resolve o a _ Hfit) in Hok.
  rewrite Hrh, Hrw in Hok. unfold broadcastable in Hok.
  rewrite Hr, Hcl in Hok. unfold fits at 1 2 in Hok.
  rewrite !Z.eqb_refl in Hok. simpl in Hok.
  replace (chans a) with 3 in Hok by (symmetry; apply Hfit).
  destruct (fits (chans r) 3).
  - apply is_ok_true in Hok as [a' Hset].
    destruct (setitem_output_img_ok s a _ _ r a' Hc Hset)
      as (s' & Hrun & Hself & Hgui & Hc').
    apply canvas_Some in Hc' as Hl. destruct Hl as (l & Hl & Ha').
    exists (mkState (self s') (heap s') (gui s' ++ [Imshow window_name a'])), a'.
    split.
    { unfold bind at 1. unfold get_self at 1. fold o.
      rewrite (bind_ok _ _ _ _ _ Hrun).
      unfold bind at 1. unfold get_self at 1. rewrite Hl.
      unfold imshow, bind, load. rewrite Ha'. reflexivity. }
    simpl. split; [exact Hself|]. split; [rewrite Hgui; reflexivity|].
    split; [unfold canvas; simpl; rewrite Hl; exact Ha'|].
    split; [eapply fits_canvas_setitem; eassumption|].
    split.
    + rewrite <- (placed_resolve o a _ Hfit).
      apply shows_setitem; [apply Hfit | exact Hset | |];
        cbv zeta; rewrite (placed_resolve o a (frame_slices o) Hfit); lia.
    + intros q v Hdis Hshow.
      eapply shows_setitem_other; [exact Hset | | exact Hshow].
      destruct Hfit as (_ & Hra & Hca & _). rewrite Hra, Hca. exact Hdis.
  - apply is_ok_false in Hok as [e He].
    pose proof (setitem_raises _ _ _ _ _ He) as ->.
    unfold bind at 1. unfold get_self at 1. fold o.
    apply bind_raise. apply (setitem_output_img_raise s a); assumption.
Qed.

(** The final assignment of any array on a fitting canvas: it raises and
    leaves the state as it was, or it returns and the canvas is as before
    outside the interior rectangle. *)
Lemma put_frame_any s a r :
  let o := self s in
  canvas s = Some a -> fits_canvas o a ->
  (exists e, put_frame r s = (s, Raise e)) \/
  (exists s' a',
      put_frame r s = (s', Ok tt) /\
      self s' = self s /\ gui s' = gui s ++ [Imshow window_name a'] /\
      canvas s' = Some a' /\ fits_canvas o a' /\
      (forall q v, disjoint q (placed o (frame_slices o)) ->
                   shows a q v -> shows a' q v)).
Proof.
  intros o Hc Hfit.
  destruct (setitem a (fst (frame_slices o)) (snd (frame_slices o)) r)
    as [a'|e] eqn:Hset.
  - right.
    destruct (setitem_output_img_ok s a _ _ r a' Hc Hset)
      as (s' & Hrun & Hself & Hgui & Hc').
    apply canvas_Some in Hc' as Hl. destruct Hl as (l & Hl & Ha').
    exists (mkState (self s') (heap s') (gui s' ++ [Imshow window_name a'])), a'.
    split.
    { unfold bind at 1. unfold get_self at 1. fold o.
      rewrite (bind_ok _ _ _ _ _ Hrun).
      unfold bind at 1. unfold get_self at 1. rewrite Hl.
      unfold imshow, bind, load. rewrite Ha'. reflexivity. }
    simpl. split; [exact Hself|]. split; [rewrite Hgui; reflexivity|].
    split; [unfold canvas; simpl; rewrite Hl; exact Ha'|].
    split; [eapply fits_canvas_setitem; eassumption|].
    intros q v Hdis Hshow.
    eapply shows_setitem_other; [exact Hset | | exact Hshow].
    destruct Hfit as (_ & Hra & Hca & _). rewrite Hra, Hca. exact Hdis.
  - left. exists e.
    unfold bind at 1. unfold get_self at 1. fold o.
    apply bind_raise. apply (setitem_output_img_raise s a); assumption.
Qed.

(** The state in which [addCornerTags] starts on the re-allocation
    branch: the new size tracked, a white canvas of the new shape bound. *)
Lemma realloc_prefix s w h :
  0 <= h + 2 * tag_border (self s) ->
  0 <= w + 2 * tag_size (self s) + 4 * tag_border (self s) ->
  exists a,
    let o' := set_output_img (Some (length (heap s)))
                (set_img_width w (set_img_height h (self s))) in
    realloc (w, h) s =
      addCornerTags (mkState o' (heap s ++ [a]) (gui s)) /\
    fits_canvas o' a /\
    canvas (mkState o' (heap s ++ [a]) (gui s)) = Some a.
Proof.
  intros Hr Hc.
  destruct (np_ones_255_ok (h + 2 * tag_border (self s))
              (w + 2 * tag_size (self s) + 4 * tag_border (self s)) 3)
    as (a & Ha & Hwf & Hra & Hca & Hcha & _); [lia..|].
  exists a. cbv zeta. split; [|split].
  - unfold initFrame, bind, modify_self, get_self, lift, alloc,
      canvas_rows, canvas_cols. simpl.
    rewrite Ha. reflexivity.
  - split; [exact Hwf|]. unfold canvas_rows, canvas_cols. simpl. lia.
  - unfold canvas. simpl. apply list_lookup_middle. reflexivity.
Qed.

(** The outcome of a call that re-allocates. *)
Lemma updateFrame_changed s f w h r :
  let o := self s in
  0 < tag_size o -> 0 < tag_border o ->
  scaled_dim o f = Ok (w, h) -> cv2_resize f (w, h) = Ok r ->
  chans f <> 1 ->
  size_changed o (w, h) = true ->
  match marker o 0, marker o 1, marker o 2, marker o 3 with
  | Ok ul, Ok ur, Ok br, Ok bl =>
      if (tag_size o <=? h + tag_border o) && fits (chans r) 3 then
        exists s' a',
          updateFrame f s = (s', Ok tt) /\
          self s' = set_output_img (Some (length (heap s)))
                      (set_img_width w (set_img_height h o)) /\
          gui s' = gui s ++ [Imshow window_name a'] /\
          canvas s' = Some a' /\ fits_canvas (self s') a' /\
          shows a' (placed (self s') (frame_slices (self s'))) r /\
          (2 * tag_size o <= h ->
           shows a' (placed (self s') (ul_slices (self s'))) ul /\
           shows a' (placed (self s') (ur_slices (self s'))) ur /\
           shows a' (placed (self s') (br_slices (self s'))) br /\
           shows a' (placed (self s') (bl_slices (self s'))) bl)
      else snd (updateFrame f s) = Raise ValueError
  | _, _, _, _ => exists e, snd (updateFrame f s) = Raise e
  end.
Proof.
  intros o Hts Htb Hdim Hres Hf1 Hch.
  destruct (resize_colour _ _ _ _ Hf1 Hres) as (Hwf & Hrr & Hrc & Hrch).
  assert (Hh : 0 <= h) by (destruct Hwf; lia).
  assert (Hw : 0 <= w) by (destruct Hwf as (_ & ? & _); lia).
  destruct (realloc_prefix s w h) as (a & Hpre & Hfit & Hcv); [fold o; lia..|].
  cbv zeta in Hpre, Hfit, Hcv. fold o in Hpre, Hfit, Hcv.
  set (o' := set_output_img (Some (length (heap s)))
               (set_img_width w (set_img_height h o))) in *.
  set (s3 := mkState o' (heap s ++ [a]) (gui s)) in *.
  assert (Hrun : updateFrame f s = bind addCornerTags (fun _ => put_frame r) s3).
  { rewrite (updateFrame_split s f (w, h) r Hdim Hres). fold o. rewrite Hch.
    unfold bind at 1. cbn [fst snd] in Hpre |- *. rewrite Hpre. reflexivity. }
  rewrite Hrun. clear Hrun.
  change (marker o 0) with (marker (self s3) 0).
  change (marker o 1) with (marker (self s3) 1).
  change (marker o 2) with (marker (self s3) 2).
  change (marker o 3) with (marker (self s3) 3).
  destruct (marker (self s3) 0) as [ul|e0] eqn:M0.
  2:{ destruct (addCornerTags_no_marker s3 0) as [e He];
        [repeat constructor | rewrite M0; reflexivity |].
      rewrite (bind_raise _ _ _ _ _ He). eauto. }
  destruct (marker (self s3) 1) as [ur|e1] eqn:M1.
  2:{ destruct (addCornerTags_no_marker s3 1) as [e He];
        [repeat constructor | rewrite M1; reflexivity |].
      rewrite (bind_raise _ _ _ _ _ He). eauto. }
  destruct (marker (self s3) 2) as [br|e2] eqn:M2.
  2:{ destruct (addCornerTags_no_marker s3 2) as [e He];
        [repeat constructor | rewrite M2; reflexivity |].
      rewrite (bind_raise _ _ _ _ _ He). eauto. }
  destruct (marker (self s3) 3) as [bl|e3] eqn:M3.
  2:{ destruct (addCornerTags_no_marker s3 3) as [e He];
        [repeat constructor | rewrite M3; reflexivity |].
      rewrite (bind_raise _ _ _ _ _ He). eauto. }
  destruct (Z.leb_spec (tag_size o) (h + tag_border o)) as [Hhigh|Hlow].
  - destruct (addCornerTags_ok s3 a ul ur br bl
                Hts Htb Hw Hh Hhigh Hcv Hfit M0 M1 M2 M3)
      as (s4 & a4 & Run4 & Self4 & Gui4 & Cv4 & Fit4 & Sh4).
    rewrite (bind_ok _ _ _ _ _ Run4).
    pose proof (put_frame_ok s4 a4 r) as Hput. cbv zeta in Hput.
    rewrite Self4 in Hput. specialize (Hput Hts Htb Cv4 Fit4 Hwf Hrr Hrc).
    cbn [andb]. destruct (fits (chans r) 3).
    + destruct Hput as (s5 & a5 & Run5 & Self5 & Gui5 & Cv5 & Fit5 & Sh5 & Keep5).
      exists s5, a5. split; [exact Run5|].
      assert (O5 : self s5 = o') by (rewrite Self5; reflexivity).
      rewrite O5.
      split; [reflexivity|]. split; [rewrite Gui5, Gui4; reflexivity|].
      split; [exact Cv5|]. split; [exact Fit5|]. split; [exact Sh5|].
      intros H2. destruct (Sh4 H2) as (S0 & S1 & S2 & S3).
      assert (Hd : forall sl, sl ∈ corner_slices o' ->
                disjoint (placed o' sl) (placed o' (frame_slices o'))).
      { intros sl Hsl. apply frame_corner_disjoint; try assumption.
        change (tag_border o') with (tag_border o). lia. }
      split; [apply Keep5; [apply Hd; repeat constructor | exact S0]|].
      split; [apply Keep5; [apply Hd; repeat constructor | exact S1]|].
      split; [apply Keep5; [apply Hd; repeat constructor | exact S2]|].
      apply Keep5; [apply Hd; repeat constructor | exact S3].
    + rewrite Hput. reflexivity.
  - cbn [andb].
    rewrite (bind_raise _ _ _ _ _ (addCornerTags_low s3 a ul ur br bl
               Hts Htb Hw Hh Hlow Hcv Hfit M0 M1 M2 M3)).
    reflexivity.
Qed.

(** The outcome of a call that keeps the canvas. *)
Lemma updateFrame_unchanged s f w h r :
  let o := self s in
  0 < tag_size o -> 0 < tag_border o ->
  scaled_dim o f = Ok (w, h) -> cv2_resize f (w, h) = Ok r ->
  chans f <> 1 ->
  size_changed o (w, h) = false ->
  canvas_fits s ->
  match canvas s with
  | Some a =>
      if fits (chans r) 3 then
        exists s' a',
          updateFrame f s = (s', Ok tt) /\
          self s' = self s /\
          gui s' = gui s ++ [Imshow window_name a'] /\
          canvas s' = Some a' /\ fits_canvas o a' /\
          shows a' (placed o (frame_slices o)) r /\
          (forall q v, disjoint q (placed o (frame_slices o)) ->
                       shows a q v -> shows a' q v)
      else updateFrame f s = (s, Raise ValueError)
  | None => updateFrame f s = (s, Raise TypeError)
  end.
Proof.
  intros o Hts Htb Hdim Hres Hf1 Hch Hfits.
  destruct (resize_colour _ _ _ _ Hf1 Hres) as (Hwf & Hrr & Hrc & Hrch).
  rewrite (updateFrame_split s f (w, h) r Hdim Hres). fold o. rewrite Hch.
  unfold bind at 1. unfold ret at 1.
  unfold size_changed in Hch. cbn [fst snd] in Hch.
  apply orb_false_iff in Hch as [E1 E2].
  apply negb_false_iff, Z.eqb_eq in E1, E2.
  destruct (canvas s) as [a|] eqn:Hc.
  - apply (put_frame_ok s a r); try assumption; try (fold o; lia).
    apply Hfits. exact Hc.
  - apply put_frame_None. exact Hc.
Qed.

Lemma size_changed_false o w h :
  size_changed o (w, h) = false <-> h = img_height o /\ w = img_width o.
Proof.
  unfold size_changed. cbn [fst snd].
  rewrite orb_false_iff, !negb_false_iff, !Z.eqb_eq. tauto.
Qed.

Lemma preserves_self_any {A} (Q : ArucoWindow -> Prop) (m : M A) :
  (forall o, preserves (fun s => self s = o) m) ->
  preserves (fun s => Q (self s)) m.
Proof. intros Hm s Hs. rewrite (Hm (self s) s eq_refl). exact Hs. Qed.

Lemma initFrame_view (Q : Z * Z * Py.num * Z * Z * (Z * Z) -> Prop) :
  preserves (fun s => Q (view (self s), cursor (self s))) initFrame.
Proof.
  intros s Hs. unfold initFrame, bind, get_self, lift.
  destruct (np_ones_255 _ _ 3); exact Hs.
Qed.

(** In every outcome of a call whose frame is resized, the scaled size is
    the tracked size afterwards. *)
Lemma updateFrame_tracks s f w h r :
  scaled_dim (self s) f = Ok (w, h) -> cv2_resize f (w, h) = Ok r ->
  img_width (self (fst (updateFrame f s))) = w /\
  img_height (self (fst (updateFrame f s))) = h.
Proof.
  intros Hdim Hres.
  rewrite (updateFrame_split s f (w, h) r Hdim Hres).
  destruct (size_changed (self s) (w, h)) eqn:Hsz.
  - set (s2 := mkState (set_img_width w (set_img_height h (self s)))
                 (heap s) (gui s)).
    change ((realloc (w, h) ;; put_frame r) s)
      with (((initFrame ;; addCornerTags) ;; put_frame r) s2).
    apply (preserves_bind
             (fun st => img_width (self st) = w /\ img_height (self st) = h));
      [apply preserves_bind; [|intros _] | intros _ | split; reflexivity].
    + apply (initFrame_view (fun v => v.1.2 = w /\ v.1.1.2 = h)).
    + apply (preserves_self_any (fun o => img_width o = w /\ img_height o = h)).
      intros o. apply addCornerTags_self.
    + apply (preserves_self_any (fun o => img_width o = w /\ img_height o = h)).
      intros o. apply put_frame_self.
  - apply size_changed_false in Hsz as [-> ->].
    change ((ret tt ;; put_frame r) s) with (put_frame r s).
    rewrite (put_frame_self (self s) r s eq_refl). auto.
Qed.


End Update.

(** ** When updateFrame completes, and what it leaves *)

Section UpdateFrame.
Context {cv : Cv2} {laws : Cv2Laws cv}.

Lemma markers_available_Ok o :
  markers_available o = true ->
  exists ul ur br bl,
    marker o 0 = Ok ul /\ marker o 1 = Ok ur /\
    marker o 2 = Ok br /\ marker o 3 = Ok bl.
Proof.
  unfold markers_available. cbn [forallb].
  rewrite !andb_true_iff. intros (H0 & H1 & H2 & H3 & _).
  apply is_ok_true in H0 as [ul ->], H1 as [ur ->], H2 as [br ->], H3 as [bl ->].
  eauto 10.
Qed.

(** One call on a state whose canvas fits: with [tag_size > 0] and
    [tag_border > 0], a 3-channel frame, and resizing and marker
    generation succeeding, [updateFrame] returns normally exactly when the
    scaled size differs from the tracked one and
    [tag_size <= scaled height + tag_border], or the scaled size is the
    tracked one and a canvas is allocated. *)
Lemma updateFrame_completes_step (s : state) (f : ndarray) (w h : Z) (r : ndarray) :
  let o := self s in
  0 < tag_size o -> 0 < tag_border o ->
  canvas_fits s -> chans f = 3 ->
  scaled_dim o f = Ok (w, h) -> cv2_resize f (w, h) = Ok r ->
  markers_available o = true ->
  (snd (updateFrame f s) = Ok tt <->
   if size_changed o (w, h) then tag_size o <= h + tag_border o
   else is_Some (canvas s)).
Proof.
  intros o Hts Htb Hfits Hch Hdim Hres Hav.
  assert (Hf1 : chans f <> 1) by lia.
  destruct (resize_colour _ _ _ _ Hf1 Hres) as (Hwf & Hrr & Hrc & Hrch).
  assert (Hfit3 : fits (chans r) 3 = true) by (rewrite Hrch, Hch; reflexivity).
  destruct (size_changed o (w, h)) eqn:Hsz.
  - pose proof (updateFrame_changed s f w h r Hts Htb Hdim Hres Hf1 Hsz) as Hout.
    cbv zeta in Hout. fold o in Hout.
    destruct (markers_available_Ok o Hav) as (ul & ur & br & bl & M0 & M1 & M2 & M3).
    rewrite M0, M1, M2, M3, Hfit3, andb_true_r in Hout.
    destruct (Z.leb_spec (tag_size o) (h + tag_border o)) as [Hhigh|Hlow].
    + destruct Hout as (s' & a' & -> & _). split; [intros _; exact Hhigh|reflexivity].
    + rewrite Hout. split; [discriminate|lia].
  - pose proof (updateFrame_unchanged s f w h r Hts Htb Hdim Hres Hf1 Hsz Hfits) as Hout.
    destruct (canvas s) as [a|].
    + rewrite Hfit3 in Hout. destruct Hout as (s' & a' & -> & _).
      split; [eauto|reflexivity].
    + rewrite Hout. split; [discriminate|]. intros [x Hx]. discriminate.
Qed.

(** One call that returns normally: with [tag_border > 0] and a scaled
    frame at least [2 * tag_size] high, having re-allocated the canvas or
    having started from a canvas with its markers intact, the interior
    region holds the resized frame and the corner regions their markers. *)
Lemma updateFrame_canvas_step (s : state) (f : ndarray) (w h : Z) (r : ndarray)
    (s' : state) :
  let o := self s in
  0 < tag_size o -> 0 < tag_border o -> 2 * tag_size o <= h ->
  scaled_dim o f = Ok (w, h) -> cv2_resize f (w, h) = Ok r ->
  chans f <> 1 ->
  (size_changed o (w, h) = false -> markers_intact s) ->
  updateFrame f s = (s', Ok tt) ->
  frame_shown s' r /\ markers_intact s'.
Proof.
  intros o Hts Htb H2 Hdim Hres Hf1 Hpre Hrun.
  destruct (resize_colour _ _ _ _ Hf1 Hres) as (Hwf & Hrr & Hrc & Hrch).
  assert (Hh : 0 <= h) by (destruct Hwf; lia).
  assert (Hw : 0 <= w) by (destruct Hwf as (_ & ? & _); lia).
  destruct (size_changed o (w, h)) eqn:Hsz.
  - pose proof (updateFrame_changed s f w h r Hts Htb Hdim Hres Hf1 Hsz) as Hout.
    cbv zeta in Hout. fold o in Hout.
    destruct (marker o 0) as [ul|] eqn:M0;
      [|destruct Hout as [e' He]; rewrite Hrun in He; discriminate].
    destruct (marker o 1) as [ur|] eqn:M1;
      [|destruct Hout as [e' He]; rewrite Hrun in He; discriminate].
    destruct (marker o 2) as [br|] eqn:M2;
      [|destruct Hout as [e' He]; rewrite Hrun in He; discriminate].
    destruct (marker o 3) as [bl|] eqn:M3;
      [|destruct Hout as [e' He]; rewrite Hrun in He; discriminate].
    destruct ((tag_size o <=? h + tag_border o) && fits (chans r) 3);
      [|rewrite Hrun in Hout; discriminate].
    destruct Hout as (s'' & a' & Hrun' & Hself & Hgui & Hc & Hfit & Shf & Shc).
    rewrite Hrun in Hrun'. injection Hrun' as <-.
    destruct (Shc H2) as (S0 & S1 & S2 & S3).
    assert (Hfr : 0 < tag_size (self s') /\ 0 < tag_border (self s') /\
                  0 <= img_width (self s') /\ 0 <= img_height (self s'))
      by (rewrite Hself; simpl; fold o; lia).
    destruct Hfr as (Hts' & Htb' & Hw' & Hh').
    destruct (frame_rect (self s') Hts' Htb' Hw' Hh') as (Hr0 & Hc0 & _ & _).
    split.
    + exists a'. auto.
    + exists a', ul, ur, br, bl.
      assert (Hm : forall id, marker (self s') id = marker o id)
        by (intros id; rewrite Hself; reflexivity).
      rewrite !Hm.
      split; [exact Hc|].
      split; [intros a Ha; rewrite Hc in Ha; injection Ha as <-; exact Hfit|].
      auto 10.
  - specialize (Hpre eq_refl).
    destruct Hpre as (a & ul & ur & br & bl & Hc & Hfits & M0 & M1 & M2 & M3
                      & S0 & S1 & S2 & S3).
    fold o in M0, M1, M2, M3, S0, S1, S2, S3.
    pose proof (updateFrame_unchanged s f w h r Hts Htb Hdim Hres Hf1 Hsz Hfits) as Hout.
    rewrite Hc in Hout.
    destruct (fits (chans r) 3); [|rewrite Hrun in Hout; discriminate].
    destruct Hout as (s'' & a' & Hrun' & Hself & Hgui & Hc' & Hfit' & Shf & Keep).
    rewrite Hrun in Hrun'. injection Hrun' as <-.
    unfold size_changed in Hsz. cbn [fst snd] in Hsz.
    apply orb_false_iff in Hsz as [E1 E2].
    apply negb_false_iff, Z.eqb_eq in E1, E2.
    destruct (frame_rect o Hts Htb) as (Hr0 & Hc0 & _ & _); [lia..|].
    assert (Hd : forall sl, sl ∈ corner_slices o ->
              disjoint (placed o sl) (placed o (frame_slices o)))
      by (intros sl Hsl; apply frame_corner_disjoint; try assumption; lia).
    split.
    + exists a'. rewrite Hself. fold o. auto.
    + exists a', ul, ur, br, bl. rewrite Hself. fold o.
      split; [exact Hc'|].
      split; [intros a0 Ha0; rewrite Hc' in Ha0; injection Ha0 as <-;
              rewrite Hself; exact Hfit'|].
      split; [exact M0|]. split; [exact M1|].
      split; [exact M2|]. split; [exact M3|].
      split; [apply Keep; [apply Hd; repeat constructor | exact S0]|].
      split; [apply Keep; [apply Hd; repeat constructor | exact S1]|].
      split; [apply Keep; [apply Hd; repeat constructor | exact S2]|].
      apply Keep; [apply Hd; repeat constructor | exact S3].
Qed.

End UpdateFrame.

(** ** The reference collaborators keep the interface's laws *)

Lemma wf_tabulate h w c f :
  0 <= h -> 0 <= w -> 0 <= c -> wf (Ref.tabulate h w c f).
Proof.
  intros Hh Hw Hc. unfold wf, Ref.tabulate. simpl.
  split; [assumption|]. split; [assumption|]. split; [assumption|].
  split; [rewrite length_fmap, length_seq; lia|].
  apply Forall_fmap, Forall_forall. intros i _. simpl.
  split; [rewrite length_fmap, length_seq; lia|].
  apply Forall_fmap, Forall_forall. intros j _. simpl.
  rewrite length_fmap, length_seq. lia.
Qed.

Lemma Ref_laws : Cv2Laws Ref.cv.
Proof.
  split.
  - intros src w h r. simpl. unfold Ref.resize.
    destruct (rows src <=? 0) eqn:E1; [discriminate|].
    destruct (cols src <=? 0) eqn:E2; [discriminate|].
    destruct (chans src <=? 0) eqn:E3; [discriminate|].
    destruct (w <=? 0) eqn:E4; [discriminate|].
    destruct (h <=? 0) eqn:E5; [discriminate|].
    simpl. destruct (chans src =? 1); intros [= <-];
      (split; [apply wf_tabulate; lia|]); auto.
  - intros id n img bits t Hwf. simpl. unfold Ref.drawMarker.
    destruct (Ref.marker_bits id) as [code|]; [|discriminate].
    destruct ((bits <=? 0) || (n <? 4 + 2 * bits)) eqn:E1; [discriminate|].
    apply orb_false_iff in E1 as [E1 E2].
    destruct ((rows img =? n) && (cols img =? n) && (chans img =? 1)) eqn:E3.
    + apply andb_true_iff in E3 as [E3 E5].
      apply andb_true_iff in E3 as [E3 E4].
      intros [= <-].
      split; [apply wf_tabulate; lia|]. simpl. lia.
    + intros [= <-]. auto.
Qed.

Lemma Ref_checks : Cv2Checks Ref.cv.
Proof.
  split. intros src w h r. simpl. unfold Ref.resize.
  destruct (rows src <=? 0) eqn:E1; [discriminate|].
  destruct (cols src <=? 0) eqn:E2; [discriminate|].
  destruct (chans src <=? 0) eqn:E3; [discriminate|].
  destruct (w <=? 0) eqn:E4; [discriminate|].
  destruct (h <=? 0) eqn:E5; [discriminate|].
  intros _. lia.
Qed.

(** ** C5: the scaled size *)

Lemma trunc_mag_bounds m e :
  e < 0 ->
  0 <= Py.trunc_mag m e /\
  Py.trunc_mag m e * 2 ^ (- e) <= Z.pos m < (Py.trunc_mag m e + 1) * 2 ^ (- e).
Proof.
  intros He. unfold Py.trunc_mag.
  destruct (Z.leb_spec 0 e); [lia|].
  assert (Hq : 0 < 2 ^ (- e)) by (apply Z.pow_pos_nonneg; lia).
  pose proof (Z.div_mod (Z.pos m) (2 ^ (- e)) ltac:(lia)) as Hdm.
  pose proof (Z.mod_pos_bound (Z.pos m) (2 ^ (- e)) Hq) as Hmod.
  split; [apply Z.div_pos; lia|]. nia.
Qed.

(** [int(x)] is [x] cut towards zero. *)
Lemma int_truncates x n : Py.int x = Ok n -> Py.truncates n x.
Proof.
  destruct x as [z|[s|s| |s m e]]; simpl; intros [= <-].
  - exists z, 1. split; [reflexivity|]. nia.
  - exists 0, 1. split; [reflexivity|]. lia.
  - unfold Py.truncates, Py.frac.
    destruct (Z.leb_spec 0 e) as [He|He].
    + eexists _, 1. split; [reflexivity|].
      unfold Py.trunc_mag. destruct (Z.leb_spec 0 e); [|lia].
      assert (0 < Z.pos m * 2 ^ e)
        by (apply Z.mul_pos_pos; [lia | apply Z.pow_pos_nonneg; lia]).
      destruct s; simpl; nia.
    + eexists _, (2 ^ (- e)). split; [reflexivity|].
      destruct (trunc_mag_bounds m e He) as (H0 & H1 & H2).
      assert (Hq : 0 < 2 ^ (- e)) by (apply Z.pow_pos_nonneg; lia).
      split; [exact Hq|].
      destruct s; simpl; rewrite ?Z.abs_opp, ?Z.abs_eq by lia; nia.
Qed.

Lemma scale_dim_truncates n rescale k :
  scale_dim n rescale = Ok k ->
  exists p, Py.mul (Py.Int n) rescale = Ok p /\ Py.truncates k p.
Proof.
  unfold scale_dim. destruct (Py.mul (Py.Int n) rescale) as [p|]; [|discriminate].
  simpl. intros H. exists p. split; [reflexivity|]. apply int_truncates, H.
Qed.

Section ScaledSize.
Context {cv : Cv2}.

(** C5 (amended). When the size computation of [updateFrame] does not
    raise, the scaled size is the pair of products
    [(width * rescale, height * rescale)] each cut to an integer towards
    zero, as [int()] does, not rounded to the nearest.  This is the size
    [cv2.resize] is called with: [updateFrame] depends on the resizing
    only through its result for the frame and this size.  When
    [cv2.resize] raises, the exception leaves [updateFrame] and nothing
    has changed; when it returns, the scaled size is the size tracked
    after the call, whether or not the call then returns normally. *)
Theorem updateFrame_scaled_size (s : state) (f : ndarray) (w h : Z) :
  scaled_dim (self s) f = Ok (w, h) ->
  (exists ph pw,
     Py.mul (Py.Int (rows f)) (image_rescale (self s)) = Ok ph /\
     Py.mul (Py.Int (cols f)) (image_rescale (self s)) = Ok pw /\
     Py.truncates h ph /\ Py.truncates w pw) /\
  (forall cv' : Cv2,
     @cv2_resize cv' f (w, h) = @cv2_resize cv f (w, h) ->
     @cv2_aruco_drawMarker cv' = @cv2_aruco_drawMarker cv ->
     @updateFrame cv' f s = @updateFrame cv f s) /\
  match cv2_resize f (w, h) with
  | Ok _ =>
      img_width (self (fst (updateFrame f s))) = w /\
      img_height (self (fst (updateFrame f s))) = h
  | Raise e => updateFrame f s = (s, Raise e)
  end.
Proof.
  intros Hdim. split; [|split].
  - unfold scaled_dim in Hdim.
    destruct (scale_dim (rows f) _) as [h'|] eqn:Eh; [|discriminate].
    destruct (scale_dim (cols f) _) as [w'|] eqn:Ew; [|discriminate].
    simpl in Hdim. injection Hdim as <- <-.
    apply scale_dim_truncates in Eh as (ph & Hph & Hth).
    apply scale_dim_truncates in Ew as (pw & Hpw & Htw).
    exists ph, pw. auto.
  - intros cv' Hr Hm.
    assert (Ha : @addCornerTags cv' = @addCornerTags cv)
      by (unfold addCornerTags; rewrite Hm; reflexivity).
    destruct (@cv2_resize cv f (w, h)) as [r|e] eqn:Hres.
    + rewrite (@updateFrame_split cv' s f (w, h) r Hdim Hr).
      rewrite (@updateFrame_split cv s f (w, h) r Hdim Hres).
      rewrite Ha. reflexivity.
    + rewrite (@updateFrame_resize_raise cv' s f (w, h) e Hdim Hr).
      rewrite (@updateFrame_resize_raise cv s f (w, h) e Hdim Hres).
      reflexivity.
  - destruct (cv2_resize f (w, h)) as [r|e] eqn:Hres.
    + apply (updateFrame_tracks s f w h r Hdim Hres).
    + apply (updateFrame_resize_raise s f (w, h) e Hdim Hres).
Qed.

End ScaledSize.

Lemma updateFrame_scaled_size_witness :
  let s := Ex.window 6 1 Ex.half in
  let f := Ex.frame 13 5 in
  (exists ph pw,
     Py.mul (Py.Int (rows f)) (image_rescale (self s)) = Ok ph /\
     Py.mul (Py.Int (cols f)) (image_rescale (self s)) = Ok pw /\
     Py.truncates 6 ph /\ Py.truncates 2 pw) /\
  (forall cv' : Cv2,
     @cv2_resize cv' f (2, 6) = @cv2_resize Ref.cv f (2, 6) ->
     @cv2_aruco_drawMarker cv' = @cv2_aruco_drawMarker Ref.cv ->
     @updateFrame cv' f s = @updateFrame Ref.cv f s) /\
  match @cv2_resize Ref.cv f (2, 6) with
  | Ok _ =>
      img_width (self (fst (@updateFrame Ref.cv f s))) = 2 /\
      img_height (self (fst (@updateFrame Ref.cv f s))) = 6
  | Raise e => @updateFrame Ref.cv f s = (s, Raise e)
  end.
Proof.
  apply (@updateFrame_scaled_size Ref.cv
           (Ex.window 6 1 Ex.half) (Ex.frame 13 5) 2 6).
  vm_compute. reflexivity.
Defined.

(** The claim as stated fails: with the factor 0.75 a frame 7 high and 2
    wide has the products 5.25 and 1.5; the code cuts them to 5 and 1,
    rounding gives 5 and 2.  The call returns normally and the size
    tracked after it is (1, 5). *)
Lemma scaled_size_counterexample :
  let s := Ex.window 6 1 Ex.three_quarters in
  let f := Ex.frame 7 2 in
  scaled_dim (self s) f = Ok (1, 5) /\
  Spec.scaled_dim (self s) f = Ok (2, 5) /\
  scaled_dim (self s) f <> Spec.scaled_dim (self s) f /\
  snd (@updateFrame Ref.cv f s) = Ok tt /\
  img_width (self (fst (@updateFrame Ref.cv f s))) = 1 /\
  img_height (self (fst (@updateFrame Ref.cv f s))) = 5.
Proof.
  cbv zeta. split; [vm_compute; reflexivity|].
  split; [vm_compute; reflexivity|].
  split; [vm_compute; discriminate|].
  repeat split; vm_compute; reflexivity.
Qed.

(** ** C4: when the canvas is re-allocated *)



Section Reallocation.
Context {cv : Cv2} {laws : Cv2Laws cv} {checks : Cv2Checks cv}.




End Reallocation.



(** ** C8: construction *)

(** C8 (amended). Constructing the window never raises, whatever the
    tag size, zero and negative ones included: the arguments are stored
    as given, the canvas is unallocated, the tracked size is (0, 0), and
    the display window is created. *)
Theorem init_stores_arguments (tag_size tag_border : Z) (image_rescale : Py.num)
    (s : state) :
  snd (__init__ tag_size tag_border image_rescale s) = Ok tt /\
  self (fst (__init__ tag_size tag_border image_rescale s)) =
    mkArucoWindow tag_size tag_border image_rescale None 0 0 (0, 0) /\
  heap (fst (__init__ tag_size tag_border image_rescale s)) = heap s /\
  gui (fst (__init__ tag_size tag_border image_rescale s)) =
    gui s ++ [NamedWindow window_name].
Proof. repeat split. Qed.

(** The claim as stated fails: constructing with tag size 0 or -5 returns
    normally. *)
Lemma init_counterexample :
  snd (__init__ 0 10 (Py.Int 1) Ex.blank) = Ok tt /\
  snd (__init__ (-5) 10 (Py.Int 1) Ex.blank) = Ok tt /\
  ~ (exists e, snd (__init__ 0 10 (Py.Int 1) Ex.blank) = Raise e).
Proof.
  split; [reflexivity|]. split; [reflexivity|].
  intros [e He]. discriminate.
Qed.

(** ** The cursor overlay works on a copy *)

Section Overlay.
Context {cv : Cv2}.

(** Writing at or beyond the end of [H] leaves [H] a prefix of the heap. *)
Lemma circle_keeps H o l center radius color thickness :
  (length H <= l)%nat ->
  preserves (fun st => self st = o /\ exists ext, heap st = H ++ ext)
            (circle l center radius color thickness).
Proof.
  intros Hl. unfold circle. repeat preserves_step.
  intros st [Hself [ext Hext]]. simpl. split; [exact Hself|].
  rewrite Hext. rewrite insert_app_r_alt by exact Hl. eauto.
Qed.

Lemma imshow_keeps H o l :
  preserves (fun st => self st = o /\ exists ext, heap st = H ++ ext) (imshow l).
Proof.
  unfold imshow. repeat preserves_step. intros st Hst. exact Hst.
Qed.

(** What one [updateCursor] call changes: the cursor, and the heap beyond
    the arrays that existed before. *)
Lemma updateCursor_frame s x y corners :
  let s' := fst (updateCursor x y corners s) in
  view (self s') = view (self s) /\
  output_img (self s') = output_img (self s) /\
  canvas s' = canvas s /\
  cursor (self s') =
    match Py.int x, Py.int y with
    | Ok ix, Ok iy => (ix, iy)
    | _, _ => cursor (self s)
    end.
Proof.
  cbv zeta.
  destruct (updateCursor x y corners s) as [s' res] eqn:Hrun.
  cbn [fst]. revert Hrun. unfold updateCursor.
  unfold bind at 1. unfold lift at 1.
  destruct (Py.int x) as [ix|]; [|intros [= <- _]; auto].
  unfold bind at 1. unfold lift at 1.
  destruct (Py.int y) as [iy|]; [|intros [= <- _]; auto].
  unfold bind at 1. unfold modify_self at 1.
  set (s1 := mkState (set_cursor (ix, iy) (self s)) (heap s) (gui s)).
  unfold bind at 1. unfold copy_output_img, bind at 1, get_self at 1.
  change (output_img (self s1)) with (output_img (self s)).
  destruct (output_img (self s)) as [l|] eqn:Hl.
  2:{ intros [= <- _]. unfold canvas. simpl. rewrite Hl. auto. }
  unfold bind at 1. unfold load at 1.
  change (heap s1) with (heap s).
  destruct (heap s !! l) as [a|] eqn:Ha.
  2:{ intros [= <- _]. unfold canvas. simpl. rewrite Hl. auto. }
  unfold alloc. cbn [fst snd self heap gui].
  set (s2 := mkState (set_cursor (ix, iy) (self s)) (heap s ++ [a]) (gui s)).
  intros Hrun.
  assert (Hkeep : self s' = self s1 /\ exists ext, heap s' = heap s ++ ext).
  { change s' with (fst (s', res)). rewrite <- Hrun.
    apply (preserves_bind
             (fun st => self st = self s1 /\ exists ext, heap st = heap s ++ ext));
      [apply preserves_get_self | intros o
      | split; [reflexivity | exists [a]; reflexivity]].
    apply preserves_bind; [apply circle_keeps; simpl; lia | intros _].
    apply preserves_bind; [|intros _; apply imshow_keeps].
    apply preserves_for_each. intros corner.
    repeat preserves_step. apply circle_keeps. simpl. lia. }
  destruct Hkeep as [Hself [ext Hext]].
  rewrite Hself. unfold canvas. rewrite Hself. cbn [s1 self output_img set_cursor].
  rewrite Hl, Hext.
  split; [reflexivity|]. split; [reflexivity|]. split; [|reflexivity].
  rewrite Ha. apply lookup_app_l_Some. exact Ha.
Qed.

Lemma updateCursor_base_view s x y corners :
  base_view (fst (updateCursor x y corners s)) = base_view s.
Proof.
  destruct (updateCursor_frame s x y corners) as (Hv & Ho & Hc & _).
  unfold base_view. unfold view in Hv. injection Hv as -> -> -> -> ->.
  rewrite Ho, Hc. reflexivity.
Qed.

Lemma after_cursors_base_view calls s :
  base_view (after_cursors calls s) = base_view s.
Proof.
  revert s. induction calls as [|[[x y] corners] calls IH]; intros s; simpl.
  - reflexivity.
  - rewrite IH. apply updateCursor_base_view.
Qed.

End Overlay.

(** ** updateFrame depends on the base view only *)

Lemma agree_at_same {A} s s1 (r : result A) :
  base_view s = base_view s1 -> agree_at s s1 (s, r) (s1, r).
Proof.
  intros Hb. split; [reflexivity|]. split; [exact Hb|].
  exists []. simpl. rewrite !app_nil_r. auto.
Qed.

Lemma agree_bind {A B} (m m1 : M A) (k k1 : A -> M B) :
  agree m m1 -> (forall a, agree (k a) (k1 a)) -> agree (bind m k) (bind m1 k1).
Proof.
  intros Hm Hk s s1 Hb. destruct (Hm s s1 Hb) as (Hres & Hb' & evs & G & G1).
  unfold bind.
  destruct (m s) as [s' [a|e]], (m1 s1) as [s1' [a1|e1]];
    simpl in *; try discriminate.
  - injection Hres as <-.
    destruct (Hk a s' s1' Hb') as (Hres' & Hb'' & evs' & G' & G1').
    split; [exact Hres'|]. split; [exact Hb''|].
    exists (evs ++ evs'). rewrite G', G1', G, G1, !app_assoc. auto.
  - injection Hres as <-.
    split; [reflexivity|]. split; [exact Hb'|]. eauto.
Qed.

Lemma agree_lift {A} (r : result A) : agree (lift r) (lift r).
Proof. intros s s1 Hb. apply agree_at_same, Hb. Qed.

Lemma agree_ret {A} (a : A) : agree (ret a) (ret a).
Proof. intros s s1 Hb. apply agree_at_same, Hb. Qed.

(** A continuation that reads the layout attributes only. *)
Lemma agree_get_self {B} (k k1 : ArucoWindow -> M B) :
  (forall o o1, view o = view o1 -> agree (k o) (k1 o1)) ->
  agree (bind get_self k) (bind get_self k1).
Proof.
  intros Hk s s1 Hb. unfold bind, get_self. apply Hk; [|exact Hb].
  unfold base_view in Hb. unfold view. congruence.
Qed.

Lemma base_view_canvas s s1 :
  base_view s = base_view s1 -> canvas s = canvas s1.
Proof. unfold base_view. congruence. Qed.

Lemma agree_setitem_output_img rs cs v :
  agree (setitem_output_img rs cs v) (setitem_output_img rs cs v).
Proof.
  intros s s1 Hb. pose proof (base_view_canvas s s1 Hb) as Hc.
  destruct (canvas s) as [a|] eqn:Ca.
  - symmetry in Hc.
    destruct (setitem a rs cs v) as [a'|e] eqn:Hset.
    + destruct (setitem_output_img_ok s a rs cs v a' Ca Hset)
        as (s' & -> & Hself & Hgui & Hc').
      destruct (setitem_output_img_ok s1 a rs cs v a' Hc Hset)
        as (s1' & -> & Hself1 & Hgui1 & Hc1').
      split; [reflexivity|]. cbn [fst]. split.
      * unfold base_view in *. rewrite Hself, Hself1, Hc', Hc1'. congruence.
      * exists []. rewrite !app_nil_r. auto.
    + rewrite (setitem_output_img_raise s a rs cs v e Ca Hset).
      rewrite (setitem_output_img_raise s1 a rs cs v e Hc Hset).
      apply agree_at_same, Hb.
  - symmetry in Hc.
    rewrite (setitem_output_img_None s rs cs v Ca).
    rewrite (setitem_output_img_None s1 rs cs v Hc).
    apply agree_at_same, Hb.
Qed.

Lemma agree_modify_self f :
  (forall o o1, view o = view o1 -> view (f o) = view (f o1)) ->
  (forall o, output_img (f o) = output_img o) ->
  agree (modify_self f) (modify_self f).
Proof.
  intros Hv Ho s s1 Hb. unfold modify_self.
  split; [reflexivity|]. cbn [fst]. split.
  - assert (Hview : view (self s) = view (self s1))
      by (unfold base_view in Hb; unfold view; congruence).
    specialize (Hv _ _ Hview). unfold view in Hv.
    unfold base_view, canvas in *. cbn [self heap]. rewrite !Ho.
    injection Hv as -> -> -> -> ->. congruence.
  - exists []. simpl. rewrite !app_nil_r. auto.
Qed.

Section Agree.
Context {cv : Cv2}.

Lemma agree_initFrame : agree initFrame initFrame.
Proof.
  intros s s1 Hb.
  assert (Hview : view (self s) = view (self s1))
    by (unfold base_view in Hb; unfold view; congruence).
  unfold initFrame, bind, get_self, lift.
  replace (canvas_rows (self s1)) with (canvas_rows (self s))
    by (unfold canvas_rows, view in *; congruence).
  replace (canvas_cols (self s1)) with (canvas_cols (self s))
    by (unfold canvas_cols, view in *; congruence).
  destruct (np_ones_255 _ _ 3) as [a|e]; [|apply agree_at_same, Hb].
  unfold alloc, modify_self. cbn [fst snd self heap gui].
  split; [reflexivity|]. cbn [fst]. split.
  - unfold base_view, canvas. cbn [self heap set_output_img output_img
      tag_size tag_border image_rescale img_height img_width].
    rewrite !list_lookup_middle by reflexivity.
    unfold view in Hview. injection Hview as -> -> -> -> ->. reflexivity.
  - exists []. simpl. rewrite !app_nil_r. auto.
Qed.

Lemma agree_addCornerTags : agree addCornerTags addCornerTags.
Proof.
  unfold addCornerTags. apply agree_get_self. intros o o1 Hv.
  unfold ul_slices, ur_slices, br_slices, bl_slices.
  unfold view in Hv. injection Hv as -> -> _ _ ->.
  repeat (apply agree_bind; [apply agree_lift|intros ?]).
  repeat (apply agree_bind; [apply agree_setitem_output_img|intros _]).
  apply agree_setitem_output_img.
Qed.

Lemma agree_show :
  agree (o <- get_self ;;
         match output_img o with
         | Some l => imshow l
         | None => raise cv2_error
         end)
        (o <- get_self ;;
         match output_img o with
         | Some l => imshow l
         | None => raise cv2_error
         end).
Proof.
  intros s s1 Hb. pose proof (base_view_canvas s s1 Hb) as Hc.
  assert (Hs : bool_decide (is_Some (output_img (self s))) =
               bool_decide (is_Some (output_img (self s1))))
    by (unfold base_view in Hb; congruence).
  unfold bind, get_self. unfold canvas in Hc.
  destruct (output_img (self s)) as [l|], (output_img (self s1)) as [l1|];
    try (exfalso; revert Hs; clear;
         rewrite ?bool_decide_eq_true_2, ?bool_decide_eq_false_2
           by (try (eexists; reflexivity); intros [? ?]; discriminate);
         discriminate).
  - unfold imshow, bind, load, emit. rewrite <- Hc.
    destruct (heap s !! l) as [a|]; [|apply agree_at_same, Hb].
    split; [reflexivity|]. split; [exact Hb|]. eauto.
  - apply agree_at_same, Hb.
Qed.

Lemma agree_updateFrame f : agree (updateFrame f) (updateFrame f).
Proof.
  unfold updateFrame. apply agree_get_self. intros o o1 Hv.
  unfold view in Hv. injection Hv as Ets Etb Er Eh Ew.
  replace (scaled_dim o1 f) with (scaled_dim o f)
    by (unfold scaled_dim; rewrite Er; reflexivity).
  apply agree_bind; [apply agree_lift|intros dim].
  apply agree_bind; [apply agree_lift|intros resized].
  replace (size_changed o1 dim) with (size_changed o dim)
    by (unfold size_changed; rewrite Eh, Ew; reflexivity).
  apply agree_bind.
  - destruct (size_changed o dim); [|apply agree_ret].
    apply agree_bind; [|intros _].
    { apply agree_modify_self; [|reflexivity].
      intros a b. unfold view. simpl. congruence. }
    apply agree_bind; [|intros _].
    { apply agree_modify_self; [|reflexivity].
      intros a b. unfold view. simpl. congruence. }
    apply agree_bind; [apply agree_initFrame|intros _].
    apply agree_addCornerTags.
  - intros _. apply agree_get_self. intros o' o1' Hv'.
    unfold view in Hv'. injection Hv' as Ets' Etb' _ _ _.
    replace (frame_slices o1') with (frame_slices o')
      by (unfold frame_slices; rewrite Ets', Etb'; reflexivity).
    apply agree_bind; [apply agree_setitem_output_img|intros _].
    apply agree_show.
Qed.

End Agree.

(** ** C7, C9, C10: the cursor overlay *)

Section Cursor.
Context {cv : Cv2}.

(** C7. Any number of [updateCursor] calls, with any cursor positions and
    point lists, returning or raising, leave the base canvas and every
    attribute but the cursor as they were; a following [updateFrame] with
    a given frame then gives the same result, shows the same image and
    leaves the same canvas as it would have without those calls. *)
Theorem updateCursor_keeps_canvas (calls : list cursor_call) (s : state)
    (f : ndarray) :
  let s1 := after_cursors calls s in
  canvas s1 = canvas s /\
  base_view s1 = base_view s /\
  snd (updateFrame f s1) = snd (updateFrame f s) /\
  emitted s1 (fst (updateFrame f s1)) = emitted s (fst (updateFrame f s)) /\
  canvas (fst (updateFrame f s1)) = canvas (fst (updateFrame f s)) /\
  base_view (fst (updateFrame f s1)) = base_view (fst (updateFrame f s)).
Proof.
  cbv zeta. pose proof (after_cursors_base_view calls s) as Hb.
  destruct (agree_updateFrame f _ _ Hb) as (Hres & Hb' & evs & G & G1).
  split; [apply base_view_canvas, Hb|]. split; [exact Hb|].
  split; [exact Hres|]. split.
  - unfold emitted. rewrite G, G1, !drop_app_length. reflexivity.
  - split; [apply base_view_canvas, Hb' | exact Hb'].
Qed.


Lemma updateCursor_no_canvas s x y corners :
  canvas s = None ->
  exists e, snd (updateCursor x y corners s) = Raise e /\
    (is_ok (Py.int x) && is_ok (Py.int y) = true ->
     output_img (self s) = None -> e = AttributeError).
Proof.
  intros Hc. unfold updateCursor.
  unfold bind at 1. unfold lift at 1.
  destruct (Py.int x) as [ix|ex]; [|exists ex; split; [reflexivity|discriminate]].
  unfold bind at 1. unfold lift at 1.
  destruct (Py.int y) as [iy|ey]; [|exists ey; split; [reflexivity|discriminate]].
  unfold bind at 1. unfold modify_self at 1.
  unfold bind at 1. unfold copy_output_img, bind at 1, get_self at 1.
  cbn [fst snd self set_cursor output_img].
  unfold canvas in Hc.
  destruct (output_img (self s)) as [l|].
  - unfold bind at 1. unfold load at 1. cbn [heap]. rewrite Hc.
    exists TypeError. split; [reflexivity|discriminate].
  - exists AttributeError. split; reflexivity.
Qed.

(** C9 (amended). On an object whose canvas is unallocated,
    [updateCursor] raises; so it does right after construction and after
    any number of further [updateCursor] calls, with [AttributeError]
    when the coordinates convert.  [updateCursor] returns normally only
    if a canvas is allocated, which an earlier [updateFrame] call must
    have done in [initFrame]; that call need not have returned normally. *)
Theorem updateCursor_needs_canvas (s : state) (x y : Py.num)
    (corners : list (Py.num * Py.num)) :
  (snd (updateCursor x y corners s) = Ok tt -> is_Some (canvas s)) /\
  (forall tag_size tag_border image_rescale s0 calls,
     let s1 := after_cursors calls
                 (fst (__init__ tag_size tag_border image_rescale s0)) in
     exists e, snd (updateCursor x y corners s1) = Raise e /\
       (is_ok (Py.int x) && is_ok (Py.int y) = true -> e = AttributeError)).
Proof.
  split.
  - intros Hrun. destruct (canvas s) as [a|] eqn:Hc; [eauto|].
    destruct (updateCursor_no_canvas s x y corners Hc) as (e & He & _).
    rewrite Hrun in He. discriminate.
  - intros ts tb r s0 calls. cbv zeta.
    set (s1 := after_cursors calls (fst (__init__ ts tb r s0))).
    pose proof (after_cursors_base_view calls (fst (__init__ ts tb r s0))) as Hb.
    fold s1 in Hb. unfold base_view in Hb.
    injection Hb as _ _ _ _ _ Hsome Hc.
    simpl in Hsome, Hc.
    destruct (updateCursor_no_canvas s1 x y corners Hc) as (e & He & Hattr).
    exists e. split; [exact He|]. intros Hint. apply Hattr; [exact Hint|].
    destruct (output_img (self s1)) as [l|]; [|reflexivity].
    cbv in Hsome. discriminate.
Qed.

End Cursor.

Lemma updateCursor_needs_canvas_witness :
  let s := fst (@updateFrame Ref.cv (Ex.frame 4 3) (Ex.window 2 1 (Py.Int 1))) in
  is_Some (canvas s).
Proof.
  apply (proj1 (@updateCursor_needs_canvas Ref.cv
                  (fst (@updateFrame Ref.cv (Ex.frame 4 3)
                          (Ex.window 2 1 (Py.Int 1))))
                  (Py.Int 3) Ex.half [(Py.Int 1, Py.Int 2)])).
  vm_compute. reflexivity.
Defined.

(** The claim as stated fails: with 4 px tags and a 1 px border, the first
    [updateFrame], given a 2x2 frame, raises in [addCornerTags] (a marker
    of 4 px cannot be drawn) after [initFrame] has bound a canvas; no
    [updateFrame] has completed, and [updateCursor] returns normally. *)
Lemma updateCursor_counterexample :
  let s0 := Ex.window 4 1 (Py.Int 1) in
  let s := fst (@updateFrame Ref.cv (Ex.frame 2 2) s0) in
  canvas s0 = None /\
  snd (@updateFrame Ref.cv (Ex.frame 2 2) s0) = Raise cv2_error /\
  snd (@updateCursor Ref.cv (Py.Int 0) (Py.Int 0) [] s) = Ok tt.
Proof. cbv zeta. repeat split; vm_compute; reflexivity. Qed.

(** ** C1 on the object as constructed *)

Lemma initFrame_canvas_size_witness :
  let s := Ex.window 100 10 (Py.Int 1) in
  exists a,
    snd (initFrame s) = Ok tt /\
    canvas (fst (initFrame s)) = Some a /\
    cols a = img_width (self s) + 2 * tag_size (self s) + 4 * tag_border (self s) /\
    rows a = img_height (self s) + 2 * tag_border (self s) /\
    chans a = 3 /\ wf a /\
    forall i j k, 0 <= i < rows a -> 0 <= j < cols a -> 0 <= k < 3 ->
      get a i j k = Some 255.
Proof.
  apply (initFrame_canvas_size (Ex.window 100 10 (Py.Int 1))); simpl; lia.
Defined.

(** ** What holds between calls *)

Section Steady.
Context {cv : Cv2} {laws : Cv2Laws cv}.

(** [steady] reads the base view only. *)
Lemma steady_base_view s s' :
  base_view s = base_view s' -> steady s -> steady s'.
Proof.
  intros Hb. unfold base_view in Hb.
  destruct s as [[ts tb r out ih iw cur] hp g].
  destruct s' as [[ts' tb' r' out' ih' iw' cur'] hp' g'].
  cbn [self tag_size tag_border image_rescale img_height img_width] in Hb.
  injection Hb as <- <- <- <- <- _ Hc.
  unfold steady, markers_intact, canvas_fits, fits_canvas, placed, marker,
    ul_slices, ur_slices, br_slices, bl_slices, canvas_rows, canvas_cols.
  cbn [self tag_size tag_border image_rescale img_height img_width].
  rewrite <- Hc. exact (fun H => H).
Qed.

Lemma steady_updateCursor s x y corners :
  steady s -> steady (fst (updateCursor x y corners s)).
Proof.
  apply steady_base_view. symmetry. apply updateCursor_base_view.
Qed.

(** The configuration is the same after every call. *)
Lemma updateFrame_config f (Q : Z * Z * Py.num -> Prop) :
  preserves (fun s => Q (tag_size (self s), tag_border (self s),
                         image_rescale (self s)))
            (updateFrame f).
Proof.
  unfold updateFrame. repeat preserves_step;
    try (intros s Hs; exact Hs);
    try (apply (preserves_self_any
                  (fun o => Q (tag_size o, tag_border o, image_rescale o)));
         intros o;
         first [apply setitem_output_img_self | apply imshow_self
               | apply addCornerTags_self]).
  apply (initFrame_view (fun v => Q (v.1.1.1.1.1, v.1.1.1.1.2, v.1.1.1.2))).
Qed.

Lemma updateCursor_config s x y corners :
  tag_size (self (fst (updateCursor x y corners s))) = tag_size (self s) /\
  tag_border (self (fst (updateCursor x y corners s))) = tag_border (self s) /\
  image_rescale (self (fst (updateCursor x y corners s))) = image_rescale (self s).
Proof.
  destruct (updateCursor_frame s x y corners) as (Hv & _).
  unfold view in Hv. injection Hv as -> -> -> _ _. auto.
Qed.

Lemma do_call_config c s :
  tag_size (self (do_call c s)) = tag_size (self s) /\
  tag_border (self (do_call c s)) = tag_border (self s) /\
  image_rescale (self (do_call c s)) = image_rescale (self s).
Proof.
  destruct c as [f|x y corners]; simpl.
  - apply (updateFrame_config f
             (fun q => q.1.1 = tag_size (self s) /\ q.1.2 = tag_border (self s)
                       /\ q.2 = image_rescale (self s)) s).
    auto.
  - apply updateCursor_config.
Qed.

Lemma markers_available_tag_size o o' :
  tag_size o' = tag_size o -> markers_available o' = markers_available o.
Proof. unfold markers_available, marker. intros ->. reflexivity. Qed.

Lemma canvas_fits_intro s a :
  canvas s = Some a -> fits_canvas (self s) a -> canvas_fits s.
Proof. intros Hc Hfit a' Ha'. rewrite Hc in Ha'. injection Ha' as <-. exact Hfit. Qed.

Local Abbreviation put_frame resized :=
  (o <- get_self ;;
   setitem_output_img (fst (frame_slices o)) (snd (frame_slices o)) resized ;;
   o <- get_self ;;
   match output_img o with
   | Some l => imshow l
   | None => raise cv2_error
   end).

(** [updateFrame] keeps the object steady in every outcome. *)
Lemma steady_updateFrame s f :
  0 < tag_size (self s) -> 0 < tag_border (self s) ->
  markers_available (self s) = true ->
  steady s -> steady (fst (updateFrame f s)).
Proof.
  intros Hts Htb Hav Hst.
  destruct (scaled_dim (self s) f) as [[w h]|e] eqn:Hdim;
    [|rewrite (updateFrame_dim_raise s f e Hdim); exact Hst].
  destruct (cv2_resize f (w, h)) as [r|e] eqn:Hres;
    [|rewrite (updateFrame_resize_raise s f _ e Hdim Hres); exact Hst].
  destruct (resize_nonneg _ _ _ _ Hres) as (Hwf & Hw & Hh).
  destruct (size_changed (self s) (w, h)) eqn:Hsz.
  - destruct (realloc_prefix s w h) as (a & Hpre & Hfit & Hcv); [lia..|].
    cbv zeta in Hpre, Hfit, Hcv.
    set (o' := set_output_img (Some (length (heap s)))
                 (set_img_width w (set_img_height h (self s)))) in *.
    set (s3 := mkState o' (heap s ++ [a]) (gui s)) in *.
    assert (Hrun : updateFrame f s = bind addCornerTags (fun _ => put_frame r) s3).
    { rewrite (updateFrame_split s f (w, h) r Hdim Hres). rewrite Hsz.
      unfold bind at 1. cbn [fst snd] in Hpre |- *. rewrite Hpre. reflexivity. }
    rewrite Hrun. clear Hrun.
    destruct (markers_available_Ok (self s) Hav)
      as (ul & ur & br & bl & M0 & M1 & M2 & M3).
    destruct (Z.leb_spec (tag_size (self s)) (h + tag_border (self s)))
      as [Hhigh|Hlow].
    + destruct (addCornerTags_ok s3 a ul ur br bl
                  Hts Htb Hw Hh Hhigh Hcv Hfit M0 M1 M2 M3)
        as (s4 & a4 & Run4 & Self4 & Gui4 & Cv4 & Fit4 & Sh4).
      rewrite (bind_ok _ _ _ _ _ Run4).
      assert (St4 : steady s4).
      { unfold steady. rewrite Self4.
        split; [exact Hw|]. split; [exact Hh|].
        split; [apply (canvas_fits_intro s4 a4 Cv4); rewrite Self4; exact Fit4|].
        intros _ H2. destruct (Sh4 H2) as (S0 & S1 & S2 & S3).
        exists a4, ul, ur, br, bl. rewrite Self4.
        split; [exact Cv4|].
        split; [apply (canvas_fits_intro s4 a4 Cv4); rewrite Self4; exact Fit4|].
        auto 10. }
      pose proof (put_frame_any s4 a4 r) as Hput. cbv zeta in Hput.
      rewrite Self4 in Hput. specialize (Hput Cv4 Fit4).
      destruct Hput as [[e Hput] | Hput]; [rewrite Hput; exact St4|].
      destruct Hput as (s5 & a5 & Run5 & Self5 & Gui5 & Cv5 & Fit5 & Keep5).
      rewrite Run5. cbn [fst]. unfold steady. rewrite Self5.
      split; [exact Hw|]. split; [exact Hh|].
      split; [apply (canvas_fits_intro s5 a5 Cv5); rewrite Self5; exact Fit5|].
      intros _ H2. destruct (Sh4 H2) as (S0 & S1 & S2 & S3).
      assert (Hd : forall sl, sl ∈ corner_slices o' ->
                disjoint (placed o' sl) (placed o' (frame_slices o'))).
      { intros sl Hsl. apply frame_corner_disjoint; try assumption.
        change (tag_border o') with (tag_border (self s)). lia. }
      exists a5, ul, ur, br, bl. rewrite Self5.
      split; [exact Cv5|].
      split; [apply (canvas_fits_intro s5 a5 Cv5); rewrite Self5; exact Fit5|].
      split; [exact M0|]. split; [exact M1|].
      split; [exact M2|]. split; [exact M3|].
      split; [apply Keep5; [apply Hd; repeat constructor | exact S0]|].
      split; [apply Keep5; [apply Hd; repeat constructor | exact S1]|].
      split; [apply Keep5; [apply Hd; repeat constructor | exact S2]|].
      apply Keep5; [apply Hd; repeat constructor | exact S3].
    + rewrite (bind_raise _ _ _ _ _ (addCornerTags_low s3 a ul ur br bl
                 Hts Htb Hw Hh Hlow Hcv Hfit M0 M1 M2 M3)).
      cbn [fst]. unfold steady.
      split; [exact Hw|]. split; [exact Hh|].
      split; [apply (canvas_fits_intro s3 a Hcv); exact Hfit|].
      intros _ H2. exfalso.
      change (tag_size (self s3)) with (tag_size (self s)) in H2.
      change (img_height (self s3)) with h in H2. lia.
  - pose proof Hst as (Hw0 & Hh0 & Hfits & Hmk).
    rewrite (updateFrame_split s f (w, h) r Hdim Hres), Hsz.
    change ((ret tt ;; put_frame r) s) with (put_frame r s).
    destruct (canvas s) as [a|] eqn:Hc;
      [|rewrite (put_frame_None s r Hc); exact Hst].
    destruct (put_frame_any s a r Hc (Hfits a Hc)) as [[e Hout] | Hout];
      [rewrite Hout; exact Hst|].
    destruct Hout as (s' & a' & -> & Hself & Hgui & Hc' & Hfit' & Keep).
    cbn [fst]. unfold steady. rewrite Hself.
    split; [exact Hw0|]. split; [exact Hh0|].
    split; [apply (canvas_fits_intro s' a' Hc'); rewrite Hself; exact Hfit'|].
    intros _ H2.
    destruct (Hmk ltac:(eauto) H2)
      as (a0 & ul & ur & br & bl & Hc0 & _ & M0 & M1 & M2 & M3 & S0 & S1 & S2 & S3).
    rewrite Hc in Hc0. injection Hc0 as <-.
    assert (Hd : forall sl, sl ∈ corner_slices (self s) ->
              disjoint (placed (self s) sl)
                       (placed (self s) (frame_slices (self s))))
      by (intros sl Hsl; apply frame_corner_disjoint; try assumption; lia).
    exists a', ul, ur, br, bl. rewrite Hself.
    split; [exact Hc'|].
    split; [apply (canvas_fits_intro s' a' Hc'); rewrite Hself; exact Hfit'|].
    split; [exact M0|]. split; [exact M1|].
    split; [exact M2|]. split; [exact M3|].
    split; [apply Keep; [apply Hd; repeat constructor | exact S0]|].
    split; [apply Keep; [apply Hd; repeat constructor | exact S1]|].
    split; [apply Keep; [apply Hd; repeat constructor | exact S2]|].
    apply Keep; [apply Hd; repeat constructor | exact S3].
Qed.

End Steady.

(** ** The object in use *)

Section InUse.
Context {cv : Cv2} {laws : Cv2Laws cv}.

Lemma run_calls_config calls s :
  tag_size (self (run_calls calls s)) = tag_size (self s) /\
  tag_border (self (run_calls calls s)) = tag_border (self s) /\
  image_rescale (self (run_calls calls s)) = image_rescale (self s).
Proof.
  revert s. induction calls as [|c calls IH]; intros s; simpl; [auto|].
  destruct (IH (do_call c s)) as (-> & -> & ->). apply do_call_config.
Qed.

Lemma run_calls_steady calls s :
  0 < tag_size (self s) -> 0 < tag_border (self s) ->
  markers_available (self s) = true -> steady s ->
  steady (run_calls calls s).
Proof.
  revert s. induction calls as [|c calls IH]; intros s Hts Htb Hav Hst; simpl.
  - exact Hst.
  - destruct (do_call_config c s) as (Ets & Etb & Er). apply IH.
    + lia.
    + lia.
    + rewrite (markers_available_tag_size _ _ Ets). exact Hav.
    + destruct c as [f|x y corners]; simpl.
      * apply steady_updateFrame; assumption.
      * apply steady_updateCursor; assumption.
Qed.

Lemma steady_init tag_size tag_border image_rescale s0 :
  steady (fst (__init__ tag_size tag_border image_rescale s0)).
Proof.
  unfold steady. simpl. split; [lia|]. split; [lia|]. split.
  - intros a Ha. discriminate.
  - intros [a Ha]. discriminate.
Qed.

(** A constructed object stays steady and keeps its configuration
    through any series of calls. *)
Lemma in_use_steady tag_size0 tag_border0 image_rescale0 s0 calls :
  let s := run_calls calls (fst (__init__ tag_size0 tag_border0 image_rescale0 s0)) in
  0 < tag_size0 -> 0 < tag_border0 ->
  markers_available (self s) = true ->
  steady s /\ tag_size (self s) = tag_size0 /\ tag_border (self s) = tag_border0.
Proof.
  intros s Hts Htb Hav.
  set (s1 := fst (__init__ tag_size0 tag_border0 image_rescale0 s0)) in *.
  destruct (run_calls_config calls s1) as (Ets & Etb & _). fold s in Ets, Etb.
  split; [|auto].
  apply run_calls_steady; try assumption.
  - rewrite <- (markers_available_tag_size _ _ Ets). exact Hav.
  - apply steady_init.
Qed.

End InUse.

(** * Further properties *)

(** ** Reading a run that returned *)

Lemma bind_inv {A B} (m : M A) (k : A -> M B) s s' b :
  bind m k s = (s', Ok b) ->
  exists s1 a, m s = (s1, Ok a) /\ k a s1 = (s', Ok b).
Proof.
  unfold bind. destruct (m s) as [s1 [a|e]]; [eauto|discriminate].
Qed.

Lemma setitem_output_img_inv rs cs v s s' :
  setitem_output_img rs cs v s = (s', Ok tt) ->
  exists a a', setitem a rs cs v = Ok a' /\ canvas_written s s' a a'.
Proof.
  unfold setitem_output_img, bind, get_self, load, lift, store, raise.
  destruct (output_img (self s)) as [l|] eqn:Hl; [|discriminate].
  destruct (heap s !! l) as [a|] eqn:Ha; [|discriminate].
  destruct (setitem a rs cs v) as [a'|] eqn:Hset; [|discriminate].
  intros [= <-]. exists a, a'. split; [exact Hset|]. exists l. auto.
Qed.

Lemma canvas_written_canvas s s' a a' :
  canvas_written s s' a a' ->
  canvas s = Some a /\ canvas s' = Some a' /\
  self s' = self s /\ gui s' = gui s.
Proof.
  intros (l & Hl & Ha & ->). unfold canvas. simpl. rewrite Hl.
  split; [exact Ha|]. split; [|auto].
  apply list_lookup_insert_eq. eapply lookup_lt_Some, Ha.
Qed.

Lemma canvas_written_trans s s1 s2 a a1 b a2 :
  canvas_written s s1 a a1 -> canvas_written s1 s2 b a2 ->
  b = a1 /\ canvas_written s s2 a a2.
Proof.
  intros H1 H2.
  destruct (canvas_written_canvas _ _ _ _ H1) as (_ & Hc1 & _ & _).
  destruct (canvas_written_canvas _ _ _ _ H2) as (Hc1' & _ & _ & _).
  rewrite Hc1 in Hc1'. injection Hc1' as <-. split; [reflexivity|].
  destruct H1 as (l & Hl & Ha & ->). destruct H2 as (l' & Hl' & _ & ->).
  simpl in Hl'. rewrite Hl in Hl'. injection Hl' as <-.
  exists l. simpl. rewrite list_insert_insert_eq. auto.
Qed.

Section Reading.
Context {cv : Cv2}.

(** A returning [addCornerTags] generated the four markers and made the
    four assignments, in order, on the allocated canvas. *)
Lemma addCornerTags_inv s s' :
  addCornerTags s = (s', Ok tt) ->
  let o := self s in
  exists ul ur br bl a0 a1 a2 a3 a4,
    marker o 0 = Ok ul /\ marker o 1 = Ok ur /\
    marker o 2 = Ok br /\ marker o 3 = Ok bl /\
    setitem a0 (fst (ul_slices o)) (snd (ul_slices o)) ul = Ok a1 /\
    setitem a1 (fst (ur_slices o)) (snd (ur_slices o)) ur = Ok a2 /\
    setitem a2 (fst (br_slices o)) (snd (br_slices o)) br = Ok a3 /\
    setitem a3 (fst (bl_slices o)) (snd (bl_slices o)) bl = Ok a4 /\
    canvas_written s s' a0 a4.
Proof.
  intros Hrun o.
  destruct (marker o 0) as [ul|] eqn:M0;
    [|destruct (addCornerTags_no_marker s 0) as [e' He];
      [repeat constructor | fold o; rewrite M0; reflexivity | congruence]].
  destruct (marker o 1) as [ur|] eqn:M1;
    [|destruct (addCornerTags_no_marker s 1) as [e' He];
      [repeat constructor | fold o; rewrite M1; reflexivity | congruence]].
  destruct (marker o 2) as [br|] eqn:M2;
    [|destruct (addCornerTags_no_marker s 2) as [e' He];
      [repeat constructor | fold o; rewrite M2; reflexivity | congruence]].
  destruct (marker o 3) as [bl|] eqn:M3;
    [|destruct (addCornerTags_no_marker s 3) as [e' He];
      [repeat constructor | fold o; rewrite M3; reflexivity | congruence]].
  rewrite (addCornerTags_assigns s ul ur br bl M0 M1 M2 M3) in Hrun. fold o in Hrun.
  apply bind_inv in Hrun as (s1 & [] & R1 & Hrun).
  apply bind_inv in Hrun as (s2 & [] & R2 & Hrun).
  apply bind_inv in Hrun as (s3 & [] & R3 & R4).
  apply setitem_output_img_inv in R1 as (a0 & a1 & S1 & W1).
  apply setitem_output_img_inv in R2 as (b1 & a2 & S2 & W2).
  apply setitem_output_img_inv in R3 as (b2 & a3 & S3 & W3).
  apply setitem_output_img_inv in R4 as (b3 & a4 & S4 & W4).
  destruct (canvas_written_trans _ _ _ _ _ _ _ W1 W2) as [-> W12].
  destruct (canvas_written_trans _ _ _ _ _ _ _ W12 W3) as [-> W13].
  destruct (canvas_written_trans _ _ _ _ _ _ _ W13 W4) as [-> W14].
  exists ul, ur, br, bl, a0, a1, a2, a3, a4. auto 12.
Qed.

Local Abbreviation put_frame resized :=
  (o <- get_self ;;
   setitem_output_img (fst (frame_slices o)) (snd (frame_slices o)) resized ;;
   o <- get_self ;;
   match output_img o with
   | Some l => imshow l
   | None => raise cv2_error
   end).

(** The last part of [updateFrame] either raises and leaves the display
    alone, or assigns the frame and shows the canvas. *)
Lemma put_frame_cases r s :
  (exists e, snd (put_frame r s) = Raise e /\ fst (put_frame r s) = s) \/
  (exists a a' sw,
     setitem a (fst (frame_slices (self s))) (snd (frame_slices (self s))) r = Ok a' /\
     canvas_written s sw a a' /\
     put_frame r s =
       (mkState (self sw) (heap sw) (gui sw ++ [Imshow window_name a']), Ok tt)).
Proof.
  change (put_frame r s)
    with (bind (setitem_output_img (fst (frame_slices (self s)))
                  (snd (frame_slices (self s))) r)
               (fun _ => o <- get_self ;;
                         match output_img o with
                         | Some l => imshow l
                         | None => raise cv2_error
                         end) s).
  destruct (setitem_output_img (fst (frame_slices (self s)))
              (snd (frame_slices (self s))) r s) as [sw [[]|e]] eqn:Hset.
  - right. pose proof Hset as Hinv.
    apply setitem_output_img_inv in Hinv as (a & a' & Hs & Hw).
    exists a, a', sw. split; [exact Hs|]. split; [exact Hw|].
    rewrite (bind_ok _ _ _ _ _ Hset).
    destruct (canvas_written_canvas _ _ _ _ Hw) as (_ & Hc' & _ & _).
    apply canvas_Some in Hc' as (l & Hl & Ha').
    unfold bind at 1. unfold get_self at 1. rewrite Hl.
    unfold imshow, bind, load, emit. rewrite Ha'. reflexivity.
  - left. exists e. rewrite (bind_raise _ _ _ _ _ Hset). split; [reflexivity|].
    simpl. revert Hset.
    unfold setitem_output_img, bind, get_self, load, lift, store, raise.
    destruct (output_img (self s)) as [l|]; [|intros [= <- _]; reflexivity].
    destruct (heap s !! l) as [a|]; [|intros [= <- _]; reflexivity].
    destruct (setitem a _ _ r); [discriminate|intros [= <- _]; reflexivity].
Qed.

End Reading.

(** ** What a re-allocating call leaves on the canvas *)

Lemma np_ones_255_inv h w c a :
  np_ones_255 h w c = Ok a ->
  wf a /\ rows a = h /\ cols a = w /\ chans a = c /\
  forall i j k, 0 <= i < h -> 0 <= j < w -> 0 <= k < c ->
    get a i j k = Some 255.
Proof.
  intros Ha.
  assert (Hd : 0 <= h /\ 0 <= w /\ 0 <= c).
  { unfold np_ones_255 in Ha.
    destruct (np_full h w c 1) as [b|] eqn:Hb; [|discriminate].
    apply np_full_shape in Hb as ((? & ? & ? & _) & ? & ? & ?). lia. }
  destruct (np_ones_255_ok h w c) as (a' & Ha' & H); [lia..|].
  rewrite Ha in Ha'. injection Ha' as <-. exact H.
Qed.

Lemma get_setitem_Some a rs cs v a' i j k x :
  setitem a rs cs v = Ok a' -> get a i j k = Some x ->
  let q := resolve (rows a) (cols a) rs cs in
  get a' i j k = Some (if in_rect q i j then assigned q v i j k else x).
Proof.
  intros Hset Hx. cbv zeta. rewrite (get_setitem _ _ _ _ _ _ _ _ Hset).
  cbv zeta. rewrite Hx. destruct (in_rect _ i j); reflexivity.
Qed.

Section Painting.
Context {cv : Cv2}.

Local Abbreviation realloc dim :=
  (modify_self (set_img_height (snd dim)) ;;
   modify_self (set_img_width (fst dim)) ;;
   initFrame ;;
   addCornerTags).

Local Abbreviation put_frame resized :=
  (o <- get_self ;;
   setitem_output_img (fst (frame_slices o)) (snd (frame_slices o)) resized ;;
   o <- get_self ;;
   match output_img o with
   | Some l => imshow l
   | None => raise cv2_error
   end).

(** Everything a re-allocating call that returned went through. *)
Lemma updateFrame_changed_inv s f dim s' :
  scaled_dim (self s) f = Ok dim -> size_changed (self s) dim = true ->
  updateFrame f s = (s', Ok tt) ->
  let o' := set_output_img (Some (length (heap s)))
              (set_img_width (fst dim) (set_img_height (snd dim) (self s))) in
  exists r ul ur br bl a0 a1 a2 a3 a4 a5,
    cv2_resize f dim = Ok r /\
    np_ones_255 (canvas_rows o') (canvas_cols o') 3 = Ok a0 /\
    marker o' 0 = Ok ul /\ marker o' 1 = Ok ur /\
    marker o' 2 = Ok br /\ marker o' 3 = Ok bl /\
    setitem a0 (fst (ul_slices o')) (snd (ul_slices o')) ul = Ok a1 /\
    setitem a1 (fst (ur_slices o')) (snd (ur_slices o')) ur = Ok a2 /\
    setitem a2 (fst (br_slices o')) (snd (br_slices o')) br = Ok a3 /\
    setitem a3 (fst (bl_slices o')) (snd (bl_slices o')) bl = Ok a4 /\
    setitem a4 (fst (frame_slices o')) (snd (frame_slices o')) r = Ok a5 /\
    self s' = o' /\ canvas s' = Some a5 /\
    gui s' = gui s ++ [Imshow window_name a5].
Proof.
  intros Hdim Hsz Hrun o'.
  destruct (cv2_resize f dim) as [r|e] eqn:Hres;
    [|rewrite (updateFrame_resize_raise s f dim e Hdim Hres) in Hrun; discriminate].
  rewrite (updateFrame_split s f dim r Hdim Hres), Hsz in Hrun.
  apply bind_inv in Hrun as (sA & [] & Hre & Hput).
  apply bind_inv in Hre as (s1 & [] & E1 & Hre).
  apply bind_inv in Hre as (s2 & [] & E2 & Hre).
  apply bind_inv in Hre as (s3 & [] & E3 & Htags).
  unfold modify_self in E1. injection E1 as <-.
  unfold modify_self in E2. cbn [self heap gui] in E2. injection E2 as <-.
  unfold initFrame, bind, get_self, lift, alloc, modify_self in E3.
  cbn [self heap gui] in E3.
  destruct (np_ones_255 _ _ 3) as [a0|] eqn:Hones; [|discriminate].
  cbn [fst snd self heap gui] in E3. injection E3 as <-.
  apply addCornerTags_inv in Htags.
  cbv zeta in Htags. cbn [self] in Htags. fold o' in Htags.
  destruct Htags as (ul & ur & br & bl & b0 & a1 & a2 & a3 & a4
                     & M0 & M1 & M2 & M3 & S1 & S2 & S3 & S4 & W).
  destruct (canvas_written_canvas _ _ _ _ W) as (Hc0 & Hc4 & Hself4 & Hgui4).
  unfold canvas in Hc0. cbn [self heap output_img set_output_img] in Hc0.
  rewrite list_lookup_middle in Hc0 by reflexivity. injection Hc0 as <-.
  destruct (put_frame_cases r sA) as [(e & He & _) | (b4 & a5 & sw & S5 & W5 & Hfin)].
  { rewrite Hput in He. discriminate. }
  rewrite Hput in Hfin. injection Hfin as ->.
  destruct (canvas_written_canvas _ _ _ _ W5) as (Hc4' & Hc5 & Hself5 & Hgui5).
  rewrite Hc4 in Hc4'. injection Hc4' as <-.
  rewrite Hself4 in S5. cbn [self] in S5. fold o' in S5.
  exists r, ul, ur, br, bl, a0, a1, a2, a3, a4, a5.
  split; [first [exact Hres | reflexivity]|].
  split; [first [exact Hones | reflexivity]|].
  split; [exact M0|]. split; [exact M1|]. split; [exact M2|]. split; [exact M3|].
  split; [exact S1|]. split; [exact S2|]. split; [exact S3|]. split; [exact S4|].
  split; [exact S5|]. cbn [self gui].
  split; [rewrite Hself5, Hself4; reflexivity|].
  split; [exact Hc5|]. rewrite Hgui5, Hgui4. reflexivity.
Qed.

(** X1. When a call to [updateFrame] that re-allocates returns normally,
    every element of the canvas is known: the element of the resized
    frame, cast to uint8, where the interior rectangle is, else that of
    the marker of the last corner rectangle assigned that covers the
    position (bottom left, bottom right, upper right, upper left), else
    white.  This holds for every configuration and frame for which the
    call returns. *)
Theorem updateFrame_paints (s : state) (f : ndarray) (dim : Z * Z) (s' : state) :
  scaled_dim (self s) f = Ok dim -> size_changed (self s) dim = true ->
  updateFrame f s = (s', Ok tt) ->
  exists r ul ur br bl a,
    cv2_resize f dim = Ok r /\
    marker (self s') 0 = Ok ul /\ marker (self s') 1 = Ok ur /\
    marker (self s') 2 = Ok br /\ marker (self s') 3 = Ok bl /\
    canvas s' = Some a /\ fits_canvas (self s') a /\
    forall i j k, 0 <= i < rows a -> 0 <= j < cols a -> 0 <= k < 3 ->
      get a i j k = Some (painted (self s') ul ur br bl r i j k).
Proof.
  intros Hdim Hsz Hrun.
  destruct (updateFrame_changed_inv s f dim s' Hdim Hsz Hrun)
    as (r & ul & ur & br & bl & a0 & a1 & a2 & a3 & a4 & a5 & Hres & Hones
        & M0 & M1 & M2 & M3 & S1 & S2 & S3 & S4 & S5 & Hself & Hc & _).
  rewrite Hself.
  set (o' := set_output_img (Some (length (heap s)))
               (set_img_width (fst dim) (set_img_height (snd dim) (self s)))) in *.
  apply np_ones_255_inv in Hones as (Hwf0 & Hr0 & Hc0 & Hch0 & Hwhite).
  assert (F0 : fits_canvas o' a0) by (unfold fits_canvas; auto).
  pose proof (fits_canvas_setitem o' _ _ _ _ _ S1 F0) as F1.
  pose proof (fits_canvas_setitem o' _ _ _ _ _ S2 F1) as F2.
  pose proof (fits_canvas_setitem o' _ _ _ _ _ S3 F2) as F3.
  pose proof (fits_canvas_setitem o' _ _ _ _ _ S4 F3) as F4.
  pose proof (fits_canvas_setitem o' _ _ _ _ _ S5 F4) as F5.
  exists r, ul, ur, br, bl, a5.
  repeat (split; [assumption|]).
  intros i j k Hi Hj Hk.
  destruct F5 as (_ & Hr5 & Hc5 & _). rewrite Hr5 in Hi. rewrite Hc5 in Hj.
  pose proof (Hwhite i j k Hi Hj Hk) as G0.
  pose proof (get_setitem_Some _ _ _ _ _ i j k _ S1 G0) as G1.
  pose proof (get_setitem_Some _ _ _ _ _ i j k _ S2 G1) as G2.
  pose proof (get_setitem_Some _ _ _ _ _ i j k _ S3 G2) as G3.
  pose proof (get_setitem_Some _ _ _ _ _ i j k _ S4 G3) as G4.
  pose proof (get_setitem_Some _ _ _ _ _ i j k _ S5 G4) as G5.
  cbv zeta in G5.
  rewrite (placed_resolve o' a0 _ F0), (placed_resolve o' a1 _ F1),
    (placed_resolve o' a2 _ F2), (placed_resolve o' a3 _ F3),
    (placed_resolve o' a4 _ F4) in G5.
  exact G5.
Qed.

End Painting.

Lemma updateFrame_paints_witness :
  let s := Ex.window 6 1 (Py.Int 1) in
  let f := Ex.frame 6 2 in
  let s' := fst (@updateFrame Ref.cv f s) in
  exists r ul ur br bl a,
    @cv2_resize Ref.cv f (2, 6) = Ok r /\
    @marker Ref.cv (self s') 0 = Ok ul /\ @marker Ref.cv (self s') 1 = Ok ur /\
    @marker Ref.cv (self s') 2 = Ok br /\ @marker Ref.cv (self s') 3 = Ok bl /\
    canvas s' = Some a /\ fits_canvas (self s') a /\
    forall i j k, 0 <= i < rows a -> 0 <= j < cols a -> 0 <= k < 3 ->
      get a i j k = Some (painted (self s') ul ur br bl r i j k).
Proof.
  apply (@updateFrame_paints Ref.cv (Ex.window 6 1 (Py.Int 1)) (Ex.frame 6 2)
           (2, 6)).
  - vm_compute. reflexivity.
  - reflexivity.
  - vm_compute. reflexivity.
Defined.

(** ** No border *)

Section NoBorder.
Context {cv : Cv2} {laws : Cv2Laws cv}.


End NoBorder.


(** ** The canvas between calls: shape and white background *)

Lemma setitem_output_img_raise_state rs cs v s s' e :
  setitem_output_img rs cs v s = (s', Raise e) -> s' = s.
Proof.
  unfold setitem_output_img, bind, get_self, load, lift, store, raise.
  destruct (output_img (self s)) as [l|]; [|intros [= <- _]; reflexivity].
  destruct (heap s !! l) as [a|]; [|intros [= <- _]; reflexivity].
  destruct (setitem a rs cs v); [discriminate|intros [= <- _]; reflexivity].
Qed.

Lemma white_outside_setitem o sl v a a' :
  sl ∈ assigned_slices o -> fits_canvas o a ->
  setitem a (fst sl) (snd sl) v = Ok a' ->
  white_outside o a -> white_outside o a'.
Proof.
  intros Hsl Hfit Hset Hwhite i j k Hi Hj Hk Hout.
  destruct (setitem_shape _ _ _ _ _ Hset) as (Hr & Hc & Hch).
  rewrite Hr in Hi. rewrite Hc in Hj. rewrite Hch in Hk.
  rewrite (get_setitem_outside _ _ _ _ _ i j k Hset);
    [apply Hwhite; assumption|].
  rewrite (placed_resolve o a sl Hfit).
  rewrite forallb_forall in Hout.
  apply negb_true_iff, Hout, list_elem_of_In, Hsl.
Qed.

(** An assignment to one of the five index expressions keeps the canvas
    in shape and white elsewhere, whether it returns or raises. *)
Lemma setitem_output_img_kept o sl v :
  sl ∈ assigned_slices o ->
  preserves (fun st => self st = o /\ canvas_kept st)
            (setitem_output_img (fst sl) (snd sl) v).
Proof.
  intros Hsl st [Hself Hk].
  destruct (setitem_output_img (fst sl) (snd sl) v st) as [st' [[]|e]] eqn:Hrun;
    cbn [fst].
  - apply setitem_output_img_inv in Hrun as (a & a' & Hset & Hw).
    destruct (canvas_written_canvas _ _ _ _ Hw) as (Hc & Hc' & Hself' & _).
    split; [congruence|]. intros b Hb. rewrite Hc' in Hb. injection Hb as <-.
    rewrite Hself', Hself. destruct (Hk a Hc) as [Hfit Hwhite].
    rewrite Hself in Hfit, Hwhite.
    split; [eapply fits_canvas_setitem; eassumption|].
    eapply white_outside_setitem; eassumption.
  - apply setitem_output_img_raise_state in Hrun as ->. auto.
Qed.

Lemma preserves_with_self {B} (P : state -> Prop) (k : ArucoWindow -> M B) :
  (forall o, preserves (fun st => self st = o /\ P st) (k o)) ->
  preserves P (bind get_self k).
Proof.
  intros H s Hs. unfold bind, get_self.
  apply (H (self s) s). auto.
Qed.

Lemma imshow_kept o l :
  preserves (fun st => self st = o /\ canvas_kept st) (imshow l).
Proof.
  unfold imshow. repeat preserves_step. intros st Hst. exact Hst.
Qed.

Section Kept.
Context {cv : Cv2} {laws : Cv2Laws cv}.

Local Abbreviation put_frame resized :=
  (o <- get_self ;;
   setitem_output_img (fst (frame_slices o)) (snd (frame_slices o)) resized ;;
   o <- get_self ;;
   match output_img o with
   | Some l => imshow l
   | None => raise cv2_error
   end).

Lemma addCornerTags_kept : preserves canvas_kept addCornerTags.
Proof.
  unfold addCornerTags. apply preserves_with_self. intros o.
  repeat preserves_step; apply setitem_output_img_kept;
    unfold assigned_slices, corner_slices; simpl; repeat constructor.
Qed.

Lemma put_frame_kept r : preserves canvas_kept (put_frame r).
Proof.
  apply preserves_with_self. intros o.
  apply preserves_bind; [|intros _].
  - apply setitem_output_img_kept.
    unfold assigned_slices, corner_slices. simpl. repeat constructor.
  - repeat preserves_step; apply imshow_kept.
Qed.

(** The state in which [addCornerTags] starts on the re-allocation
    branch, with the new canvas white everywhere. *)
Lemma realloc_prefix_white s w h :
  0 <= h + 2 * tag_border (self s) ->
  0 <= w + 2 * tag_size (self s) + 4 * tag_border (self s) ->
  exists a,
    let o' := set_output_img (Some (length (heap s)))
                (set_img_width w (set_img_height h (self s))) in
    (modify_self (set_img_height h) ;;
     modify_self (set_img_width w) ;;
     initFrame ;;
     addCornerTags) s =
      addCornerTags (mkState o' (heap s ++ [a]) (gui s)) /\
    fits_canvas o' a /\
    canvas (mkState o' (heap s ++ [a]) (gui s)) = Some a /\
    forall i j k, 0 <= i < rows a -> 0 <= j < cols a -> 0 <= k < 3 ->
      get a i j k = Some 255.
Proof.
  intros Hr Hc.
  destruct (np_ones_255_ok (h + 2 * tag_border (self s))
              (w + 2 * tag_size (self s) + 4 * tag_border (self s)) 3)
    as (a & Ha & Hwf & Hra & Hca & Hcha & Hwhite); [lia..|].
  exists a. cbv zeta. split; [|split; [|split]].
  - unfold initFrame, bind, modify_self, get_self, lift, alloc,
      canvas_rows, canvas_cols. simpl.
    rewrite Ha. reflexivity.
  - split; [exact Hwf|]. unfold canvas_rows, canvas_cols. simpl. lia.
  - unfold canvas. simpl. apply list_lookup_middle. reflexivity.
  - intros i j k Hi Hj Hk. apply Hwhite; lia.
Qed.

(** [updateFrame] keeps the canvas in shape and white outside the
    assigned rectangles, in every outcome. *)
Lemma updateFrame_kept s f :
  0 < tag_size (self s) -> 0 <= tag_border (self s) ->
  canvas_kept s -> canvas_kept (fst (updateFrame f s)).
Proof.
  intros Hts Htb Hk.
  destruct (scaled_dim (self s) f) as [[w h]|e] eqn:Hdim;
    [|rewrite (updateFrame_dim_raise s f e Hdim); exact Hk].
  destruct (cv2_resize f (w, h)) as [r|e] eqn:Hres;
    [|rewrite (updateFrame_resize_raise s f _ e Hdim Hres); exact Hk].
  destruct (resize_nonneg _ _ _ _ Hres) as (Hwf & Hw & Hh).
  rewrite (updateFrame_split s f (w, h) r Hdim Hres).
  destruct (size_changed (self s) (w, h)).
  - destruct (realloc_prefix_white s w h) as (a & Hpre & Hfit & Hcv & Hwhite);
      [lia..|].
    cbv zeta in Hpre, Hfit, Hcv.
    unfold bind at 1. cbn [fst snd] in Hpre |- *. rewrite Hpre.
    match goal with
    | |- canvas_kept (fst (let (s', r0) := addCornerTags ?s3 in _)) =>
        change (canvas_kept (fst (bind addCornerTags (fun _ => put_frame r) s3)));
        apply (preserves_bind canvas_kept);
          [apply addCornerTags_kept | intros _; apply put_frame_kept |]
    end.
    intros b Hb. rewrite Hcv in Hb. injection Hb as <-.
    split; [exact Hfit|]. intros i j k Hi Hj Hk' _. apply Hwhite; try assumption.
    destruct Hfit as (_ & _ & _ & Hch). lia.
  - apply (preserves_bind canvas_kept);
      [apply preserves_ret | intros _; apply put_frame_kept | exact Hk].
Qed.

(** [canvas_kept] reads the base view only. *)
Lemma canvas_kept_base_view s s' :
  base_view s = base_view s' -> canvas_kept s -> canvas_kept s'.
Proof.
  intros Hb. unfold base_view in Hb.
  destruct s as [[ts tb r out ih iw cur] hp g].
  destruct s' as [[ts' tb' r' out' ih' iw' cur'] hp' g'].
  cbn [self tag_size tag_border image_rescale img_height img_width] in Hb.
  injection Hb as <- <- <- <- <- _ Hc.
  unfold canvas_kept, fits_canvas, white_outside, assigned_slices, corner_slices,
    placed, ul_slices, ur_slices, br_slices, bl_slices, frame_slices,
    canvas_rows, canvas_cols.
  cbn [self tag_size tag_border image_rescale img_height img_width].
  rewrite <- Hc. exact (fun H => H).
Qed.

Lemma run_calls_kept calls s :
  0 < tag_size (self s) -> 0 <= tag_border (self s) ->
  canvas_kept s -> canvas_kept (run_calls calls s).
Proof.
  revert s. induction calls as [|c calls IH]; intros s Hts Htb Hk; simpl.
  - exact Hk.
  - destruct (do_call_config c s) as (Ets & Etb & _). apply IH; [lia | lia |].
    destruct c as [f|x y corners]; simpl.
    + apply updateFrame_kept; assumption.
    + apply (canvas_kept_base_view s); [|exact Hk].
      symmetry. apply updateCursor_base_view.
Qed.

(** X3. For a window constructed with [tag_size > 0] and
    [tag_border >= 0], after any series of [updateFrame] and
    [updateCursor] calls, returning or raising: an allocated canvas has
    [img_height + 2*tag_border] rows, [img_width + 2*tag_size +
    4*tag_border] columns and 3 channels for the tracked size, and is
    white (255) at every position outside the five assigned rectangles. *)
Theorem canvas_kept_in_use (tag_size0 tag_border0 : Z) (image_rescale0 : Py.num)
    (s0 : state) (calls : list call) :
  0 < tag_size0 -> 0 <= tag_border0 ->
  canvas_kept (run_calls calls
                 (fst (__init__ tag_size0 tag_border0 image_rescale0 s0))).
Proof.
  intros Hts Htb. apply run_calls_kept; [exact Hts | exact Htb |].
  intros a Ha. discriminate.
Qed.

End Kept.

Lemma canvas_kept_in_use_witness :
  canvas_kept (@run_calls Ref.cv
                 [CallFrame (Ex.frame 2 2);
                  CallCursor (Py.Int 1) Ex.half [(Py.Int 0, Py.Int 0)];
                  CallFrame (Ex.frame 0 0)]
                 (fst (__init__ 4 0 (Py.Int 1) Ex.blank))).
Proof.
  apply (@canvas_kept_in_use Ref.cv Ref_laws 4 0 (Py.Int 1) Ex.blank); lia.
Defined.

(** ** Frames that are not accepted, and calls repeated *)

Section Repeat.
Context {cv : Cv2} {laws : Cv2Laws cv}.

Local Abbreviation put_frame resized :=
  (o <- get_self ;;
   setitem_output_img (fst (frame_slices o)) (snd (frame_slices o)) resized ;;
   o <- get_self ;;
   match output_img o with
   | Some l => imshow l
   | None => raise cv2_error
   end).

(** A returning [updateFrame] ended with the assignment of the resized
    frame to the canvas of the state its first part left. *)
Lemma updateFrame_last_assignment s f s' :
  updateFrame f s = (s', Ok tt) ->
  exists dim r a a',
    scaled_dim (self s) f = Ok dim /\ cv2_resize f dim = Ok r /\
    setitem a (fst (frame_slices (self s'))) (snd (frame_slices (self s'))) r
      = Ok a' /\
    canvas s' = Some a' /\
    exists g, gui s' = g ++ [Imshow window_name a'].
Proof.
  intros Hrun.
  destruct (scaled_dim (self s) f) as [dim|e] eqn:Hdim;
    [|rewrite (updateFrame_dim_raise s f e Hdim) in Hrun; discriminate].
  destruct (cv2_resize f dim) as [r|e] eqn:Hres;
    [|rewrite (updateFrame_resize_raise s f _ e Hdim Hres) in Hrun; discriminate].
  rewrite (updateFrame_split s f dim r Hdim Hres) in Hrun.
  apply bind_inv in Hrun as (sA & [] & _ & Hput).
  destruct (put_frame_cases r sA) as [(e & He & _) | (a & a' & sw & Hset & Hw & Hfin)].
  { rewrite Hput in He. discriminate. }
  rewrite Hput in Hfin. injection Hfin as ->.
  destruct (canvas_written_canvas _ _ _ _ Hw) as (_ & Hc' & Hself & _).
  exists dim, r, a, a'. cbn [self gui].
  split; [reflexivity|]. split; [first [exact Hres | reflexivity]|].
  split; [rewrite Hself; exact Hset|]. split; [exact Hc'|]. eauto.
Qed.

Lemma in_use_kept tag_size0 tag_border0 image_rescale0 s0 calls :
  let s := run_calls calls (fst (__init__ tag_size0 tag_border0 image_rescale0 s0)) in
  0 < tag_size0 -> 0 <= tag_border0 ->
  canvas_kept s /\ tag_size (self s) = tag_size0 /\
  tag_border (self s) = tag_border0.
Proof.
  intros s Hts Htb.
  destruct (run_calls_config calls
              (fst (__init__ tag_size0 tag_border0 image_rescale0 s0)))
    as (Ets & Etb & _).
  split; [|auto]. apply run_calls_kept; [exact Hts | exact Htb |].
  intros a Ha. discriminate.
Qed.

(** X4. On an object in use ([tag_size > 0], [tag_border >= 0]) a frame
    whose number of channels is neither 3 nor 1 is never accepted:
    [updateFrame] raises, the canvas having 3 channels. *)
Theorem updateFrame_channels (tag_size0 tag_border0 : Z) (image_rescale0 : Py.num)
    (s0 : state) (calls : list call) (f : ndarray) :
  0 < tag_size0 -> 0 <= tag_border0 ->
  chans f <> 3 -> chans f <> 1 ->
  exists e,
    snd (updateFrame f
           (run_calls calls
              (fst (__init__ tag_size0 tag_border0 image_rescale0 s0))))
    = Raise e.
Proof.
  intros Hts Htb H3 H1.
  destruct (in_use_kept tag_size0 tag_border0 image_rescale0 s0 calls Hts Htb)
    as (Hk & Ets & Etb).
  set (s := run_calls calls _) in *.
  destruct (updateFrame f s) as [s' [[]|e]] eqn:Hrun; [|eauto]. exfalso.
  assert (Hk' : canvas_kept s').
  { change s' with (fst (s', @Ok unit tt)). rewrite <- Hrun.
    apply updateFrame_kept; [lia | lia | exact Hk]. }
  destruct (updateFrame_last_assignment s f s' Hrun)
    as (dim & r & a & a' & Hdim & Hres & Hset & Hc' & _).
  destruct (Hk' a' Hc') as [(_ & _ & _ & Hch') _].
  destruct (setitem_shape _ _ _ _ _ Hset) as (_ & _ & Hch).
  assert (Hok : is_ok (setitem a (fst (frame_slices (self s')))
                         (snd (frame_slices (self s'))) r) = true)
    by (rewrite Hset; reflexivity).
  rewrite setitem_ok in Hok. cbv zeta in Hok.
  unfold broadcastable in Hok. rewrite !andb_true_iff in Hok.
  destruct Hok as (_ & Hfit).
  destruct dim as [w h].
  destruct (resize_colour _ _ _ _ H1 Hres) as (_ & _ & _ & Hrch).
  unfold fits in Hfit. rewrite Hrch in Hfit.
  replace (chans a) with 3 in Hfit by lia.
  destruct (Z.eqb_spec (chans f) 3); [contradiction|].
  destruct (Z.eqb_spec (chans f) 1); [contradiction|]. discriminate.
Qed.

End Repeat.

Lemma updateFrame_channels_witness :
  exists e,
    snd (@updateFrame Ref.cv (Ref.tabulate 4 3 4 (fun _ _ _ => 0))
           (@run_calls Ref.cv [CallFrame (Ex.frame 4 3)]
              (fst (__init__ 2 1 (Py.Int 1) Ex.blank))))
    = Raise e.
Proof.
  apply (@updateFrame_channels Ref.cv Ref_laws 2 1 (Py.Int 1) Ex.blank
           [CallFrame (Ex.frame 4 3)] (Ref.tabulate 4 3 4 (fun _ _ _ => 0)));
    simpl; lia.
Defined.

(** ** What updateFrame shows *)

Lemma setitem_output_img_gui g rs cs v :
  preserves (fun st => gui st = g) (setitem_output_img rs cs v).
Proof.
  unfold setitem_output_img. repeat preserves_step. intros st Hst. exact Hst.
Qed.

Section Shows.
Context {cv : Cv2}.

Local Abbreviation put_frame resized :=
  (o <- get_self ;;
   setitem_output_img (fst (frame_slices o)) (snd (frame_slices o)) resized ;;
   o <- get_self ;;
   match output_img o with
   | Some l => imshow l
   | None => raise cv2_error
   end).

Lemma addCornerTags_gui g : preserves (fun st => gui st = g) addCornerTags.
Proof.
  unfold addCornerTags. repeat preserves_step; apply setitem_output_img_gui.
Qed.

Lemma initFrame_gui g : preserves (fun st => gui st = g) initFrame.
Proof.
  intros s Hs. unfold initFrame, bind, get_self, lift.
  destruct (np_ones_255 _ _ 3); exact Hs.
Qed.

(** X5. [updateFrame] shows an image exactly when it returns normally:
    then it has shown one image, the canvas as the call leaves it; when
    it raises, whatever the reason, it has shown nothing. *)
Theorem updateFrame_shows (s : state) (f : ndarray) :
  let s' := fst (updateFrame f s) in
  match snd (updateFrame f s) with
  | Ok _ => exists a, canvas s' = Some a /\
                      emitted s s' = [Imshow window_name a]
  | Raise _ => emitted s s' = []
  end.
Proof.
  cbv zeta.
  assert (Hnil : emitted s s = []) by (unfold emitted; apply drop_all).
  destruct (scaled_dim (self s) f) as [dim|e] eqn:Hdim;
    [|rewrite (updateFrame_dim_raise s f e Hdim); exact Hnil].
  destruct (cv2_resize f dim) as [r|e] eqn:Hres;
    [|rewrite (updateFrame_resize_raise s f _ e Hdim Hres); exact Hnil].
  rewrite (updateFrame_split s f dim r Hdim Hres).
  match goal with
  | |- context [bind ?pre _ s] =>
      assert (Hpre : gui (fst (pre s)) = gui s);
      [|destruct (pre s) as [sA [[]|e]] eqn:Hrun]
  end.
  { destruct (size_changed (self s) dim); [|reflexivity].
    apply (preserves_bind (fun st => gui st = gui s));
      [intros st Hst; exact Hst | intros _ | reflexivity].
    apply preserves_bind; [intros st Hst; exact Hst | intros _].
    apply preserves_bind; [apply initFrame_gui | intros _].
    apply addCornerTags_gui. }
  - rewrite (bind_ok _ _ _ _ _ Hrun). cbn [fst] in Hpre.
    destruct (put_frame_cases r sA)
      as [(e & He & Hst) | (a & a' & sw & Hset & Hw & Hfin)].
    + rewrite He, Hst. unfold emitted. rewrite Hpre. apply drop_all.
    + rewrite Hfin. cbn [fst snd].
      destruct (canvas_written_canvas _ _ _ _ Hw) as (_ & Hc' & _ & Hgui).
      exists a'. split; [exact Hc'|].
      unfold emitted. cbn [gui]. rewrite Hgui, Hpre. apply drop_app_length.
  - rewrite (bind_raise _ _ _ _ _ Hrun). cbn [fst snd] in *.
    unfold emitted. rewrite Hpre. apply drop_all.
Qed.

End Shows.

(** ** Calling again *)



Section Again.
Context {cv : Cv2} {laws : Cv2Laws cv}.

Local Abbreviation put_frame resized :=
  (o <- get_self ;;
   setitem_output_img (fst (frame_slices o)) (snd (frame_slices o)) resized ;;
   o <- get_self ;;
   match output_img o with
   | Some l => imshow l
   | None => raise cv2_error
   end).



(** A returning call that keeps the canvas assigned the frame to the
    canvas it found. *)
Lemma updateFrame_unchanged_inv s f dim r s' :
  scaled_dim (self s) f = Ok dim -> cv2_resize f dim = Ok r ->
  size_changed (self s) dim = false ->
  updateFrame f s = (s', Ok tt) ->
  exists a a',
    canvas s = Some a /\
    setitem a (fst (frame_slices (self s))) (snd (frame_slices (self s))) r
      = Ok a' /\
    canvas s' = Some a' /\ self s' = self s.
Proof.
  intros Hdim Hres Hsz Hrun.
  rewrite (updateFrame_split s f dim r Hdim Hres), Hsz in Hrun.
  change ((ret tt ;; put_frame r) s) with (put_frame r s) in Hrun.
  destruct (put_frame_cases r s) as [(e & He & _) | (a & a' & sw & Hset & Hw & Hfin)].
  { rewrite Hrun in He. discriminate. }
  rewrite Hrun in Hfin. injection Hfin as ->.
  destruct (canvas_written_canvas _ _ _ _ Hw) as (Hc & Hc' & Hself & _).
  exists a, a'. auto.
Qed.

(** A frame too low for a tag: the call raises with the new size and a
    new, entirely white canvas in place, and nothing shown. *)
Lemma updateFrame_low s f w h r :
  let o := self s in
  0 < tag_size o -> 0 < tag_border o ->
  scaled_dim o f = Ok (w, h) -> cv2_resize f (w, h) = Ok r ->
  size_changed o (w, h) = true -> h + tag_border o < tag_size o ->
  markers_available o = true ->
  let o' := set_output_img (Some (length (heap s)))
              (set_img_width w (set_img_height h o)) in
  exists a0,
    updateFrame f s = (mkState o' (heap s ++ [a0]) (gui s), Raise ValueError) /\
    fits_canvas o' a0 /\
    canvas (mkState o' (heap s ++ [a0]) (gui s)) = Some a0 /\
    forall i j k, 0 <= i < rows a0 -> 0 <= j < cols a0 -> 0 <= k < 3 ->
      get a0 i j k = Some 255.
Proof.
  intros o Hts Htb Hdim Hres Hsz Hlow Hav o'.
  destruct (resize_nonneg _ _ _ _ Hres) as (Hwf & Hw & Hh).
  destruct (realloc_prefix_white s w h) as (a0 & Hpre & Hfit & Hcv & Hwhite);
    [fold o; lia..|].
  cbv zeta in Hpre, Hfit, Hcv. fold o in Hpre, Hfit, Hcv. fold o' in Hpre, Hfit, Hcv.
  set (s3 := mkState o' (heap s ++ [a0]) (gui s)) in *.
  destruct (markers_available_Ok o Hav) as (ul & ur & br & bl & M0 & M1 & M2 & M3).
  exists a0. split; [|auto].
  rewrite (updateFrame_split s f (w, h) r Hdim Hres). fold o. rewrite Hsz.
  unfold bind at 1. cbn [fst snd] in Hpre |- *. rewrite Hpre.
  apply (bind_raise addCornerTags).
  apply (addCornerTags_low s3 a0 ul ur br bl Hts Htb Hw Hh Hlow Hcv Hfit
           M0 M1 M2 M3).
Qed.

(** X7. A re-allocation that fails is not retried.  With
    [tag_border > 0], when the scaled frame is too low for a tag
    ([scaled height + tag_border < tag_size]) the first call with it
    raises [ValueError] in [addCornerTags], the new size and the new
    canvas being already in place; the same call again finds the size
    unchanged and returns normally, showing a canvas with the elements of
    the resized frame, cast to uint8, in the interior rectangle and white
    everywhere else: no marker at all. *)
Theorem updateFrame_retry (s : state) (f : ndarray) (w h : Z) (r : ndarray) :
  let o := self s in
  0 < tag_size o -> 0 < tag_border o -> chans f = 3 ->
  scaled_dim o f = Ok (w, h) -> cv2_resize f (w, h) = Ok r ->
  size_changed o (w, h) = true -> h + tag_border o < tag_size o ->
  markers_available o = true ->
  let s1 := fst (updateFrame f s) in
  let s2 := fst (updateFrame f s1) in
  snd (updateFrame f s) = Raise ValueError /\
  snd (updateFrame f s1) = Ok tt /\
  exists a, canvas s2 = Some a /\
    forall i j k, 0 <= i < rows a -> 0 <= j < cols a -> 0 <= k < 3 ->
      get a i j k =
        Some (if in_rect (placed (self s2) (frame_slices (self s2))) i j
              then assigned (placed (self s2) (frame_slices (self s2))) r i j k
              else 255).
Proof.
  intros o Hts Htb Hch Hdim Hres Hsz Hlow Hav.
  assert (Hf1 : chans f <> 1) by lia.
  destruct (resize_colour _ _ _ _ Hf1 Hres) as (Hwf & Hrr & Hrc & Hrch).
  destruct (updateFrame_low s f w h r Hts Htb Hdim Hres Hsz Hlow Hav)
    as (a0 & Hrun & Hfit & Hcv & Hwhite).
  fold o in Hrun, Hfit, Hcv.
  set (o' := set_output_img (Some (length (heap s)))
               (set_img_width w (set_img_height h o))) in *.
  set (s3 := mkState o' (heap s ++ [a0]) (gui s)) in *.
  cbv zeta. rewrite Hrun. cbn [fst snd]. split; [reflexivity|].
  assert (Hdim3 : scaled_dim (self s3) f = Ok (w, h)) by exact Hdim.
  assert (Hsz3 : size_changed (self s3) (w, h) = false)
    by (apply size_changed_false; split; reflexivity).
  assert (Hfits3 : canvas_fits s3)
    by (intros b Hb; rewrite Hcv in Hb; injection Hb as <-; exact Hfit).
  pose proof (updateFrame_unchanged s3 f w h r Hts Htb Hdim3 Hres Hf1 Hsz3 Hfits3)
    as Hout.
  rewrite Hcv in Hout.
  replace (fits (chans r) 3) with true in Hout
    by (rewrite Hrch, Hch; reflexivity).
  destruct Hout as (s' & a' & Hrun' & _).
  rewrite Hrun'. cbn [fst snd]. split; [reflexivity|].
  destruct (updateFrame_unchanged_inv s3 f (w, h) r s' Hdim3 Hres Hsz3 Hrun')
    as (b & b' & Hb & Hset & Hc' & Hself).
  rewrite Hcv in Hb. injection Hb as <-.
  exists b'. split; [exact Hc'|].
  intros i j k Hi Hj Hk.
  destruct (setitem_shape _ _ _ _ _ Hset) as (Hr' & Hc'' & _).
  rewrite Hr' in Hi. rewrite Hc'' in Hj.
  pose proof (Hwhite i j k Hi Hj Hk) as G0.
  pose proof (get_setitem_Some _ _ _ _ _ i j k _ Hset G0) as G1.
  cbv zeta in G1. rewrite (placed_resolve (self s3) a0 _ Hfit) in G1.
  rewrite Hself. exact G1.
Qed.

End Again.

Lemma updateFrame_retry_witness :
  let s := Ex.window 6 1 (Py.Int 1) in
  let f := Ex.frame 2 2 in
  let r := Ex.unwrap (Ref.resize f (2, 2)) in
  let s1 := fst (@updateFrame Ref.cv f s) in
  let s2 := fst (@updateFrame Ref.cv f s1) in
  snd (@updateFrame Ref.cv f s) = Raise ValueError /\
  snd (@updateFrame Ref.cv f s1) = Ok tt /\
  exists a, canvas s2 = Some a /\
    forall i j k, 0 <= i < rows a -> 0 <= j < cols a -> 0 <= k < 3 ->
      get a i j k =
        Some (if in_rect (placed (self s2) (frame_slices (self s2))) i j
              then assigned (placed (self s2) (frame_slices (self s2))) r i j k
              else 255).
Proof.
  apply (@updateFrame_retry Ref.cv Ref_laws
           (Ex.window 6 1 (Py.Int 1)) (Ex.frame 2 2) 2 2
           (Ex.unwrap (Ref.resize (Ex.frame 2 2) (2, 2)))).
  - simpl; lia.
  - simpl; lia.
  - reflexivity.
  - vm_compute. reflexivity.
  - reflexivity.
  - reflexivity.
  - simpl; lia.
  - vm_compute. reflexivity.
Defined.


(** ** The image [updateCursor] shows *)

Lemma emitted_refl s : emitted s s = [].
Proof. unfold emitted. apply drop_all. Qed.

Section Overlay.
Context {cv : Cv2}.

Lemma circle_run o H g d d' center radius color thickness :
  cv2_circle d center radius color thickness = Ok d' ->
  circle (length H) center radius color thickness (mkState o (H ++ [d]) g)
    = (mkState o (H ++ [d']) g, Ok tt).
Proof.
  intros Hc. unfold circle, bind, load, lift, store. cbn [heap self gui].
  rewrite list_lookup_middle by reflexivity. rewrite Hc.
  f_equal. f_equal. unfold loc. cbn [heap].
  rewrite insert_app_r_alt by lia. rewrite Nat.sub_diag. reflexivity.
Qed.

Lemma circle_run_raise o H g d e center radius color thickness :
  cv2_circle d center radius color thickness = Raise e ->
  circle (length H) center radius color thickness (mkState o (H ++ [d]) g)
    = (mkState o (H ++ [d]) g, Raise e).
Proof.
  intros Hc. unfold circle, bind, load, lift, store. cbn [heap self gui].
  rewrite list_lookup_middle by reflexivity. rewrite Hc. reflexivity.
Qed.

Lemma copy_output_img_run s l a :
  output_img (self s) = Some l -> heap s !! l = Some a ->
  copy_output_img s
    = (mkState (self s) (heap s ++ [a]) (gui s), Ok (length (heap s))).
Proof.
  intros Hl Ha. unfold copy_output_img, bind, get_self, load, alloc.
  rewrite Hl, Ha. reflexivity.
Qed.

(** The loop over the points draws into the copy only, in order, and stops
    at the first point that raises. *)
Lemma corners_loop o H g corners : forall d,
  exists d',
    for_each corners (fun corner =>
      c0 <- lift (Py.int (fst corner)) ;;
      c1 <- lift (Py.int (snd corner)) ;;
      circle (length H) (c0, c1) 4 (255, 255, 0) (-1))
      (mkState o (H ++ [d]) g)
    = (mkState o (H ++ [d']) g,
       match draw_corners d corners with
       | Ok _ => Ok tt
       | Raise e => Raise e
       end) /\
    (forall d'', draw_corners d corners = Ok d'' -> d' = d'').
Proof.
  induction corners as [|[p q] rest IH]; intros d.
  - exists d. split; [reflexivity|]. cbn. intros d'' [= <-]. reflexivity.
  - cbn [for_each draw_corners fst snd].
    unfold bind at 1. unfold bind at 1. unfold lift at 1.
    destruct (Py.int p) as [c0|e] eqn:Hp; cbn [rbind].
    2:{ exists d. split; [reflexivity|discriminate]. }
    unfold bind at 1. unfold lift at 1.
    destruct (Py.int q) as [c1|e] eqn:Hq; cbn [rbind].
    2:{ exists d. split; [reflexivity|discriminate]. }
    destruct (cv2_circle d (c0, c1) 4 (255, 255, 0) (-1)) as [d1|e] eqn:Hc;
      cbn [rbind].
    2:{ rewrite (circle_run_raise _ _ _ _ _ _ _ _ _ Hc).
        exists d. split; [reflexivity|discriminate]. }
    rewrite (circle_run _ _ _ _ _ _ _ _ _ Hc).
    destruct (IH d1) as (d' & Hrun & Hd'). exists d'. split; assumption.
Qed.

(** X8. What [updateCursor] shows is a function of the canvas contents
    and of its arguments alone: on an allocated canvas [a] it returns
    normally exactly when every [int] conversion and every [cv2.circle]
    call does, and then shows one image, the cursor disc and the point
    discs drawn in order onto [a]; when a step raises, the same exception
    leaves the method and nothing is shown. *)
Theorem updateCursor_overlay (s : state) (a : ndarray) (x y : Py.num)
    (corners : list (Py.num * Py.num)) :
  canvas s = Some a ->
  let s' := fst (updateCursor x y corners s) in
  match overlay a x y corners with
  | Ok d => snd (updateCursor x y corners s) = Ok tt /\
            emitted s s' = [Imshow window_name d]
  | Raise e => snd (updateCursor x y corners s) = Raise e /\
               emitted s s' = []
  end.
Proof.
  intros Ha. apply canvas_Some in Ha as (l & Hl & Ha).
  cbv zeta. unfold updateCursor, overlay.
  destruct (Py.int x) as [ix|e]; cbn [rbind].
  2:{ rewrite (bind_raise (lift (Raise e)) _ s s e eq_refl).
      split; [reflexivity|apply emitted_refl]. }
  rewrite (bind_ok (lift (Ok ix)) _ s s ix eq_refl).
  destruct (Py.int y) as [iy|e]; cbn [rbind].
  2:{ rewrite (bind_raise (lift (Raise e)) _ s s e eq_refl).
      split; [reflexivity|apply emitted_refl]. }
  rewrite (bind_ok (lift (Ok iy)) _ s s iy eq_refl).
  rewrite (bind_ok (modify_self (set_cursor (ix, iy))) _ s _ tt eq_refl).
  set (o' := set_cursor (ix, iy) (self s)).
  rewrite (bind_ok copy_output_img _ _ _ _
             (copy_output_img_run (mkState o' (heap s) (gui s)) l a Hl Ha)).
  cbn [self heap gui].
  rewrite (bind_ok get_self _ _ _ _ eq_refl). cbn [self].
  change (cursor o') with (ix, iy).
  destruct (cv2_circle a (ix, iy) 10 (255, 0, 0) (-1)) as [d|e] eqn:Hc;
    cbn [rbind].
  2:{ rewrite (bind_raise _ _ _ _ _ (circle_run_raise _ _ _ _ _ _ _ _ _ Hc)).
      cbn [fst snd]. split; [reflexivity|apply drop_all]. }
  rewrite (bind_ok _ _ _ _ _ (circle_run _ _ _ _ _ _ _ _ _ Hc)).
  destruct (corners_loop o' (heap s) (gui s) corners d) as (d' & Hrun & Hd').
  destruct (draw_corners d corners) as [d''|e].
  - rewrite (bind_ok _ _ _ _ _ Hrun). rewrite <- (Hd' d'' eq_refl).
    unfold imshow, bind, load, emit. cbn [heap self gui].
    rewrite list_lookup_middle by reflexivity. cbn [fst snd].
    split; [reflexivity|]. unfold emitted. cbn [gui]. apply drop_app_length.
  - rewrite (bind_raise _ _ _ _ _ Hrun). cbn [fst snd].
    split; [reflexivity|apply drop_all].
Qed.

End Overlay.

Lemma updateCursor_overlay_witness :
  let s := fst (@updateFrame Ref.cv (Ex.frame 6 2) (Ex.window 6 1 (Py.Int 1))) in
  let a := Ex.unwrap (match canvas s with Some a => Ok a | None => Raise TypeError end) in
  let x := Py.Int 3 in
  let y := Py.Float (S754_finite false 3 (-1)) in
  let corners := [(Py.Int 0, Py.Int 0); (Py.Int 5, Py.Int 2)] in
  let s' := fst (@updateCursor Ref.cv x y corners s) in
  match @overlay Ref.cv a x y corners with
  | Ok d => snd (@updateCursor Ref.cv x y corners s) = Ok tt /\
            emitted s s' = [Imshow window_name d]
  | Raise e => snd (@updateCursor Ref.cv x y corners s) = Raise e /\
               emitted s s' = []
  end.
Proof.
  apply (@updateCursor_overlay Ref.cv). vm_compute. reflexivity.
Defined.

(** ** Where the slice expressions land *)

(** X9. On a canvas high enough for a tag
    ([tag_size <= img_height + tag_border]), with [tag_border > 0], no
    index of the five slice expressions is clamped: the tags sit
    [tag_border] away from the canvas edges, [tag_size] square, and the
    frame rectangle is [img_height] by [img_width] at row [tag_border],
    column [2 * tag_border + tag_size]. *)
Theorem layout_rectangles (o : ArucoWindow) :
  let ts := tag_size o in
  let tb := tag_border o in
  let ih := img_height o in
  let iw := img_width o in
  0 < ts -> 0 < tb -> 0 <= iw -> ts <= ih + tb ->
  placed o (ul_slices o) = Rect tb (ts + tb) tb (ts + tb) /\
  placed o (ur_slices o) =
    Rect tb (ts + tb) (3 * tb + ts + iw) (iw + 2 * ts + 3 * tb) /\
  placed o (br_slices o) =
    Rect (ih + tb - ts) (ih + tb) (3 * tb + ts + iw) (iw + 2 * ts + 3 * tb) /\
  placed o (bl_slices o) = Rect (ih + tb - ts) (ih + tb) tb (ts + tb) /\
  placed o (frame_slices o) =
    Rect tb (ih + tb) (2 * tb + ts) (iw + ts + 2 * tb).
Proof.
  intros ts tb ih iw Hts Htb Hiw Hih. subst ts tb ih iw.
  repeat split; unfold_layout; split_ltb; f_equal; lia.
Qed.

Lemma layout_rectangles_witness :
  let o := Ex.sized 100 10 480 640 in
  placed o (ul_slices o) = Rect 10 110 10 110 /\
  placed o (ur_slices o) = Rect 10 110 770 870 /\
  placed o (br_slices o) = Rect 390 490 770 870 /\
  placed o (bl_slices o) = Rect 390 490 10 110 /\
  placed o (frame_slices o) = Rect 10 490 120 760.
Proof.
  apply (layout_rectangles (Ex.sized 100 10 480 640)); simpl; lia.
Defined.

(** ** What a call leaves alone *)

Section Attributes.
Context {cv : Cv2}.

Lemma updateFrame_cursor f (Q : Z * Z -> Prop) :
  preserves (fun s => Q (cursor (self s))) (updateFrame f).
Proof.
  unfold updateFrame. repeat preserves_step;
    try (intros s Hs; exact Hs);
    try (apply (preserves_self_any (fun o => Q (cursor o)));
         intros o;
         first [apply setitem_output_img_self | apply imshow_self
               | apply addCornerTags_self]).
  apply (initFrame_view (fun v => Q v.2)).
Qed.

(** X10. [updateFrame] assigns to [img_height], [img_width] and
    [output_img] only: in every outcome the three constructor arguments
    and the cursor are what they were. *)
Theorem updateFrame_keeps_attributes (s : state) (f : ndarray) :
  let o' := self (fst (updateFrame f s)) in
  tag_size o' = tag_size (self s) /\
  tag_border o' = tag_border (self s) /\
  image_rescale o' = image_rescale (self s) /\
  cursor o' = cursor (self s).
Proof.
  cbv zeta.
  pose proof (updateFrame_config f
                (fun q => q.1.1 = tag_size (self s) /\
                          q.1.2 = tag_border (self s) /\
                          q.2 = image_rescale (self s)) s) as Hc.
  cbn [fst snd] in Hc. destruct Hc as (H1 & H2 & H3); [auto|].
  pose proof (updateFrame_cursor f (fun c => c = cursor (self s)) s eq_refl) as H4.
  auto.
Qed.

(** X11. The constructor arguments stay for the life of the object: after
    [__init__] and any sequence of [updateFrame] and [updateCursor] calls,
    raising or not, [tag_size], [tag_border] and [image_rescale] are the
    arguments given. *)
Theorem config_fixed (ts tb : Z) (rs : Py.num) (s0 : state) (calls : list call) :
  let s := run_calls calls (fst (__init__ ts tb rs s0)) in
  tag_size (self s) = ts /\ tag_border (self s) = tb /\
  image_rescale (self s) = rs.
Proof.
  cbv zeta.
  destruct (run_calls_config calls (fst (__init__ ts tb rs s0)))
    as (-> & -> & ->).
  repeat split.
Qed.

End Attributes.

(** ** The script *)

Section Script.
Context {cv : Cv2} {laws : Cv2Laws cv}.

Lemma scaled_dim_int1 o f :
  image_rescale o = Py.Int 1 -> scaled_dim o f = Ok (cols f, rows f).
Proof.
  intros Hr. unfold scaled_dim, scale_dim. rewrite Hr. cbn.
  rewrite !Z.mul_1_r. reflexivity.
Qed.

(** X12. The script on a readable, non-empty colour image, resizing and
    marker generation succeeding: it ends normally exactly when the image
    is at least 90 rows high.  Then it has created the window, shown one
    canvas of [rows + 20] by [cols + 240] pixels holding at row 10,
    column 120 what [cv2.resize] returned for the image at the image's
    own size, waited for a key and closed the windows.  A lower image
    ends it with [ValueError] after the window was created, nothing shown
    and no key waited for. *)
Theorem main_outcome (f r : ndarray) :
  chans f = 3 -> 0 < rows f ->
  cv2_resize f (cols f, rows f) = Ok r ->
  markers_available
    (mkArucoWindow TAG_SIZE TAG_BORDER IMAGE_RESCALE None 0 0 (0, 0)) = true ->
  if 90 <=? rows f then
    exists a,
      main (Some f) =
        ([Gui (NamedWindow window_name); Gui (Imshow window_name a);
          WaitKey 0; DestroyAllWindows], Ok tt) /\
      rows a = rows f + 20 /\ cols a = cols f + 240 /\ chans a = 3 /\
      shows a (Rect 10 (rows f + 10) 120 (cols f + 120)) r
  else
    main (Some f) = ([Gui (NamedWindow window_name)], Raise ValueError).
Proof.
  intros Hch Hrows Hres Hav.
  assert (Hf1 : chans f <> 1) by lia.
  destruct (resize_colour _ _ _ _ Hf1 Hres) as (Hwf & Hrr & Hrc & Hrch).
  assert (Hw : 0 <= cols f) by (destruct Hwf as (_ & ? & _); lia).
  set (o := mkArucoWindow TAG_SIZE TAG_BORDER IMAGE_RESCALE None 0 0 (0, 0)) in *.
  set (s1 := mkState o [] [NamedWindow window_name]).
  change (main (Some f)) with
    (let '(s2, r2) := updateFrame f s1 in
     match r2 with
     | Raise e => (Gui <$> gui s2, Raise e)
     | Ok _ => ((Gui <$> gui s2) ++ [WaitKey 0; DestroyAllWindows], Ok tt)
     end).
  assert (Hdim : scaled_dim (self s1) f = Ok (cols f, rows f))
    by (apply scaled_dim_int1; reflexivity).
  assert (Hsz : size_changed (self s1) (cols f, rows f) = true).
  { unfold size_changed. cbn [fst snd self s1 o img_height img_width].
    destruct (Z.eqb_spec (rows f) 0); [lia|reflexivity]. }
  assert (Hts : 0 < tag_size (self s1)) by (cbn; unfold TAG_SIZE; lia).
  assert (Htb : 0 < tag_border (self s1)) by (cbn; unfold TAG_BORDER; lia).
  destruct (Z.leb_spec 90 (rows f)) as [Hhigh|Hlow].
  - pose proof (updateFrame_changed s1 f (cols f) (rows f) r
                  Hts Htb Hdim Hres Hf1 Hsz) as Hout.
    cbv zeta in Hout.
    destruct (markers_available_Ok (self s1) Hav)
      as (ul & ur & br & bl & M0 & M1 & M2 & M3).
    rewrite M0, M1, M2, M3 in Hout.
    replace (fits (chans r) 3) with true in Hout
      by (rewrite Hrch, Hch; reflexivity).
    replace (tag_size (self s1) <=? rows f + tag_border (self s1)) with true
      in Hout
      by (symmetry; apply Z.leb_le; cbn; unfold TAG_SIZE, TAG_BORDER; lia).
    cbn [andb] in Hout.
    destruct Hout as (s' & a' & Hrun & Hself & Hgui & Hc & Hfit & Hshow & _).
    exists a'. rewrite Hrun, Hgui.
    destruct Hfit as (_ & Hr' & Hc' & Hch').
    rewrite Hself in Hr', Hc', Hshow.
    split; [reflexivity|].
    split; [rewrite Hr'; reflexivity|].
    split; [rewrite Hc'; unfold canvas_cols; cbn; unfold TAG_SIZE, TAG_BORDER; lia|].
    split; [exact Hch'|].
    replace (Rect 10 (rows f + 10) 120 (cols f + 120))
      with (placed (set_output_img (Some (length (heap s1)))
                      (set_img_width (cols f) (set_img_height (rows f) (self s1))))
              (frame_slices
                 (set_output_img (Some (length (heap s1)))
                    (set_img_width (cols f) (set_img_height (rows f) (self s1))))));
      [exact Hshow|].
    unfold_layout. cbn. unfold TAG_SIZE, TAG_BORDER. split_ltb; f_equal; lia.
  - destruct (updateFrame_low s1 f (cols f) (rows f) r Hts Htb Hdim Hres Hsz)
      as (a0 & Hrun & _).
    + cbn. unfold TAG_SIZE, TAG_BORDER. lia.
    + exact Hav.
    + rewrite Hrun. reflexivity.
Qed.

End Script.

Lemma main_outcome_witness :
  let f := Ex.frame 90 1 in
  let r := Ex.unwrap (Ref.resize f (1, 90)) in
  if 90 <=? rows f then
    exists a,
      @main Ref.cv (Some f) =
        ([Gui (NamedWindow window_name); Gui (Imshow window_name a);
          WaitKey 0; DestroyAllWindows], Ok tt) /\
      rows a = rows f + 20 /\ cols a = cols f + 240 /\ chans a = 3 /\
      shows a (Rect 10 (rows f + 10) 120 (cols f + 120)) r
  else
    @main Ref.cv (Some f) = ([Gui (NamedWindow window_name)], Raise ValueError).
Proof.
  apply (@main_outcome Ref.cv Ref_laws (Ex.frame 90 1)
           (Ex.unwrap (Ref.resize (Ex.frame 90 1) (1, 90)))).
  - reflexivity.
  - simpl; lia.
  - vm_compute. reflexivity.
  - vm_compute. reflexivity.
Defined.

(** ** addCornerTags called on its own *)

Section Helpers.
Context {cv : Cv2} {laws : Cv2Laws cv}.

(** X14. [addCornerTags] called on an allocated canvas of the tracked
    size, with [tag_size > 0], [tag_border > 0] and marker generation
    succeeding: it returns normally exactly when
    [tag_size <= img_height + tag_border]; otherwise it raises
    [ValueError] at the first assignment, having written nothing.  Either
    way the attributes are as before and nothing is shown. *)
Theorem addCornerTags_outcome (s : state) (a : ndarray) :
  let o := self s in
  0 < tag_size o -> 0 < tag_border o ->
  0 <= img_width o -> 0 <= img_height o ->
  canvas s = Some a -> fits_canvas o a ->
  markers_available o = true ->
  let s' := fst (addCornerTags s) in
  self s' = o /\ gui s' = gui s /\
  if tag_size o <=? img_height o + tag_border o
  then snd (addCornerTags s) = Ok tt
  else addCornerTags s = (s, Raise ValueError).
Proof.
  intros o Hts Htb Hw Hh Hc Hfit Hav s'.
  split; [apply (addCornerTags_self o s eq_refl)|].
  split; [apply (addCornerTags_gui (gui s) s eq_refl)|].
  destruct (markers_available_Ok o Hav) as (ul & ur & br & bl & M0 & M1 & M2 & M3).
  destruct (Z.leb_spec (tag_size o) (img_height o + tag_border o)) as [Hhigh|Hlow].
  - destruct (addCornerTags_ok s a ul ur br bl Hts Htb Hw Hh Hhigh Hc Hfit
                M0 M1 M2 M3) as (s1 & a1 & -> & _).
    reflexivity.
  - apply (addCornerTags_low s a ul ur br bl Hts Htb Hw Hh Hlow Hc Hfit
             M0 M1 M2 M3).
Qed.

End Helpers.

Lemma addCornerTags_outcome_witness :
  let s := fst (@initFrame
                  (mkState (Ex.sized 6 1 2 3) [] [])) in
  let a := Ex.unwrap (np_ones_255 4 19 3) in
  let o := self s in
  let s' := fst (@addCornerTags Ref.cv s) in
  self s' = o /\ gui s' = gui s /\
  if tag_size o <=? img_height o + tag_border o
  then snd (@addCornerTags Ref.cv s) = Ok tt
  else @addCornerTags Ref.cv s = (s, Raise ValueError).
Proof.
  apply (@addCornerTags_outcome Ref.cv Ref_laws
           (fst (@initFrame (mkState (Ex.sized 6 1 2 3) [] [])))
           (Ex.unwrap (np_ones_255 4 19 3))).
  - simpl; lia.
  - simpl; lia.
  - simpl; lia.
  - simpl; lia.
  - vm_compute. reflexivity.
  - vm_compute. repeat split; try discriminate; repeat constructor.
  - vm_compute. reflexivity.
Defined.

(** ** C6 and C2: updateFrame on an object in use *)

Section Completes.
Context {cv : Cv2} {laws : Cv2Laws cv} {checks : Cv2Checks cv}.

(** C6 (amended). For a window constructed with [tag_size > 0] and
    [tag_border > 0], after any series of calls, with marker generation
    succeeding, given a 3-channel frame.  When [cv2.resize] refuses the
    frame, as it does every frame whose scaled width or height is zero,
    [updateFrame] raises and changes nothing: a zero size is not
    special-cased.  Otherwise [updateFrame] returns normally exactly
    when: the scaled size differs from the tracked one and
    [tag_size <= scaled height + tag_border]; or the scaled size is the
    tracked one and a canvas is allocated. *)
Theorem updateFrame_completes (tag_size0 tag_border0 : Z)
    (image_rescale0 : Py.num) (s0 : state) (calls : list call)
    (f : ndarray) (w h : Z) :
  let s := run_calls calls
             (fst (__init__ tag_size0 tag_border0 image_rescale0 s0)) in
  0 < tag_size0 -> 0 < tag_border0 ->
  markers_available (self s) = true -> chans f = 3 ->
  scaled_dim (self s) f = Ok (w, h) ->
  match cv2_resize f (w, h) with
  | Ok _ =>
      0 < w /\ 0 < h /\
      (snd (updateFrame f s) = Ok tt <->
       if size_changed (self s) (w, h) then tag_size0 <= h + tag_border0
       else is_Some (canvas s))
  | Raise e => updateFrame f s = (s, Raise e)
  end /\
  (w <= 0 \/ h <= 0 -> exists e, updateFrame f s = (s, Raise e)).
Proof.
  intros s Hts Htb Hav Hch Hdim.
  assert (Hmain :
    match cv2_resize f (w, h) with
    | Ok _ =>
        0 < w /\ 0 < h /\
        (snd (updateFrame f s) = Ok tt <->
         if size_changed (self s) (w, h) then tag_size0 <= h + tag_border0
         else is_Some (canvas s))
    | Raise e => updateFrame f s = (s, Raise e)
    end).
  { destruct (cv2_resize f (w, h)) as [r|e] eqn:Hres;
      [|apply (updateFrame_resize_raise s f (w, h) e Hdim Hres)].
    destruct (resize_nonempty _ _ _ _ Hres) as (_ & _ & Hw & Hh).
    split; [exact Hw|]. split; [exact Hh|].
    destruct (in_use_steady tag_size0 tag_border0 image_rescale0 s0 calls
                Hts Htb Hav) as ((_ & _ & Hfits & _) & Ets & Etb).
    fold s in Hfits, Ets, Etb. rewrite <- Ets, <- Etb.
    apply (updateFrame_completes_step s f w h r); try assumption; lia. }
  split; [exact Hmain|].
  intros Hzero. destruct (cv2_resize f (w, h)) as [r|e]; [|eauto].
  destruct Hmain as (Hw & Hh & _). lia.
Qed.

End Completes.

(** The elements of a uint8 array are bytes. *)
Lemma uint8_get v i j k x :
  uint8 v = true -> get v i j k = Some x -> 0 <= x < 256.
Proof.
  unfold uint8, get. intros Hu.
  destruct ((0 <=? i) && (0 <=? j) && (0 <=? k)); [|discriminate].
  destruct (data v !! Z.to_nat i) as [row|] eqn:Hrow; [|discriminate].
  destruct (row !! Z.to_nat j) as [px|] eqn:Hpx; [|discriminate].
  intros Hx.
  rewrite List.forallb_forall in Hu.
  specialize (Hu row (proj1 (list_elem_of_In _ _) (list_elem_of_lookup_2 _ _ _ Hrow))).
  rewrite List.forallb_forall in Hu.
  specialize (Hu px (proj1 (list_elem_of_In _ _) (list_elem_of_lookup_2 _ _ _ Hpx))).
  rewrite List.forallb_forall in Hu.
  specialize (Hu x (proj1 (list_elem_of_In _ _) (list_elem_of_lookup_2 _ _ _ Hx))).
  lia.
Qed.

Section Canvas.
Context {cv : Cv2} {laws : Cv2Laws cv}.

(** One call that returns normally, given a frame of other than one
    channel on a canvas of the tracked size, with [tag_border > 0]: the
    interior region holds the resized frame. *)
Lemma updateFrame_frame_step (s : state) (f : ndarray) (w h : Z) (r : ndarray)
    (s' : state) :
  let o := self s in
  0 < tag_size o -> 0 < tag_border o ->
  scaled_dim o f = Ok (w, h) -> cv2_resize f (w, h) = Ok r ->
  chans f <> 1 -> canvas_fits s ->
  updateFrame f s = (s', Ok tt) ->
  frame_shown s' r.
Proof.
  intros o Hts Htb Hdim Hres Hf1 Hfits Hrun.
  destruct (resize_nonneg _ _ _ _ Hres) as (_ & Hw & Hh).
  destruct (size_changed o (w, h)) eqn:Hsz.
  - pose proof (updateFrame_changed s f w h r Hts Htb Hdim Hres Hf1 Hsz) as Hout.
    cbv zeta in Hout. fold o in Hout.
    destruct (marker o 0) as [ul|] eqn:M0;
      [|destruct Hout as [e' He]; rewrite Hrun in He; discriminate].
    destruct (marker o 1) as [ur|] eqn:M1;
      [|destruct Hout as [e' He]; rewrite Hrun in He; discriminate].
    destruct (marker o 2) as [br|] eqn:M2;
      [|destruct Hout as [e' He]; rewrite Hrun in He; discriminate].
    destruct (marker o 3) as [bl|] eqn:M3;
      [|destruct Hout as [e' He]; rewrite Hrun in He; discriminate].
    destruct ((tag_size o <=? h + tag_border o) && fits (chans r) 3);
      [|rewrite Hrun in Hout; discriminate].
    destruct Hout as (s'' & a' & Hrun' & Hself & Hgui & Hc & Hfit & Shf & _).
    rewrite Hrun in Hrun'. injection Hrun' as <-.
    assert (Hfr : 0 < tag_size (self s') /\ 0 < tag_border (self s') /\
                  0 <= img_width (self s') /\ 0 <= img_height (self s'))
      by (rewrite Hself; simpl; fold o; lia).
    destruct Hfr as (Hts' & Htb' & Hw' & Hh').
    destruct (frame_rect (self s') Hts' Htb' Hw' Hh') as (Hr0 & Hc0 & _ & _).
    exists a'. auto.
  - pose proof (updateFrame_unchanged s f w h r Hts Htb Hdim Hres Hf1 Hsz Hfits)
      as Hout.
    destruct (canvas s) as [a|]; [|rewrite Hrun in Hout; discriminate].
    destruct (fits (chans r) 3); [|rewrite Hrun in Hout; discriminate].
    destruct Hout as (s'' & a' & Hrun' & Hself & Hgui & Hc' & Hfit' & Shf & _).
    rewrite Hrun in Hrun'. injection Hrun' as <-.
    apply size_changed_false in Hsz as [E1 E2].
    destruct (frame_rect o Hts Htb) as (Hr0 & Hc0 & _ & _); [lia..|].
    exists a'. rewrite Hself. fold o. auto.
Qed.

(** C2 (amended). For a window constructed with [tag_size > 0] and
    [tag_border > 0], after any series of calls: when [updateFrame],
    given a 3-channel frame, returns normally, the interior region at
    offset [(2*tag_border + tag_size, tag_border)], of the scaled frame's
    size, holds the resized frame, element for element as the uint8
    canvas stores it (the elements of an 8-bit image unchanged); and when
    moreover marker generation succeeds and the scaled frame is at least
    [2 * tag_size] high, the four corner regions hold their marker
    bitmaps. *)
Theorem updateFrame_canvas (tag_size0 tag_border0 : Z)
    (image_rescale0 : Py.num) (s0 : state) (calls : list call)
    (f : ndarray) (s' : state) :
  let s := run_calls calls
             (fst (__init__ tag_size0 tag_border0 image_rescale0 s0)) in
  0 < tag_size0 -> 0 < tag_border0 -> chans f = 3 ->
  updateFrame f s = (s', Ok tt) ->
  exists dim resized,
    scaled_dim (self s) f = Ok dim /\ cv2_resize f dim = Ok resized /\
    rows resized = snd dim /\ cols resized = fst dim /\
    frame_shown s' resized /\
    (uint8 resized = true ->
     forall i j k, 0 <= i < rows resized -> 0 <= j < cols resized ->
       0 <= k < 3 ->
       (a ← canvas s';
        get a (tag_border0 + i) (2 * tag_border0 + tag_size0 + j) k)
       = get resized i j k) /\
    (markers_available (self s) = true ->
     2 * tag_size0 <= img_height (self s') -> markers_intact s').
Proof.
  intros s Hts Htb Hch Hrun.
  assert (Hf1 : chans f <> 1) by lia.
  destruct (in_use_kept tag_size0 tag_border0 image_rescale0 s0 calls Hts
              ltac:(lia)) as (Hk & Ets & Etb).
  fold s in Hk, Ets, Etb.
  assert (Hfits : canvas_fits s) by (intros a Ha; apply (Hk a Ha)).
  destruct (scaled_dim (self s) f) as [[w h]|e] eqn:Hdim;
    [|rewrite (updateFrame_dim_raise s f e Hdim) in Hrun; discriminate].
  destruct (cv2_resize f (w, h)) as [r|e] eqn:Hres;
    [|rewrite (updateFrame_resize_raise s f _ e Hdim Hres) in Hrun; discriminate].
  destruct (resize_colour _ _ _ _ Hf1 Hres) as (Hwf & Hrr & Hrc & Hrch).
  exists (w, h), r. split; [reflexivity|]. split; [exact Hres|].
  split; [exact Hrr|]. split; [exact Hrc|].
  assert (Hshown : frame_shown s' r)
    by (apply (updateFrame_frame_step s f w h r s'); try assumption; lia).
  split; [exact Hshown|]. split.
  - intros Hu8 i j k Hi Hj Hk3.
    destruct Hshown as (a & Hc & Hr0 & Hc0 & (_ & _ & Hpx)).
    rewrite Hc. cbn [mbind option_bind].
    destruct (updateFrame_config f
                (fun q => q.1.1 = tag_size0 /\ q.1.2 = tag_border0) s
                (conj Ets Etb)) as [Ets' Etb'].
    rewrite Hrun in Ets', Etb'. cbn [fst snd] in Ets', Etb'.
    rewrite Etb' in Hr0. rewrite Ets', Etb' in Hc0. rewrite <- Hc0, <- Hr0.
    assert (Hcha : chans a = 3).
    { pose proof (updateFrame_kept s f ltac:(lia) ltac:(lia) Hk) as Hk'.
      rewrite Hrun in Hk'. cbn [fst] in Hk'.
      apply (Hk' a Hc). }
    rewrite (Hpx i j k Hi Hj ltac:(lia)).
    rewrite (bget_exact r i j k Hi Hj).
    unfold bidx. rewrite Hrch, Hch. cbn.
    destruct (wf_get r i j k Hwf Hi Hj ltac:(lia)) as [x Hx].
    rewrite Hx. cbn. f_equal.
    apply (uint8_get r i j k x Hu8) in Hx.
    unfold to_uint8. apply Z.mod_small. exact Hx.
  - intros Hav H2.
    destruct (in_use_steady tag_size0 tag_border0 image_rescale0 s0 calls
                Hts Htb Hav) as ((_ & _ & _ & Hmk) & _ & _).
    fold s in Hmk.
    destruct (updateFrame_tracks s f w h r Hdim Hres) as [_ Hh].
    rewrite Hrun in Hh. cbn [fst] in Hh. rewrite Hh in H2.
    apply (updateFrame_canvas_step s f w h r s'); try assumption; try lia.
    intros Hsz. apply Hmk.
    + pose proof (updateFrame_unchanged s f w h r) as Hout.
      cbv zeta in Hout.
      specialize (Hout ltac:(lia) ltac:(lia) Hdim Hres Hf1 Hsz Hfits).
      destruct (canvas s) as [a|]; [eauto|].
      rewrite Hrun in Hout. discriminate.
    + apply size_changed_false in Hsz as [<- _]. lia.
Qed.

End Canvas.

Lemma updateFrame_completes_witness :
  let s := @run_calls Ref.cv
             [CallFrame (Ex.frame 2 2);
              CallCursor (Py.Int 1) Ex.half [(Py.Int 0, Py.Int 0)]]
             (fst (__init__ 6 1 (Py.Int 1) Ex.blank)) in
  let f := Ex.frame 8 3 in
  match @cv2_resize Ref.cv f (3, 8) with
  | Ok _ =>
      0 < 3 /\ 0 < 8 /\
      (snd (@updateFrame Ref.cv f s) = Ok tt <->
       if size_changed (self s) (3, 8) then 6 <= 8 + 1
       else is_Some (canvas s))
  | Raise e => @updateFrame Ref.cv f s = (s, Raise e)
  end /\
  (3 <= 0 \/ 8 <= 0 -> exists e, @updateFrame Ref.cv f s = (s, Raise e)).
Proof.
  apply (@updateFrame_completes Ref.cv Ref_laws Ref_checks 6 1 (Py.Int 1)
           Ex.blank
           [CallFrame (Ex.frame 2 2);
            CallCursor (Py.Int 1) Ex.half [(Py.Int 0, Py.Int 0)]]
           (Ex.frame 8 3) 3 8).
  - lia.
  - lia.
  - vm_compute. reflexivity.
  - reflexivity.
  - vm_compute. reflexivity.
Defined.

(** The claim as stated fails.  With 6 px tags and a 1 px border a 2x2
    frame raises [ValueError]: the canvas is too low for a tag.  An empty
    frame is refused by [cv2.resize].  With 6 px tags and no border an
    8x3 frame raises [ValueError]: the index expressions ending in
    [-tag_border] select nothing.  With 4 px tags the markers cannot be
    drawn. *)
Lemma updateFrame_raises_counterexample :
  let s := Ex.window 6 1 (Py.Int 1) in
  let t := Ex.window 6 0 (Py.Int 1) in
  let u := Ex.window 4 1 (Py.Int 1) in
  0 < tag_size (self s) /\ 0 <= tag_border (self s) /\
  snd (@updateFrame Ref.cv (Ex.frame 2 2) s) = Raise ValueError /\
  snd (@updateFrame Ref.cv (Ex.frame 0 0) s) = Raise cv2_error /\
  0 < tag_size (self t) /\ 0 <= tag_border (self t) /\
  snd (@updateFrame Ref.cv (Ex.frame 8 3) t) = Raise ValueError /\
  0 < tag_size (self u) /\ 0 <= tag_border (self u) /\
  snd (@updateFrame Ref.cv (Ex.frame 8 3) u) = Raise cv2_error.
Proof.
  cbv zeta. split; [simpl; lia|]. split; [simpl; lia|].
  split; [vm_compute; reflexivity|]. split; [vm_compute; reflexivity|].
  split; [simpl; lia|]. split; [simpl; lia|].
  split; [vm_compute; reflexivity|].
  split; [simpl; lia|]. split; [simpl; lia|]. vm_compute; reflexivity.
Qed.

Lemma updateFrame_canvas_witness :
  let s := @run_calls Ref.cv
             [CallFrame (Ex.frame 2 2);
              CallCursor (Py.Int 1) Ex.half [(Py.Int 0, Py.Int 0)]]
             (fst (__init__ 6 1 (Py.Int 1) Ex.blank)) in
  let f := Ex.frame 12 3 in
  let s' := fst (@updateFrame Ref.cv f s) in
  exists dim resized,
    scaled_dim (self s) f = Ok dim /\ @cv2_resize Ref.cv f dim = Ok resized /\
    rows resized = snd dim /\ cols resized = fst dim /\
    frame_shown s' resized /\
    (uint8 resized = true ->
     forall i j k, 0 <= i < rows resized -> 0 <= j < cols resized ->
       0 <= k < 3 ->
       (a ← canvas s'; get a (1 + i) (2 * 1 + 6 + j) k) = get resized i j k) /\
    (@markers_available Ref.cv (self s) = true ->
     2 * 6 <= img_height (self s') -> @markers_intact Ref.cv s').
Proof.
  apply (@updateFrame_canvas Ref.cv Ref_laws 6 1 (Py.Int 1) Ex.blank
           [CallFrame (Ex.frame 2 2);
            CallCursor (Py.Int 1) Ex.half [(Py.Int 0, Py.Int 0)]]
           (Ex.frame 12 3)).
  - lia.
  - lia.
  - reflexivity.
  - vm_compute. reflexivity.
Defined.

(** The claim as stated fails, in four ways.
    With 6 px tags, a 1 px border and a frame 6 px high, the call returns
    normally, but the bottom-left tag was written over the upper-left
    one: canvas element (2, 4, 0), inside the upper-left region, is 0
    where marker 0 has 255.
    With 6 px tags and no border, a frame 1 px high raises on the first
    call and is accepted on the second, but the interior expression
    selects no row and the frame is not written.
    With 4 px tags no marker can be drawn: an 8x3 frame raises on the
    first call and is accepted on the second, the corner regions white.
    A one-channel frame 1 px high and 3 px wide, accepted on the second
    call, is resized to an array of rank 2, whose 3 elements numpy takes
    for the channels of every pixel. *)
Lemma updateFrame_canvas_counterexample :
  let s := Ex.window 6 1 (Py.Int 1) in
  let f := Ex.frame 6 2 in
  let s' := fst (@updateFrame Ref.cv f s) in
  let t := Ex.window 6 0 (Py.Int 1) in
  let g := Ex.frame 1 2 in
  let t1 := fst (@updateFrame Ref.cv g t) in
  let t2 := fst (@updateFrame Ref.cv g t1) in
  let u := Ex.window 4 1 (Py.Int 1) in
  let k := Ex.frame 8 3 in
  let u1 := fst (@updateFrame Ref.cv k u) in
  let u2 := fst (@updateFrame Ref.cv k u1) in
  let gray := Ref.tabulate 1 3 1 (fun _ j _ => 10 * (j + 1)) in
  let v1 := fst (@updateFrame Ref.cv gray s) in
  let v2 := fst (@updateFrame Ref.cv gray v1) in
  (snd (@updateFrame Ref.cv f s) = Ok tt /\
   @markers_available Ref.cv (self s) = true /\
   r0 (placed (self s') (ul_slices (self s'))) = 1 /\
   c0 (placed (self s') (ul_slices (self s'))) = 1 /\
   (a ← canvas s'; get a 2 4 0) = Some 0 /\
   bget (Ex.unwrap (@marker Ref.cv (self s') 0)) 1 3 0 = 255 /\
   ~ @markers_intact Ref.cv s') /\
  (snd (@updateFrame Ref.cv g t) = Raise ValueError /\
   snd (@updateFrame Ref.cv g t1) = Ok tt /\
   (a ← canvas t2; get a 0 6 0) = Some 255 /\
   get (Ex.unwrap (Ref.resize g (2, 1))) 0 0 0 = Some 7 /\
   ~ frame_shown t2 (Ex.unwrap (Ref.resize g (2, 1)))) /\
  (snd (@updateFrame Ref.cv k u) = Raise cv2_error /\
   snd (@updateFrame Ref.cv k u1) = Ok tt /\
   2 * tag_size (self u2) <= img_height (self u2) /\
   (a ← canvas u2; get a 2 2 0) = Some 255 /\
   ~ @markers_intact Ref.cv u2) /\
  (snd (@updateFrame Ref.cv gray s) = Raise ValueError /\
   snd (@updateFrame Ref.cv gray v1) = Ok tt /\
   get gray 0 0 0 = Some 10 /\
   (a ← canvas v2; get a 1 8 0) = Some 10 /\
   (a ← canvas v2; get a 1 8 1) = Some 20 /\
   (a ← canvas v2; get a 1 8 2) = Some 30 /\
   ~ frame_shown v2 (Ex.unwrap (Ref.resize gray (3, 1)))).
Proof.
  cbv zeta. split; [|split; [|split]].
  - split; [vm_compute; reflexivity|]. split; [vm_compute; reflexivity|].
    split; [reflexivity|]. split; [reflexivity|].
    split; [vm_compute; reflexivity|]. split; [vm_compute; reflexivity|].
    intros (a & ul & ur & br & bl & Hc & _ & M0 & _ & _ & _ & Sh & _).
    destruct Sh as (_ & _ & Hpx).
    assert (Ea : a = default (NdArray 0 0 0 [])
                       (canvas (fst (@updateFrame Ref.cv (Ex.frame 6 2)
                                       (Ex.window 6 1 (Py.Int 1))))))
      by (rewrite Hc; reflexivity).
    assert (Eu : ul = Ex.unwrap (@marker Ref.cv
                   (self (fst (@updateFrame Ref.cv (Ex.frame 6 2)
                                 (Ex.window 6 1 (Py.Int 1))))) 0))
      by (rewrite M0; reflexivity).
    specialize (Hpx 1 3 0). rewrite Ea, Eu in Hpx.
    vm_compute in Hpx.
    assert (Hf : Some 0 = Some 255); [|discriminate].
    apply Hpx; split; congruence.
  - split; [vm_compute; reflexivity|]. split; [vm_compute; reflexivity|].
    split; [vm_compute; reflexivity|]. split; [vm_compute; reflexivity|].
    intros (a & _ & _ & _ & Hh & _).
    vm_compute in Hh. discriminate.
  - split; [vm_compute; reflexivity|]. split; [vm_compute; reflexivity|].
    split; [vm_compute; discriminate|]. split; [vm_compute; reflexivity|].
    intros (a & ul & ur & br & bl & _ & _ & M0 & _).
    vm_compute in M0. discriminate.
  - split; [vm_compute; reflexivity|]. split; [vm_compute; reflexivity|].
    split; [vm_compute; reflexivity|]. split; [vm_compute; reflexivity|].
    split; [vm_compute; reflexivity|]. split; [vm_compute; reflexivity|].
    intros (a & _ & _ & _ & _ & Hw & _).
    vm_compute in Hw. discriminate.
Qed.
